(** * MRD time-tag manager: time-window lifecycle engine

    A shallow embedding of the tag lifecycle code of the MRD time-tag
    manager (React/TypeScript):

    - [CreateTag.calculateTimes], [CreateTag.handleSave], [CreateTag.handlePrint]
      (CreateTag.tsx),
    - [ActiveTagsDashboard.getTagStatus], [ActiveTagsDashboard.handleDiscardTag]
      (ActiveTagsDashboard.tsx),
    - [ProductManagement.handleSave] (ProductManagement.tsx),
    - [NotificationSystem] : the self-contained notification component that
      polls the store itself (NotificationSystem.tsx, default export),
    - [Dashboard] : the dashboard that owns the notification list, together
      with the props-driven notification component it renders
      (Dashboard.tsx and NotificationSystem.tsx, named export).

    Conventions.  A JavaScript [Date] is its time value, an integral number
    of milliseconds since the epoch, as a [Z]; only valid dates are modelled,
    and [DateFns.isValid] tells which time values a [Date] can hold.
    [new Date()] reads the clock: every function that reads it takes the
    instant as an argument [now].  React state is a record, a handler is a
    function from state to state, and an awaited store call that may reject
    takes the outcome of the call as a boolean argument. *)

From Stdlib Require Import ZArith List String Bool Lia DecimalString.
Import ListNotations.
Open Scope Z_scope.

(** ** date-fns *)

Module DateFns.

Definition Date := Z.

(** The time values a [Date] can hold lie within 8.64e15 milliseconds of
    the epoch (ECMAScript, TimeClip): [new Date(time)] is an Invalid Date
    beyond them.  The functions below compute on time values; they are the
    functions of the library as long as the dates they take and the dates
    they return are valid. *)
Definition maxTime : Z := 8640000000000000.

Definition isValid (time : Z) : bool := Z.abs time <=? maxTime.

Definition millisecondsInMinute : Z := 60000.
Definition millisecondsInDay : Z := 86400000.

Definition addMilliseconds (date : Date) (amount : Z) : Date := date + amount.

Definition addMinutes (date : Date) (amount : Z) : Date :=
  addMilliseconds date (amount * millisecondsInMinute).

(** Calendar functions work in the local zone of the browser; the zone is
    a fixed offset [tz] (milliseconds east of UTC): a day has 24 hours, and
    daylight-saving switches are not modelled. *)
Definition addDays (date : Date) (amount : Z) : Date :=
  date + amount * millisecondsInDay.

Definition startOfDay (tz : Z) (date : Date) : Date :=
  date - (date + tz) mod millisecondsInDay.

Definition endOfDay (tz : Z) (date : Date) : Date :=
  startOfDay tz date + (millisecondsInDay - 1).

Definition isAfter (date dateToCompare : Date) : bool := dateToCompare <? date.

Definition isBefore (date dateToCompare : Date) : bool := date <? dateToCompare.

Definition differenceInMilliseconds (dateLeft dateRight : Date) : Z :=
  dateLeft - dateRight.

(** The number of full minutes between the dates: the quotient is
    truncated towards zero. *)
Definition differenceInMinutes (dateLeft dateRight : Date) : Z :=
  Z.quot (differenceInMilliseconds dateLeft dateRight) millisecondsInMinute.

End DateFns.

Import DateFns.

(** ** JavaScript helpers *)

(** Interpolation of a number in a template literal. *)
Definition string_of_Z (z : Z) : string := NilZero.string_of_int (Z.to_int z).

(** Interpolation of a possibly [undefined] string in a template literal. *)
Definition interpolate (s : option string) : string :=
  match s with
  | Some v => v
  | None => "undefined"%string
  end.

(** Truthiness of a string. *)
Definition truthy (s : string) : bool := negb (String.eqb s "").

(** ** Records of the store *)

Inductive Lifecycle := active | used | discarded.

Definition Lifecycle_eqb (a b : Lifecycle) : bool :=
  match a, b with
  | active, active | used, used | discarded, discarded => true
  | _, _ => false
  end.

Module MRDTag.
Record t := mk {
  id : string;
  productId : string;
  locationId : string;
  userId : string;
  quantity : Z;
  batchNumber : option string;
  notes : string;
  madeTime : Date;
  readyTime : Date;
  discardTime : Date;
  status : Lifecycle;
  isPrinted : string;
  updatedAt : option Date;
  productName : option string;
  locationName : option string
}.
End MRDTag.

(** The object passed to [mrdTags.update]: the fields to overwrite. *)
Module TagPatch.
Record t := mk {
  productId : option string;
  locationId : option string;
  userId : option string;
  quantity : option Z;
  batchNumber : option string;
  notes : option string;
  madeTime : option Date;
  readyTime : option Date;
  discardTime : option Date;
  status : option Lifecycle;
  isPrinted : option string;
  updatedAt : option Date
}.
End TagPatch.

Module Product.
Record t := mk {
  id : string;
  name : string;
  category : string;
  readyTimeMinutes : Z;
  discardTimeMinutes : Z;
  timeType : string;
  dayOffset : option Z;
  storageRequirements : string;
  allergens : string;
  isActive : string;
  excludeFromDashboard : string
}.
End Product.

Module Location.
Record t := mk { id : string; name : string }.
End Location.

Module User.
Record t := mk { id : string; name : string; role : string }.
End User.

(** ** The external store (blink.db) *)

Module Db.

Record t := mk {
  mrdTags : list MRDTag.t;
  products : list Product.t
}.

Definition overwrite {A : Type} (new : option A) (old : A) : A :=
  match new with
  | Some v => v
  | None => old
  end.

Definition patchTag (p : TagPatch.t) (tag : MRDTag.t) : MRDTag.t :=
  MRDTag.mk
    (MRDTag.id tag)
    (overwrite (TagPatch.productId p) (MRDTag.productId tag))
    (overwrite (TagPatch.locationId p) (MRDTag.locationId tag))
    (overwrite (TagPatch.userId p) (MRDTag.userId tag))
    (overwrite (TagPatch.quantity p) (MRDTag.quantity tag))
    (match TagPatch.batchNumber p with
     | Some v => Some v
     | None => MRDTag.batchNumber tag
     end)
    (overwrite (TagPatch.notes p) (MRDTag.notes tag))
    (overwrite (TagPatch.madeTime p) (MRDTag.madeTime tag))
    (overwrite (TagPatch.readyTime p) (MRDTag.readyTime tag))
    (overwrite (TagPatch.discardTime p) (MRDTag.discardTime tag))
    (overwrite (TagPatch.status p) (MRDTag.status tag))
    (overwrite (TagPatch.isPrinted p) (MRDTag.isPrinted tag))
    (match TagPatch.updatedAt p with
     | Some v => Some v
     | None => MRDTag.updatedAt tag
     end)
    (MRDTag.productName tag)
    (MRDTag.locationName tag).

(** [mrdTags.update(id, patch)] *)
Definition mrdTags_update (id : string) (p : TagPatch.t) (db : t) : t :=
  mk (map (fun tag => if String.eqb (MRDTag.id tag) id then patchTag p tag else tag)
          (mrdTags db))
     (products db).

(** [mrdTags.create(tag)] *)
Definition mrdTags_create (tag : MRDTag.t) (db : t) : t :=
  mk (mrdTags db ++ [tag]) (products db).

Fixpoint insertByDiscardTime (tag : MRDTag.t) (l : list MRDTag.t) : list MRDTag.t :=
  match l with
  | [] => [tag]
  | x :: rest =>
      if MRDTag.discardTime tag <? MRDTag.discardTime x
      then tag :: x :: rest
      else x :: insertByDiscardTime tag rest
  end.

Definition orderByDiscardTime (l : list MRDTag.t) : list MRDTag.t :=
  fold_right insertByDiscardTime [] l.

(** [mrdTags.list({ where: { status: 'active' }, orderBy: { discardTime: 'asc' } })] *)
Definition mrdTags_listActive (db : t) : list MRDTag.t :=
  orderByDiscardTime
    (filter (fun tag => Lifecycle_eqb (MRDTag.status tag) active) (mrdTags db)).

(** [mrdTags.list({ where: { locationId, status: 'active' }, orderBy: { discardTime: 'asc' } })] *)
Definition mrdTags_listActiveAt (locationId : string) (db : t) : list MRDTag.t :=
  orderByDiscardTime
    (filter (fun tag => String.eqb (MRDTag.locationId tag) locationId
                        && Lifecycle_eqb (MRDTag.status tag) active)
            (mrdTags db)).

(** [products.list({ where: { isActive: "1" } })] *)
Definition products_listActive (db : t) : list Product.t :=
  filter (fun p => String.eqb (Product.isActive p) "1") (products db).

(** [products.update(id, productData)]: every field but the id is overwritten. *)
Definition products_update (id : string) (data : Product.t) (db : t) : t :=
  mk (mrdTags db)
     (map (fun p =>
             if String.eqb (Product.id p) id
             then Product.mk (Product.id p) (Product.name data) (Product.category data)
                    (Product.readyTimeMinutes data) (Product.discardTimeMinutes data)
                    (Product.timeType data) (Product.dayOffset data)
                    (Product.storageRequirements data) (Product.allergens data)
                    (Product.isActive data) (Product.excludeFromDashboard data)
             else p)
          (products db)).

(** [products.create(product)] *)
Definition products_create (p : Product.t) (db : t) : t :=
  mk (mrdTags db) (products db ++ [p]).

End Db.

(** ** CreateTag.tsx

    [calculateTimes] (lines 68-90), [handleSave] (94-142) and [handlePrint]
    (144-159) of the tag-creation form. *)

Module CreateTag.

Record FormData := mkFormData {
  productId : string;
  locationId : string;
  quantity : Z;
  batchNumber : string;
  notes : string;
  madeTime : Date
}.

Record Times := mkTimes {
  readyTime : option Date;
  discardTime : option Date
}.

Record State := mkState {
  products : list Product.t;
  formData : FormData;
  previewTag : option MRDTag.t;
  isPreviewOpen : bool
}.

Definition selectedProduct (st : State) : option Product.t :=
  find (fun p => String.eqb (Product.id p) (productId (formData st))) (products st).

Definition dayOffsetOrZero (p : Product.t) : Z :=
  match Product.dayOffset p with
  | Some n => n
  | None => 0
  end.

Definition calculateTimes (tz : Z) (selected : option Product.t) (made : Date) : Times :=
  match selected with
  | None => mkTimes None None
  | Some p =>
      if String.eqb (Product.timeType p) "hours" then
        let ready := addMinutes made (Product.readyTimeMinutes p) in
        let discard := addMinutes made (Product.discardTimeMinutes p) in
        mkTimes (Some ready) (Some discard)
      else if String.eqb (Product.timeType p) "start_of_day" then
        let targetDay := addDays made (dayOffsetOrZero p) in
        mkTimes (Some (startOfDay tz targetDay)) (Some (startOfDay tz targetDay))
      else if String.eqb (Product.timeType p) "end_of_day" then
        let targetDay := addDays made (dayOffsetOrZero p) in
        mkTimes (Some (endOfDay tz targetDay)) (Some (endOfDay tz targetDay))
      else mkTimes None None
  end.

(** [handleSave]: [user] is the id of the signed-in user (empty when there
    is none), [selectedLocationId] the id of the selected location,
    [createOk] tells whether [mrdTags.create] resolves.  The form is reset
    to the current instant at minute resolution. *)
Definition handleSave (tz : Z) (now : Date) (user selectedLocationId : string)
    (createOk : bool) (w : Db.t * State) : Db.t * State :=
  let (db, st) := w in
  match selectedProduct st, calculateTimes tz (selectedProduct st) (madeTime (formData st)) with
  | Some _, mkTimes (Some ready) (Some discard) =>
      let tagData :=
        MRDTag.mk (append "tag_" (string_of_Z now))
          (productId (formData st)) (locationId (formData st)) user
          (quantity (formData st)) (Some (batchNumber (formData st))) (notes (formData st))
          (madeTime (formData st)) ready discard active "0" None None None in
      if createOk then
        (Db.mrdTags_create tagData db,
         mkState (products st)
           (mkFormData "" selectedLocationId 1 "" ""
              (now - now mod millisecondsInMinute))
           (Some tagData) true)
      else (db, st)
  | _, _ => (db, st)
  end.

(** [{ isPrinted: "1" }] *)
Definition printedPatch : TagPatch.t :=
  TagPatch.mk None None None None None None None None None None (Some "1"%string) None.

(** [handlePrint]: [updateOk] tells whether [mrdTags.update] resolves. *)
Definition handlePrint (updateOk : bool) (w : Db.t * State) : Db.t * State :=
  let (db, st) := w in
  match previewTag st with
  | None => (db, st)
  | Some tag =>
      if updateOk then
        (Db.mrdTags_update (MRDTag.id tag) printedPatch db,
         mkState (products st) (formData st) None false)
      else (db, st)
  end.

End CreateTag.

(** ** ActiveTagsDashboard.tsx

    [getTagStatus] (lines 77-92) and [handleDiscardTag] (148-171) of the
    active-tags table. *)

Inductive TagStatus := expired | expiring | preparing | ready | fresh.

Module ActiveTagsDashboard.

Record Verdict := mkVerdict {
  status : TagStatus;
  label : string;
  color : string
}.

Definition getTagStatus (now : Date) (tag : MRDTag.t) : Verdict :=
  let discardTime := MRDTag.discardTime tag in
  let readyTime := MRDTag.readyTime tag in
  let minutesToDiscard := differenceInMinutes discardTime now in
  if isAfter now discardTime then mkVerdict expired "EXPIRED" "destructive"
  else if minutesToDiscard <=? 30 then mkVerdict expiring "EXPIRING SOON" "secondary"
  else if isBefore now readyTime then mkVerdict preparing "PREPARING" "outline"
  else mkVerdict ready "READY" "default".

(** [{ status: 'discarded', updatedAt: new Date().toISOString() }] *)
Definition discardPatch (now : Date) : TagPatch.t :=
  TagPatch.mk None None None None None None None None None
    (Some discarded) None (Some now).

(** [handleDiscardTag]: [confirmed] is the answer to the [confirm] dialog,
    [updateOk] tells whether [mrdTags.update] resolves. *)
Definition handleDiscardTag (now : Date) (confirmed updateOk : bool)
    (tagId : string) (db : Db.t) : Db.t :=
  if negb confirmed then db
  else if updateOk then Db.mrdTags_update tagId (discardPatch now) db
  else db.

End ActiveTagsDashboard.

(** ** ProductManagement.tsx

    [handleSave] (lines 104-134) of the product form. *)

Module ProductManagement.

Record FormData := mkFormData {
  name : string;
  category : string;
  readyTimeHours : Z;
  readyTimeMinutes : Z;
  discardTimeHours : Z;
  discardTimeMinutes : Z;
  timeType : string;
  dayOffset : Z;
  storageRequirements : string;
  allergens : string;
  isActive : bool;
  excludeFromDashboard : bool
}.

Definition flag (b : bool) : string := if b then "1"%string else "0"%string.

Definition productData (id : string) (f : FormData) : Product.t :=
  Product.mk id (name f) (category f)
    (readyTimeHours f * 60 + readyTimeMinutes f)
    (discardTimeHours f * 60 + discardTimeMinutes f)
    (timeType f) (Some (dayOffset f))
    (storageRequirements f) (allergens f)
    (flag (isActive f)) (flag (excludeFromDashboard f)).

(** [handleSave]: [editingProduct] is the id of the product being edited,
    if any; [saveOk] tells whether the store call resolves. *)
Definition handleSave (now : Date) (saveOk : bool) (editingProduct : option string)
    (f : FormData) (db : Db.t) : Db.t :=
  if saveOk then
    match editingProduct with
    | Some id => Db.products_update id (productData id f) db
    | None =>
        Db.products_create (productData (append "prod_" (string_of_Z now)) f) db
    end
  else db.

End ProductManagement.

(** ** Notifications *)

Inductive Severity := critical | warning.

Definition Severity_eqb (a b : Severity) : bool :=
  match a, b with
  | critical, critical | warning, warning => true
  | _, _ => false
  end.

Module NotificationData.
Record t := mk {
  id : string;
  type : Severity;
  title : string;
  message : string;
  tagId : option string;
  productName : option string;
  locationName : option string;
  timeRemaining : option string;
  timestamp : Date
}.
End NotificationData.

(** The front-selection effect, the same code in both notification
    components (NotificationSystem.tsx, lines 114-133 and 281-300): it depends on the notification list and on the component's
    own [currentNotification] and [isVisible]; [sounds] counts the calls of
    [playNotificationSound]. *)
Module Front.

Record State := mk {
  currentNotification : option NotificationData.t;
  isVisible : bool;
  sounds : nat
}.

Definition initial : State := mk None false 0.

Definition criticalNotifications (notifications : list NotificationData.t) :=
  filter (fun n => Severity_eqb (NotificationData.type n) critical) notifications.

Definition warningNotifications (notifications : list NotificationData.t) :=
  filter (fun n => Severity_eqb (NotificationData.type n) warning) notifications.

(** [criticalNotifications[0] || warningNotifications[0]] *)
Definition nextNotification (notifications : list NotificationData.t)
    : option NotificationData.t :=
  match criticalNotifications notifications with
  | n :: _ => Some n
  | [] =>
      match warningNotifications notifications with
      | n :: _ => Some n
      | [] => None
      end
  end.

(** [nextNotification.id !== currentNotification?.id] *)
Definition differsFromCurrent (n : NotificationData.t)
    (current : option NotificationData.t) : bool :=
  match current with
  | Some c => negb (String.eqb (NotificationData.id n) (NotificationData.id c))
  | None => true
  end.

Definition playNotificationSound (s : State) : State :=
  mk (currentNotification s) (isVisible s) (S (sounds s)).

Definition effect (notifications : list NotificationData.t) (s : State) : State :=
  match nextNotification notifications with
  | Some n =>
      if differsFromCurrent n (currentNotification s) then
        let s' := mk (Some n) true (sounds s) in
        match NotificationData.type n with
        | critical => playNotificationSound s'
        | warning => s'
        end
      else s
  | None => mk None false (sounds s)
  end.

End Front.

(** ** NotificationSystem.tsx, the self-contained component

    [checkForExpiringTags] (lines 49-100), the polling effect (102-112),
    [handleDismiss] and [handleMarkAsHandled] (135-147). *)

Module NotificationSystem.

Record Auth := mkAuth {
  user : option User.t;
  selectedLocation : option Location.t
}.

Record World := mkWorld {
  db : Db.t;
  notifications : list NotificationData.t;
  front : Front.State;
  console : list string
}.

Definition initial (d : Db.t) : World := mkWorld d [] Front.initial [].

(** The body of the [forEach] over the fetched tags. *)
Definition pushFor (now : Date) (newNotifications : list NotificationData.t)
    (tag : MRDTag.t) : list NotificationData.t :=
  let discardTime := MRDTag.discardTime tag in
  let minutesToDiscard := differenceInMinutes discardTime now in
  if isAfter now discardTime then
    newNotifications ++
      [NotificationData.mk
         (append "expired_" (MRDTag.id tag))
         critical
         "PRODUCT EXPIRED"
         (append (interpolate (MRDTag.productName tag))
                 " has expired and must be discarded immediately!")
         None
         (MRDTag.productName tag)
         (MRDTag.locationName tag)
         (Some "EXPIRED"%string)
         now]
  else if minutesToDiscard <=? 30 then
    newNotifications ++
      [NotificationData.mk
         (append "expiring_" (MRDTag.id tag))
         warning
         "PRODUCT EXPIRING SOON"
         (append (interpolate (MRDTag.productName tag))
            (append " will expire in "
               (append (string_of_Z minutesToDiscard) " minutes.")))
         None
         (MRDTag.productName tag)
         (MRDTag.locationName tag)
         (Some (append (string_of_Z minutesToDiscard) " minutes"))
         now]
  else newNotifications.

Definition visibleTags (auth : Auth) (tagsData : list MRDTag.t) : list MRDTag.t :=
  match user auth, selectedLocation auth with
  | Some u, Some loc =>
      if String.eqb (User.role u) "kitchen"
      then filter (fun tag => String.eqb (MRDTag.locationId tag) (Location.id loc)) tagsData
      else tagsData
  | _, _ => tagsData
  end.

(** [checkForExpiringTags]: [fetchOk] tells whether [mrdTags.list] resolves. *)
Definition checkForExpiringTags (auth : Auth) (now : Date) (fetchOk : bool)
    (w : World) : World :=
  if fetchOk then
    let tagsData := visibleTags auth (Db.mrdTags_listActive (db w)) in
    let newNotifications := fold_left (pushFor now) tagsData [] in
    mkWorld (db w) newNotifications (front w) (console w)
  else
    mkWorld (db w) (notifications w) (front w)
      ("Error checking for expiring tags:"%string :: console w).

Definition removeCurrent (w : World) : World :=
  match Front.currentNotification (front w) with
  | Some c =>
      mkWorld (db w)
        (filter (fun n => negb (String.eqb (NotificationData.id n) (NotificationData.id c)))
                (notifications w))
        (Front.mk (Front.currentNotification (front w)) false (Front.sounds (front w)))
        (console w)
  | None => w
  end.

Definition handleDismiss (w : World) : World := removeCurrent w.

Definition handleMarkAsHandled (w : World) : World := removeCurrent w.

(** Rendering runs the front-selection effect. *)
Definition render (w : World) : World :=
  mkWorld (db w) (notifications w) (Front.effect (notifications w) (front w)) (console w).

(** What happens to a mounted component: the 30-second interval fires, the
    operator presses one of the two buttons, or another part of the
    application changes the store. *)
Inductive Event :=
| Tick (now : Date) (fetchOk : bool)
| Dismiss
| MarkAsHandled
| StoreChanged (d : Db.t).

(** The interval is installed only when a user and a location are set. *)
Definition polling (auth : Auth) : bool :=
  match user auth, selectedLocation auth with
  | Some _, Some _ => true
  | _, _ => false
  end.

Definition handle (auth : Auth) (e : Event) (w : World) : World :=
  match e with
  | Tick now fetchOk =>
      if polling auth then checkForExpiringTags auth now fetchOk w else w
  | Dismiss => handleDismiss w
  | MarkAsHandled => handleMarkAsHandled w
  | StoreChanged d => mkWorld d (notifications w) (front w) (console w)
  end.

Definition step (auth : Auth) (w : World) (e : Event) : World :=
  render (handle auth e w).

Definition run (auth : Auth) (events : list Event) (w : World) : World :=
  fold_left (step auth) events w.

(** The live state: everything but the store and the console. *)
Definition live (w : World) : list NotificationData.t * Front.State :=
  (notifications w, front w).

End NotificationSystem.

(** ** Dashboard.tsx, with the props-driven notification component

    [checkForExpiringTags], [loadData], [getTagStatus],
    [handleNotificationDismiss] and [handleNotificationMarkAsHandled] of the
    dashboard, and [handleDismiss] and [handleMarkAsHandled] of the
    notification component it passes them to (NotificationSystem.tsx, lines
    302-314). *)

Module Dashboard.

Record Verdict := mkVerdict {
  status : TagStatus;
  color : string;
  text : string
}.

Definition getTagStatus (now : Date) (tag : MRDTag.t) : Verdict :=
  let minutesUntilDiscard := differenceInMinutes (MRDTag.discardTime tag) now in
  if minutesUntilDiscard <=? 0 then mkVerdict expired "destructive" "EXPIRED"
  else if minutesUntilDiscard <=? 30 then
    mkVerdict expiring "secondary" (append (string_of_Z minutesUntilDiscard) "m left")
  else
    mkVerdict fresh "default"
      (append (string_of_Z (minutesUntilDiscard / 60))
         (append "h " (append (string_of_Z (Z.rem minutesUntilDiscard 60)) "m left"))).

(** [front] is the state of the notification component the dashboard
    renders; its [sounds] field counts calls and survives a remount. *)
Record World := mkWorld {
  db : Db.t;
  activeTags : list MRDTag.t;
  products : list Product.t;
  notifications : list NotificationData.t;
  isLoading : bool;
  front : Front.State;
  console : list string
}.

Definition initial (d : Db.t) : World := mkWorld d [] [] [] true Front.initial [].

(** [product?.name || 'Unknown Product'] *)
Definition nameOrUnknown (product : option Product.t) : string :=
  match product with
  | Some p => if truthy (Product.name p) then Product.name p else "Unknown Product"%string
  | None => "Unknown Product"%string
  end.

(** The body of the [forEach] over the tags to check. *)
Definition pushFor (now : Date) (products : list Product.t)
    (currentLocation : option Location.t)
    (newNotifications : list NotificationData.t) (tag : MRDTag.t)
    : list NotificationData.t :=
  let minutesUntilDiscard := differenceInMinutes (MRDTag.discardTime tag) now in
  let product := find (fun p => String.eqb (Product.id p) (MRDTag.productId tag)) products in
  if minutesUntilDiscard <=? 0 then
    newNotifications ++
      [NotificationData.mk
         (append "expired-" (MRDTag.id tag))
         critical
         "Product Expired"
         (append (nameOrUnknown product)
                 " has expired and must be discarded immediately!")
         (Some (MRDTag.id tag))
         (option_map Product.name product)
         (option_map Location.name currentLocation)
         (Some "EXPIRED"%string)
         now]
  else if minutesUntilDiscard <=? 30 then
    newNotifications ++
      [NotificationData.mk
         (append "expiring-" (MRDTag.id tag))
         warning
         "Product Expiring Soon"
         (append (nameOrUnknown product)
            (append " will expire in "
               (append (string_of_Z minutesUntilDiscard) " minutes.")))
         (Some (MRDTag.id tag))
         (option_map Product.name product)
         (option_map Location.name currentLocation)
         (Some (append (string_of_Z minutesUntilDiscard) " minutes"))
         now]
  else newNotifications.

(** [checkForExpiringTags(tags?)]: [tags || activeTags] takes the argument
    whenever one is passed, an array being truthy even when empty. *)
Definition checkForExpiringTags (now : Date) (currentLocation : option Location.t)
    (tags : option (list MRDTag.t)) (w : World) : World :=
  let tagsToCheck := match tags with Some l => l | None => activeTags w end in
  let newNotifications :=
    fold_left (pushFor now (products w) currentLocation) tagsToCheck [] in
  mkWorld (db w) (activeTags w) (products w) newNotifications (isLoading w)
    (front w) (console w).

(** [loadData]: while [isLoading] is set the dashboard renders only the
    spinner, so the notification component is unmounted and mounted again
    with its initial state.  [checkForExpiringTags] is the callback of the
    render that created [loadData]: it looks products up in the product
    list of that render. *)
Definition loadData (now : Date) (currentLocation : option Location.t)
    (fetchOk : bool) (w : World) : World :=
  match currentLocation with
  | None => w
  | Some loc =>
      let remounted := Front.mk None false (Front.sounds (front w)) in
      if fetchOk then
        let tagsResult := Db.mrdTags_listActiveAt (Location.id loc) (db w) in
        let productsResult := Db.products_listActive (db w) in
        let checked := checkForExpiringTags now currentLocation (Some tagsResult) w in
        mkWorld (db w) tagsResult productsResult (notifications checked) false
          remounted (console w)
      else
        mkWorld (db w) (activeTags w) (products w) (notifications w) false
          remounted ("Failed to load data:"%string :: console w)
  end.

Definition handleNotificationDismiss (id : string) (w : World) : World :=
  mkWorld (db w) (activeTags w) (products w)
    (filter (fun n => negb (String.eqb (NotificationData.id n) id)) (notifications w))
    (isLoading w) (front w) (console w).

(** [{ status: 'discarded', updatedAt: new Date().toISOString() }] *)
Definition discardPatch (now : Date) : TagPatch.t :=
  TagPatch.mk None None None None None None None None None
    (Some discarded) None (Some now).

(** Does the handler reach [mrdTags.update], and for which tag? *)
Definition tagToDiscard (id : string) (w : World) : option string :=
  match find (fun n => String.eqb (NotificationData.id n) id) (notifications w) with
  | Some notification =>
      match NotificationData.tagId notification with
      | Some tagId =>
          if truthy tagId then
            match NotificationData.type notification with
            | critical => Some tagId
            | warning => None
            end
          else None
      | None => None
      end
  | None => None
  end.

(** [handleNotificationMarkAsHandled]: [updateOk] and [loadOk] tell whether
    [mrdTags.update] and the fetches of the following [loadData] resolve.
    [loadData] is started after the update but completes after the
    notification has been removed. *)
Definition handleNotificationMarkAsHandled (now : Date)
    (currentLocation : option Location.t) (updateOk loadOk : bool)
    (id : string) (w : World) : World :=
  match tagToDiscard id w with
  | Some tagId =>
      if updateOk then
        let w1 := mkWorld (Db.mrdTags_update tagId (discardPatch now) (db w))
                    (activeTags w) (products w) (notifications w) (isLoading w)
                    (front w) (console w) in
        loadData now currentLocation loadOk (handleNotificationDismiss id w1)
      else
        handleNotificationDismiss id
          (mkWorld (db w) (activeTags w) (products w) (notifications w) (isLoading w)
             (front w) ("Failed to update tag status:"%string :: console w))
  | None => handleNotificationDismiss id w
  end.

Definition hide (w : World) : World :=
  mkWorld (db w) (activeTags w) (products w) (notifications w) (isLoading w)
    (Front.mk (Front.currentNotification (front w)) false (Front.sounds (front w)))
    (console w).

(** The two buttons of the rendered notification component. *)
Definition handleDismiss (w : World) : World :=
  match Front.currentNotification (front w) with
  | Some c => hide (handleNotificationDismiss (NotificationData.id c) w)
  | None => w
  end.

Definition handleMarkAsHandled (now : Date) (currentLocation : option Location.t)
    (updateOk loadOk : bool) (w : World) : World :=
  match Front.currentNotification (front w) with
  | Some c =>
      handleNotificationMarkAsHandled now currentLocation updateOk loadOk
        (NotificationData.id c) (hide w)
  | None => w
  end.

Definition render (w : World) : World :=
  mkWorld (db w) (activeTags w) (products w) (notifications w) (isLoading w)
    (Front.effect (notifications w) (front w)) (console w).

End Dashboard.

(** ** Sample data *)

Definition sampleTag (id : string) (ready discard : Date) : MRDTag.t :=
  MRDTag.mk id "prod_1" "loc_1" "user_1" 1 (Some ""%string) "" 0 ready discard active "0"
    None (Some "Soup"%string) (Some "Kitchen"%string).

Definition sampleProduct (readyMinutes discardMinutes : Z) : Product.t :=
  Product.mk "prod_1" "Soup" "Hot" readyMinutes discardMinutes "hours" None "" "" "1" "0".

Definition sampleForm (readyMinutes discardMinutes : Z) : ProductManagement.FormData :=
  ProductManagement.mkFormData "Soup" "Hot" 0 readyMinutes 0 discardMinutes "hours" 0
    "" "" true false.

Definition emptyDb : Db.t := Db.mk [] [].

(** ** Vocabulary of the statements *)

(** The severity an event id announces: ids start with [expired] or with
    [expiring], in both notification components. *)
Definition idSeverity (id : string) : Severity :=
  if String.prefix "expired" id then critical else warning.

(** An event whose type is the one its id announces. *)
Definition coherent (n : NotificationData.t) : Prop :=
  NotificationData.type n = idSeverity (NotificationData.id n).

Definition isCritical (n : NotificationData.t) : bool :=
  Severity_eqb (NotificationData.type n) critical.

Definition isWarning (n : NotificationData.t) : bool :=
  Severity_eqb (NotificationData.type n) warning.

Definition hasId (id : string) (n : NotificationData.t) : bool :=
  String.eqb (NotificationData.id n) id.



(** The front notification of [new] is critical and is not the one of [old]. *)
Definition becameCriticalFront (old new : Front.State) : bool :=
  match Front.currentNotification new with
  | Some c => isCritical c && Front.differsFromCurrent c (Front.currentNotification old)
  | None => false
  end.

(** Every field of a tag but [status], [isPrinted] and [updatedAt]. *)
Definition frozen (tag : MRDTag.t) :=
  (MRDTag.id tag, MRDTag.productId tag, MRDTag.locationId tag, MRDTag.userId tag,
   MRDTag.quantity tag, MRDTag.batchNumber tag, MRDTag.notes tag,
   MRDTag.madeTime tag, MRDTag.readyTime tag, MRDTag.discardTime tag,
   MRDTag.productName tag, MRDTag.locationName tag).

(** A patch that names none of these fields. *)
Definition statusOnly (p : TagPatch.t) : Prop :=
  TagPatch.productId p = None /\ TagPatch.locationId p = None
  /\ TagPatch.userId p = None /\ TagPatch.quantity p = None
  /\ TagPatch.batchNumber p = None /\ TagPatch.notes p = None
  /\ TagPatch.madeTime p = None /\ TagPatch.readyTime p = None
  /\ TagPatch.discardTime p = None.

Definition sampleLocation : option Location.t := Some (Location.mk "loc_1" "Kitchen").

(** The state a render leaves behind: every live event is coherent, the
    current notification is coherent and visible, and it carries the id of
    the next notification of the list. *)
Definition settled (w : NotificationSystem.World) : Prop :=
  Forall coherent (NotificationSystem.notifications w)
  /\ (forall c, Front.currentNotification (NotificationSystem.front w) = Some c ->
        coherent c /\ Front.isVisible (NotificationSystem.front w) = true)
  /\ match Front.nextNotification (NotificationSystem.notifications w) with
     | None =>
         Front.currentNotification (NotificationSystem.front w) = None
         /\ Front.isVisible (NotificationSystem.front w) = false
     | Some n =>
         exists c, Front.currentNotification (NotificationSystem.front w) = Some c
           /\ NotificationData.id c = NotificationData.id n
     end.

(** Worlds that differ in the console only. *)
Definition sameLive (w1 w2 : NotificationSystem.World) : Prop :=
  NotificationSystem.live w1 = NotificationSystem.live w2
  /\ NotificationSystem.db w1 = NotificationSystem.db w2.

Definition sampleAuth : NotificationSystem.Auth :=
  NotificationSystem.mkAuth
    (Some (User.mk "user_1" "Ann" "admin"))
    (Some (Location.mk "loc_1" "Kitchen")).

(** One tag, whose discard time is the instant 0. *)
Definition oneExpired : Db.t := Db.mk [sampleTag "t1" 0 0] [].

(** Two tags, whose discard times are the instants 0 and 1. *)
Definition twoExpired : Db.t := Db.mk [sampleTag "t1" 0 0; sampleTag "t2" 0 1] [].

(** * Views, forms and sign-in *)

(** ** String helpers *)

(** [s.includes(sub)] *)
Fixpoint includes (s sub : string) : bool :=
  if String.prefix sub s then true
  else match s with
       | EmptyString => false
       | String _ rest => includes rest sub
       end.

(** [value?.toLowerCase().includes(term.toLowerCase())], [undefined] being
    falsy.  [toLowerCase] is the string method of the JavaScript engine. *)
Definition optionIncludes (toLowerCase : string -> string) (value : option string)
    (term : string) : bool :=
  match value with
  | Some v => includes (toLowerCase v) (toLowerCase term)
  | None => false
  end.

(** The status strings of the classifiers. *)
Definition statusName (s : TagStatus) : string :=
  match s with
  | expired => "expired"
  | expiring => "expiring"
  | preparing => "preparing"
  | ready => "ready"
  | fresh => "fresh"
  end.

(** ** ActiveTagsDashboard.tsx, the cards and the table

    [filteredTags] (lines 107-118), [getStatusCounts] (120-135) and the
    time-remaining cell of a row (339-378).  [getTagStatus] reads the clock
    at every call: in a pass over the tags, [clock k] is the instant read
    for the tag at position [k]. *)

(** The elements of an array with their positions. *)
Definition indexed {A : Type} (l : list A) : list (nat * A) :=
  combine (seq 0 (List.length l)) l.

Module Counts.
Record t := mk {
  total : nat;
  ready : nat;
  preparing : nat;
  expiring : nat;
  expired : nat
}.
End Counts.

Module ActiveTagsTable.

(** [counts[status.status]++]; [getTagStatus] never returns the status of
    the dashboard cards, for which the object has no counter. *)
Definition increment (counts : Counts.t) (s : TagStatus) : Counts.t :=
  match s with
  | ready =>
      Counts.mk (Counts.total counts) (S (Counts.ready counts)) (Counts.preparing counts)
        (Counts.expiring counts) (Counts.expired counts)
  | preparing =>
      Counts.mk (Counts.total counts) (Counts.ready counts) (S (Counts.preparing counts))
        (Counts.expiring counts) (Counts.expired counts)
  | expiring =>
      Counts.mk (Counts.total counts) (Counts.ready counts) (Counts.preparing counts)
        (S (Counts.expiring counts)) (Counts.expired counts)
  | expired =>
      Counts.mk (Counts.total counts) (Counts.ready counts) (Counts.preparing counts)
        (Counts.expiring counts) (S (Counts.expired counts))
  | fresh => counts
  end.

Definition getStatusCounts (clock : nat -> Date) (tags : list MRDTag.t) : Counts.t :=
  fold_left
    (fun counts entry =>
       increment counts
         (ActiveTagsDashboard.status
            (ActiveTagsDashboard.getTagStatus (clock (fst entry)) (snd entry))))
    (indexed tags)
    (Counts.mk (List.length tags) 0 0 0 0).

Definition matchesSearch (toLowerCase : string -> string) (searchTerm : string)
    (tag : MRDTag.t) : bool :=
  optionIncludes toLowerCase (MRDTag.productName tag) searchTerm
  || optionIncludes toLowerCase (MRDTag.locationName tag) searchTerm
  || optionIncludes toLowerCase (MRDTag.batchNumber tag) searchTerm.

Definition matchesStatus (now : Date) (statusFilter : string) (tag : MRDTag.t) : bool :=
  String.eqb statusFilter "all"
  || String.eqb
       (statusName (ActiveTagsDashboard.status (ActiveTagsDashboard.getTagStatus now tag)))
       statusFilter.

Definition matchesLocation (locationFilter : string) (tag : MRDTag.t) : bool :=
  String.eqb locationFilter "all" || String.eqb (MRDTag.locationId tag) locationFilter.

Definition filteredTags (toLowerCase : string -> string) (clock : nat -> Date)
    (searchTerm statusFilter locationFilter : string) (tags : list MRDTag.t)
    : list MRDTag.t :=
  map snd
    (filter (fun entry =>
               matchesSearch toLowerCase searchTerm (snd entry)
               && matchesStatus (clock (fst entry)) statusFilter (snd entry)
               && matchesLocation locationFilter (snd entry))
            (indexed tags)).

(** The text and the colour of the time-remaining cell. *)
Definition timeRemaining (now : Date) (tag : MRDTag.t) : string :=
  let minutesToDiscard := differenceInMinutes (MRDTag.discardTime tag) now in
  if minutesToDiscard <=? 0 then "EXPIRED"
  else if minutesToDiscard <? 60 then append (string_of_Z minutesToDiscard) "m"
  else append (string_of_Z (minutesToDiscard / 60))
         (append "h " (append (string_of_Z (Z.rem minutesToDiscard 60)) "m")).

Definition timeRemainingClass (now : Date) (tag : MRDTag.t) : string :=
  let minutesToDiscard := differenceInMinutes (MRDTag.discardTime tag) now in
  if minutesToDiscard <=? 0 then "text-red-600"
  else if minutesToDiscard <=? 30 then "text-yellow-600"
  else "text-green-600".

End ActiveTagsTable.

(** ** Dashboard.tsx, the counters of the overview (lines 163-173) *)

Module DashboardStats.

Record t := mk {
  totalActive : nat;
  expiringSoon : nat;
  expired : nat
}.

Definition stats (now : Date) (activeTags : list MRDTag.t) : t :=
  mk (List.length activeTags)
     (List.length
        (filter (fun tag =>
                   let minutesUntilDiscard :=
                     differenceInMinutes (MRDTag.discardTime tag) now in
                   (minutesUntilDiscard <=? 30) && (0 <? minutesUntilDiscard))
                activeTags))
     (List.length
        (filter (fun tag =>
                   let minutesUntilDiscard :=
                     differenceInMinutes (MRDTag.discardTime tag) now in
                   minutesUntilDiscard <=? 0)
                activeTags)).

End DashboardStats.

(** ** CreateTag.tsx, the status badge of the preview (lines 161-177) *)

Module CreateTagPreview.

Definition getStatusColor (now : Date) (times : CreateTag.Times) : string :=
  match CreateTag.readyTime times, CreateTag.discardTime times with
  | Some readyTime, Some discardTime =>
      if now <? readyTime then "blue"
      else if (readyTime <=? now) && (now <? discardTime) then "green"
      else "red"
  | _, _ => "gray"
  end.

Definition getStatusText (now : Date) (times : CreateTag.Times) : string :=
  match CreateTag.readyTime times, CreateTag.discardTime times with
  | Some readyTime, Some discardTime =>
      if now <? readyTime then "Preparing"
      else if (readyTime <=? now) && (now <? discardTime) then "Ready"
      else "Expired"
  | _, _ => "Invalid"
  end.

End CreateTagPreview.

(** ** ProductManagement.tsx, the rest of the product page

    [categories] (line 58), [filteredProducts] (60-65), [handleEdit]
    (85-102), [handleDelete] (136-143) and [getTimeDisplay] (145-161). *)

Module ProductPage.

(** Insertion in a JavaScript [Set]: a value already present is not added
    again, and values keep the order of their first insertion. *)
Definition setAdd (set : list string) (value : string) : list string :=
  if existsb (String.eqb value) set then set else set ++ [value].

(** [[...new Set(products.map(p => p.category).filter(Boolean))]] *)
Definition categories (products : list Product.t) : list string :=
  fold_left setAdd (filter truthy (map Product.category products)) [].

Definition filteredProducts (toLowerCase : string -> string)
    (searchTerm categoryFilter : string) (products : list Product.t) : list Product.t :=
  filter (fun product =>
            let matchesSearch :=
              includes (toLowerCase (Product.name product)) (toLowerCase searchTerm)
              || includes (toLowerCase (Product.category product)) (toLowerCase searchTerm) in
            let matchesCategory :=
              String.eqb categoryFilter "all"
              || String.eqb (Product.category product) categoryFilter in
            matchesSearch && matchesCategory)
         products.

(** [handleEdit]: the form a product is edited in.  [positive] is the test
    [Number(flag) > 0] of the JavaScript engine. *)
Definition handleEdit (positive : string -> bool) (product : Product.t)
    : ProductManagement.FormData :=
  ProductManagement.mkFormData
    (Product.name product)
    (Product.category product)
    (Product.readyTimeMinutes product / 60)
    (Z.rem (Product.readyTimeMinutes product) 60)
    (Product.discardTimeMinutes product / 60)
    (Z.rem (Product.discardTimeMinutes product) 60)
    (Product.timeType product)
    (CreateTag.dayOffsetOrZero product)
    (Product.storageRequirements product)
    (Product.allergens product)
    (positive (Product.isActive product))
    (positive (Product.excludeFromDashboard product)).

(** [handleDelete]: [deleteOk] tells whether [products.delete] resolves. *)
Definition handleDelete (deleteOk : bool) (productId : string) (db : Db.t) : Db.t :=
  if deleteOk
  then Db.mk (Db.mrdTags db)
         (filter (fun p => negb (String.eqb (Product.id p) productId)) (Db.products db))
  else db.

(** [offset > 0 ? `+${offset}` : offset < 0 ? offset : ''] *)
Definition offsetText (offset : Z) : string :=
  if 0 <? offset then append "+" (string_of_Z offset)
  else if offset <? 0 then string_of_Z offset
  else "".

Definition getTimeDisplay (product : Product.t) : string :=
  if String.eqb (Product.timeType product) "hours" then
    let readyHours := Product.readyTimeMinutes product / 60 in
    let readyMins := Z.rem (Product.readyTimeMinutes product) 60 in
    let discardHours := Product.discardTimeMinutes product / 60 in
    let discardMins := Z.rem (Product.discardTimeMinutes product) 60 in
    append "Ready: "
      (append (string_of_Z readyHours)
         (append "h "
            (append (string_of_Z readyMins)
               (append "m | Discard: "
                  (append (string_of_Z discardHours)
                     (append "h " (append (string_of_Z discardMins) "m")))))))
  else if String.eqb (Product.timeType product) "start_of_day" then
    append "Start of Day "
      (append (offsetText (CreateTag.dayOffsetOrZero product)) " days")
  else
    append "End of Day "
      (append (offsetText (CreateTag.dayOffsetOrZero product)) " days").

End ProductPage.

(** ** AuthContext.tsx

    [refreshLocations] (lines 29-39), [login] (41-71) and [logout] (73-77). *)

(** The user record of types/index.ts. *)
Module Account.
Record t := mk {
  id : string;
  employeeId : string;
  pin : string;
  name : string;
  role : string;
  locationId : option string;
  isActive : string
}.
End Account.

Module AuthContext.

Record State := mk {
  user : option Account.t;
  currentLocation : option Location.t;
  locations : list Location.t;
  isAuthenticated : bool
}.

Definition initial : State := mk None None [] false.

Definition setCurrentLocation (location : option Location.t) (st : State) : State :=
  mk (user st) location (locations st) (isAuthenticated st).

(** [users.list({ where: { employeeId, pin, isActive: "1" } })] *)
Definition matching (employeeId pin : string) (users : list Account.t) : list Account.t :=
  filter (fun u => String.eqb (Account.employeeId u) employeeId
                   && String.eqb (Account.pin u) pin
                   && String.eqb (Account.isActive u) "1")
         users.

(** [login]: [users] is the user collection of the store, [fetchOk] tells
    whether [users.list] resolves. *)
Definition login (users : list Account.t) (fetchOk : bool) (employeeId pin : string)
    (st : State) : bool * State :=
  if fetchOk then
    match matching employeeId pin users with
    | [authenticatedUser] =>
        let signedIn := mk (Some authenticatedUser) (currentLocation st) (locations st) true in
        match Account.locationId authenticatedUser with
        | Some locationId =>
            if truthy locationId then
              match find (fun loc => String.eqb (Location.id loc) locationId) (locations st) with
              | Some userLocation => (true, setCurrentLocation (Some userLocation) signedIn)
              | None => (true, signedIn)
              end
            else (true, signedIn)
        | None => (true, signedIn)
        end
    | _ => (false, st)
    end
  else (false, st).

Definition logout (st : State) : State := mk None None (locations st) false.

(** [refreshLocations]: [fetched] is the list of active locations the store
    returns, or nothing when the call is rejected. *)
Definition refreshLocations (fetched : option (list Location.t)) (st : State) : State :=
  match fetched with
  | Some result => mk (user st) (currentLocation st) result (isAuthenticated st)
  | None => st
  end.

End AuthContext.

(** ** PinPadLogin.tsx

    [handleSubmit] (lines 17-38), [handleNumberPad] (40-46), [handleClear]
    (48-54), [handleReset] (56-60) and the two inputs (83, 100). *)

Module PinPadLogin.

Record State := mk {
  employeeId : string;
  pin : string;
  isLoading : bool;
  error : string
}.

Definition initial : State := mk "" "" false "".

Definition isDigit (c : Ascii.ascii) : bool :=
  let n := Ascii.nat_of_ascii c in
  (Nat.leb 48 n && Nat.leb n 57)%bool.

(** [value.replace(/\D/g, '')] *)
Fixpoint digitsOnly (value : string) : string :=
  match value with
  | EmptyString => EmptyString
  | String c rest => if isDigit c then String c (digitsOnly rest) else digitsOnly rest
  end.

(** [value.slice(0, 4)] and [value.slice(0, -1)] *)
Definition firstFour (value : string) : string := substring 0 4 value.

Definition dropLast (value : string) : string :=
  substring 0 (String.length value - 1) value.

(** The two text inputs. *)
Definition changeEmployeeId (value : string) (st : State) : State :=
  mk (firstFour (digitsOnly value)) (pin st) (isLoading st) (error st).

Definition changePin (value : string) (st : State) : State :=
  mk (employeeId st) (firstFour (digitsOnly value)) (isLoading st) (error st).

Definition handleNumberPad (digit : string) (st : State) : State :=
  if Nat.ltb (String.length (employeeId st)) 4 then
    mk (append (employeeId st) digit) (pin st) (isLoading st) (error st)
  else if Nat.ltb (String.length (pin st)) 4 then
    mk (employeeId st) (append (pin st) digit) (isLoading st) (error st)
  else st.

Definition handleClear (st : State) : State :=
  if Nat.ltb 0 (String.length (pin st)) then
    mk (employeeId st) (dropLast (pin st)) (isLoading st) (error st)
  else if Nat.ltb 0 (String.length (employeeId st)) then
    mk (dropLast (employeeId st)) (pin st) (isLoading st) (error st)
  else st.

Definition handleReset (st : State) : State := mk "" "" (isLoading st) "".

(** [handleSubmit], up to the end of the sign-in attempt. *)
Definition handleSubmit (users : list Account.t) (fetchOk : bool)
    (w : State * AuthContext.State) : State * AuthContext.State :=
  let (st, auth) := w in
  if negb (Nat.eqb (String.length (employeeId st)) 4)
     || negb (Nat.eqb (String.length (pin st)) 4)
  then (mk (employeeId st) (pin st) (isLoading st)
          "Employee ID and PIN must be exactly 4 digits", auth)
  else
    let (success, auth') := AuthContext.login users fetchOk (employeeId st) (pin st) auth in
    (mk (employeeId st) (pin st) false
        (if success then "" else "Invalid Employee ID or PIN"), auth').

End PinPadLogin.

(** ** LocationSelector (App.tsx, lines 206-216) *)

Definition Location_eqb (a b : Location.t) : bool :=
  String.eqb (Location.id a) (Location.id b)
  && String.eqb (Location.name a) (Location.name b).

Module LocationSelector.

Definition canAccessLocation (user : option Account.t) (location : Location.t) : bool :=
  match user with
  | Some u =>
      if String.eqb (Account.role u) "admin" then true
      else if String.eqb (Account.role u) "manager" then true
      else match Account.locationId u with
           | Some locationId => String.eqb locationId (Location.id location)
           | None => false
           end
  | None => false
  end.

Definition filteredLocations (auth : AuthContext.State) : list Location.t :=
  filter (canAccessLocation (AuthContext.user auth)) (AuthContext.locations auth).

Definition handleLocationSelect (location : Location.t) (auth : AuthContext.State)
    : AuthContext.State :=
  AuthContext.setCurrentLocation (Some location) auth.

End LocationSelector.

(** ** App.tsx, the shell (lines 31-82), with the switch-location button
    of the dashboard header *)

Module App.

Inductive Page := dashboard | active_tags | create_tag | products | users | locations.

Definition Page_eqb (a b : Page) : bool :=
  match a, b with
  | dashboard, dashboard | active_tags, active_tags | create_tag, create_tag
  | products, products | users, users | locations, locations => true
  | _, _ => false
  end.

Definition navigationItems : list (Page * list string) :=
  [ (dashboard, ["admin"; "manager"; "kitchen"]%string);
    (active_tags, ["admin"; "manager"; "kitchen"]%string);
    (create_tag, ["admin"; "manager"; "kitchen"]%string);
    (products, ["admin"%string]);
    (users, ["admin"%string]);
    (locations, ["admin"%string]) ].

(** [user?.role || 'kitchen'] *)
Definition roleOrKitchen (user : option Account.t) : string :=
  match user with
  | Some u => if truthy (Account.role u) then Account.role u else "kitchen"%string
  | None => "kitchen"%string
  end.

Definition visibleNavItems (user : option Account.t) : list (Page * list string) :=
  filter (fun item => existsb (String.eqb (roleOrKitchen user)) (snd item)) navigationItems.

Record State := mk {
  auth : AuthContext.State;
  currentPage : Page
}.

Definition initial : State := mk AuthContext.initial dashboard.

(** What [AppContent] renders. *)
Inductive Screen := PinPad | Selector | Shell (page : Page).

Definition screen (st : State) : Screen :=
  if negb (AuthContext.isAuthenticated (auth st)) then PinPad
  else match AuthContext.currentLocation (auth st) with
       | None => Selector
       | Some _ => Shell (currentPage st)
       end.

(** What happens to the application: the list of locations is fetched, the
    user submits the pin pad, chooses one of the offered locations, presses
    a navigation button that is shown, presses the switch-location button of
    the dashboard, or logs out. *)
Inductive Event :=
| Refresh (fetched : option (list Location.t))
| SignIn (accounts : list Account.t) (fetchOk : bool) (employeeId pin : string)
| SelectLocation (location : Location.t)
| Navigate (page : Page)
| SwitchLocation
| Logout.

Definition step (st : State) (e : Event) : State :=
  match screen st, e with
  | _, Refresh fetched => mk (AuthContext.refreshLocations fetched (auth st)) (currentPage st)
  | PinPad, SignIn accounts fetchOk employeeId pin =>
      mk (snd (PinPadLogin.handleSubmit accounts fetchOk
                 (PinPadLogin.mk employeeId pin false "", auth st)))
         (currentPage st)
  | Selector, SelectLocation location =>
      if existsb (Location_eqb location) (LocationSelector.filteredLocations (auth st))
      then mk (LocationSelector.handleLocationSelect location (auth st)) (currentPage st)
      else st
  | Shell _, Navigate page =>
      if existsb (fun item => Page_eqb (fst item) page)
           (visibleNavItems (AuthContext.user (auth st)))
      then mk (auth st) page
      else st
  | Shell page, SwitchLocation =>
      if Page_eqb page dashboard
      then mk (AuthContext.setCurrentLocation None (auth st)) (currentPage st)
      else st
  | Selector, Logout | Shell _, Logout => mk (AuthContext.logout (auth st)) (currentPage st)
  | _, _ => st
  end.

Definition run (events : list Event) (st : State) : State := fold_left step events st.

End App.

(** ** Vocabulary of the statements about sign-in

    [placed]: nobody is signed out and placed in a location, and a user who
    is neither administrator nor manager is placed in no location but the
    one of the account. *)
Definition placed (a : AuthContext.State) : Prop :=
  (AuthContext.isAuthenticated a = false ->
   AuthContext.user a = None /\ AuthContext.currentLocation a = None)
  /\ (forall u l,
        AuthContext.user a = Some u ->
        AuthContext.currentLocation a = Some l ->
        Account.role u = "admin"%string
        \/ Account.role u = "manager"%string
        \/ Account.locationId u = Some (Location.id l)).

(** An event other than a press on a navigation button. *)
Definition notNavigation (e : App.Event) : Prop :=
  match e with
  | App.Navigate _ => False
  | _ => True
  end.

Definition sampleAccount (role : string) : Account.t :=
  Account.mk "user_1" "1234" "4321" "Ann" role (Some "loc_1"%string) "1".

(** ** Vocabulary of the statements about the scan *)

(** Tags in the order of their discard times. *)
Fixpoint ascending (tags : list MRDTag.t) : Prop :=
  match tags with
  | [] => True
  | tag :: rest =>
      (forall other, In other rest -> MRDTag.discardTime tag <= MRDTag.discardTime other)
      /\ ascending rest
  end.

(** The viewer sees this tag: any viewer but kitchen staff sees every tag,
    kitchen staff see the tags of the selected location. *)
Definition visibleTo (auth : NotificationSystem.Auth) (tag : MRDTag.t) : Prop :=
  NotificationSystem.visibleTags auth [tag] = [tag].

(** ** Vocabulary of the statements about the table *)

(** A tag that carries at least one of the three fields the search box
    looks at. *)
Definition searchable (tag : MRDTag.t) : bool :=
  match MRDTag.productName tag, MRDTag.locationName tag, MRDTag.batchNumber tag with
  | None, None, None => false
  | _, _, _ => true
  end.

(** The status the active-tags page gives the tag at position [k] of a pass
    that reads the clock as [clock] tells. *)
Definition statusAt (clock : nat -> Date) (entry : nat * MRDTag.t) : TagStatus :=
  ActiveTagsDashboard.status
    (ActiveTagsDashboard.getTagStatus (clock (fst entry)) (snd entry)).

(** * Properties *)

(** ** Whole minutes *)

Lemma quot_minutes_le (a k : Z) :
  0 <= k -> (Z.quot a millisecondsInMinute <= k <-> a < (k + 1) * millisecondsInMinute).
Proof.
  unfold millisecondsInMinute. intros Hk.
  pose proof (Z.quot_rem' a 60000) as E.
  destruct (Z_lt_le_dec a 0) as [Hneg | Hpos].
  - pose proof (Z.rem_bound_pos_neg a 60000 ltac:(lia) ltac:(lia)). lia.
  - pose proof (Z.rem_bound_pos a 60000 ltac:(lia) ltac:(lia)). lia.
Qed.

Lemma differenceInMinutes_le_30 (discard now : Date) :
  (differenceInMinutes discard now <=? 30) = true <-> discard - now < 1860000.
Proof.
  unfold differenceInMinutes, differenceInMilliseconds.
  rewrite Z.leb_le, (quot_minutes_le _ 30) by lia.
  unfold millisecondsInMinute. lia.
Qed.

Lemma differenceInMinutes_le_0 (discard now : Date) :
  (differenceInMinutes discard now <=? 0) = true <-> discard - now < 60000.
Proof.
  unfold differenceInMinutes, differenceInMilliseconds.
  rewrite Z.leb_le, (quot_minutes_le _ 0) by lia.
  unfold millisecondsInMinute. lia.
Qed.

Lemma differenceInMinutes_gt_30 (discard now : Date) :
  (differenceInMinutes discard now <=? 30) = false <-> 1860000 <= discard - now.
Proof.
  unfold differenceInMinutes, differenceInMilliseconds. rewrite Z.leb_gt.
  pose proof (quot_minutes_le (discard - now) 30 ltac:(lia)) as H.
  unfold millisecondsInMinute in *. lia.
Qed.

Lemma differenceInMinutes_gt_0 (discard now : Date) :
  (differenceInMinutes discard now <=? 0) = false <-> 60000 <= discard - now.
Proof.
  unfold differenceInMinutes, differenceInMilliseconds. rewrite Z.leb_gt.
  pose proof (quot_minutes_le (discard - now) 0 ltac:(lia)) as H.
  unfold millisecondsInMinute in *. lia.
Qed.

Lemma isAfter_true (a b : Date) : isAfter a b = true <-> b < a.
Proof. unfold isAfter. apply Z.ltb_lt. Qed.

Lemma isAfter_false (a b : Date) : isAfter a b = false <-> a <= b.
Proof. unfold isAfter. rewrite Z.ltb_ge. tauto. Qed.

Lemma isBefore_true (a b : Date) : isBefore a b = true <-> a < b.
Proof. unfold isBefore. apply Z.ltb_lt. Qed.

Lemma isBefore_false (a b : Date) : isBefore a b = false <-> b <= a.
Proof. unfold isBefore. rewrite Z.ltb_ge. tauto. Qed.

(** Turn the tests of the classifiers, once decided, into inequalities. *)
Ltac minutes :=
  repeat match goal with
  | H : isAfter _ _ = true |- _ => apply isAfter_true in H
  | H : isAfter _ _ = false |- _ => apply isAfter_false in H
  | H : isBefore _ _ = true |- _ => apply isBefore_true in H
  | H : isBefore _ _ = false |- _ => apply isBefore_false in H
  | H : (differenceInMinutes _ _ <=? 30) = true |- _ => apply differenceInMinutes_le_30 in H
  | H : (differenceInMinutes _ _ <=? 30) = false |- _ => apply differenceInMinutes_gt_30 in H
  | H : (differenceInMinutes _ _ <=? 0) = true |- _ => apply differenceInMinutes_le_0 in H
  | H : (differenceInMinutes _ _ <=? 0) = false |- _ => apply differenceInMinutes_gt_0 in H
  end.

(** ** The lifecycle classifier *)

(** The four-way classifier of the active-tags table, case by case. *)
Lemma getTagStatus_cases (now : Date) (tag : MRDTag.t) :
  let s := ActiveTagsDashboard.status (ActiveTagsDashboard.getTagStatus now tag) in
  let d := MRDTag.discardTime tag in
  let r := MRDTag.readyTime tag in
  (d < now /\ s = expired) \/
  (0 <= d - now < 1860000 /\ s = expiring) \/
  (1860000 <= d - now /\ now < r /\ s = preparing) \/
  (1860000 <= d - now /\ r <= now /\ s = ready).
Proof.
  cbv zeta. unfold ActiveTagsDashboard.getTagStatus.
  destruct (isAfter now (MRDTag.discardTime tag)) eqn:Ha; minutes.
  - left. split; [lia | reflexivity].
  - destruct (differenceInMinutes (MRDTag.discardTime tag) now <=? 30) eqn:Hm; minutes.
    + right; left. split; [lia | reflexivity].
    + destruct (isBefore now (MRDTag.readyTime tag)) eqn:Hb; minutes.
      * right; right; left. simpl. auto.
      * right; right; right. simpl. auto.
Qed.

(** The three-way classifier of the dashboard cards, case by case. *)
Lemma Dashboard_getTagStatus_cases (now : Date) (tag : MRDTag.t) :
  let s := Dashboard.status (Dashboard.getTagStatus now tag) in
  let d := MRDTag.discardTime tag in
  (d - now < 60000 /\ s = expired) \/
  (60000 <= d - now < 1860000 /\ s = expiring) \/
  (1860000 <= d - now /\ s = fresh).
Proof.
  cbv zeta. unfold Dashboard.getTagStatus.
  destruct (differenceInMinutes (MRDTag.discardTime tag) now <=? 0) eqn:H0; minutes.
  - left. split; [lia | reflexivity].
  - destruct (differenceInMinutes (MRDTag.discardTime tag) now <=? 30) eqn:Hm; minutes.
    + right; left. split; [lia | reflexivity].
    + right; right. split; [lia | reflexivity].
Qed.

(** C1, as the code has it.  The four-way classifier [getTagStatus] of the
    active-tags table is total and returns exactly one of expired, expiring,
    preparing, ready: expired iff [now] is strictly after the discard time;
    expiring iff the discard time is not yet passed and lies fewer than 31
    minutes ahead (the whole-minute difference is at most 30); preparing iff
    the discard time is at least 31 minutes ahead and [now] is before the
    ready time; ready iff it is at least 31 minutes ahead and the ready time
    is reached. *)
Theorem getTagStatus_classification (now : Date) (tag : MRDTag.t) :
  let s := ActiveTagsDashboard.status (ActiveTagsDashboard.getTagStatus now tag) in
  let d := MRDTag.discardTime tag in
  let r := MRDTag.readyTime tag in
  (s = expired <-> d < now) /\
  (s = expiring <-> 0 <= d - now < 31 * millisecondsInMinute) /\
  (s = preparing <-> 31 * millisecondsInMinute <= d - now /\ now < r) /\
  (s = ready <-> 31 * millisecondsInMinute <= d - now /\ r <= now) /\
  (s = expired \/ s = expiring \/ s = preparing \/ s = ready).
Proof.
  cbv zeta. unfold millisecondsInMinute.
  pose proof (getTagStatus_cases now tag) as H. cbv zeta in H.
  destruct H as [[H1 E] | [[H1 E] | [[H1 [H2 E]] | [H1 [H2 E]]]]];
    rewrite E;
    (repeat split; intros;
     first [discriminate | reflexivity | lia | (exfalso; lia) | auto 6]).
Qed.

(** C1 as stated fails at two boundaries: at the discard instant itself the
    tag is expiring, not expired; and one millisecond more than 30 minutes
    before the discard time the tag is already expiring. *)
Lemma classification_boundaries :
  ~ (ActiveTagsDashboard.status
       (ActiveTagsDashboard.getTagStatus 1000 (sampleTag "t1" 0 1000)) = expired
     <-> 1000 >= MRDTag.discardTime (sampleTag "t1" 0 1000))
  /\
  ~ (ActiveTagsDashboard.status
       (ActiveTagsDashboard.getTagStatus 0 (sampleTag "t1" 0 1800001)) = expiring
     <-> 0 < MRDTag.discardTime (sampleTag "t1" 0 1800001) - 0 <= 30 * 60000).
Proof.
  split.
  - intros [_ H]. assert (E : 1000 >= MRDTag.discardTime (sampleTag "t1" 0 1000)) by (simpl; lia).
    specialize (H E). vm_compute in H. discriminate.
  - intros [H _]. assert (E : ActiveTagsDashboard.status
       (ActiveTagsDashboard.getTagStatus 0 (sampleTag "t1" 0 1800001)) = expiring)
      by (vm_compute; reflexivity).
    specialize (H E). simpl in H. lia.
Qed.

(** The scenario of the specification: made at 2024-01-01T10:00:00Z, ready
    after 60 minutes, discarded after 240 minutes. *)
Example scenario_times :
  CreateTag.calculateTimes 0 (Some (sampleProduct 60 240)) 1704103200000
  = CreateTag.mkTimes (Some 1704106800000) (Some 1704117600000).
Proof. reflexivity. Qed.

Example scenario_statuses :
  let tag := sampleTag "t1" 1704106800000 1704117600000 in
  ActiveTagsDashboard.status (ActiveTagsDashboard.getTagStatus 1704105000000 tag) = preparing /\
  ActiveTagsDashboard.status (ActiveTagsDashboard.getTagStatus 1704116700000 tag) = expiring /\
  differenceInMinutes 1704117600000 1704116700000 = 15 /\
  ActiveTagsDashboard.status (ActiveTagsDashboard.getTagStatus 1704117900000 tag) = expired /\
  differenceInMinutes 1704117600000 1704117900000 = -5.
Proof. vm_compute. repeat split; reflexivity. Qed.

(** The start-of-day scenario of the specification, in a zone without
    offset: made on 2024-03-05 at 22:00, day offset 1, ready and discarded
    at 2024-03-06 00:00; and the end of that day. *)
Example scenario_start_of_day :
  CreateTag.calculateTimes 0
    (Some (Product.mk "prod_2" "Stock" "Cold" 0 0 "start_of_day" (Some 1) "" "" "1" "0"))
    1709676000000
  = CreateTag.mkTimes (Some 1709683200000) (Some 1709683200000)
  /\ CreateTag.calculateTimes 0
       (Some (Product.mk "prod_2" "Stock" "Cold" 0 0 "end_of_day" (Some 1) "" "" "1" "0"))
       1709676000000
     = CreateTag.mkTimes (Some 1709769599999) (Some 1709769599999).
Proof. split; reflexivity. Qed.

(** ** The time-policy resolver *)

Lemma calculateTimes_hours (tz : Z) (p : Product.t) (made : Date) :
  Product.timeType p = "hours"%string ->
  CreateTag.calculateTimes tz (Some p) made
  = CreateTag.mkTimes
      (Some (made + Product.readyTimeMinutes p * millisecondsInMinute))
      (Some (made + Product.discardTimeMinutes p * millisecondsInMinute)).
Proof.
  intros E. unfold CreateTag.calculateTimes. rewrite E. reflexivity.
Qed.

(** The resolver returns no times exactly when no product is selected or
    the time type of the product is none of the three known ones. *)
Lemma isValid_range (time : Z) :
  isValid time = true <-> - 8640000000000000 <= time <= 8640000000000000.
Proof. unfold isValid, maxTime. rewrite Z.leb_le. lia. Qed.

Lemma calculateTimes_null (tz : Z) (selected : option Product.t) (made : Date) :
  CreateTag.calculateTimes tz selected made = CreateTag.mkTimes None None
  <-> selected = None
      \/ exists p, selected = Some p
           /\ Product.timeType p <> "hours"%string
           /\ Product.timeType p <> "start_of_day"%string
           /\ Product.timeType p <> "end_of_day"%string.
Proof.
  unfold CreateTag.calculateTimes. destruct selected as [p |].
  - destruct (String.eqb_spec (Product.timeType p) "hours") as [E1 | N1].
    + split; [discriminate |].
      intros [H | [q [Hq [H _]]]]; [discriminate | injection Hq as <-; contradiction].
    + destruct (String.eqb_spec (Product.timeType p) "start_of_day") as [E2 | N2].
      * split; [discriminate |].
        intros [H | [q [Hq [_ [H _]]]]]; [discriminate | injection Hq as <-; contradiction].
      * destruct (String.eqb_spec (Product.timeType p) "end_of_day") as [E3 | N3].
        -- split; [discriminate |].
           intros [H | [q [Hq [_ [_ H]]]]]; [discriminate | injection Hq as <-; contradiction].
        -- split; [| reflexivity]. intros _. right. exists p. auto.
  - split; auto.
Qed.

(** C2.  For a product timed in minutes after the made time, with
    [0 <= readyTimeMinutes <= discardTimeMinutes], a made time that is a
    valid date and a discard offset that leads to a valid date,
    [calculateTimes] returns the made time plus the ready offset and the
    made time plus the discard offset; both are valid dates, and the ready
    time is not after the discard time.  (Being a function of its arguments
    alone, the resolver is deterministic and changes no state.) *)
Theorem calculateTimes_relative_minutes (tz : Z) (p : Product.t) (made : Date) :
  Product.timeType p = "hours"%string ->
  0 <= Product.readyTimeMinutes p <= Product.discardTimeMinutes p ->
  isValid made = true ->
  isValid (made + Product.discardTimeMinutes p * 60000) = true ->
  exists readyAt discardAt,
    CreateTag.calculateTimes tz (Some p) made
    = CreateTag.mkTimes (Some readyAt) (Some discardAt)
    /\ readyAt = addMinutes made (Product.readyTimeMinutes p)
    /\ readyAt = made + Product.readyTimeMinutes p * 60000
    /\ discardAt = addMinutes made (Product.discardTimeMinutes p)
    /\ discardAt = made + Product.discardTimeMinutes p * 60000
    /\ readyAt <= discardAt
    /\ isValid readyAt = true
    /\ isValid discardAt = true.
Proof.
  intros E [Hr Hd] Hm Hv.
  exists (made + Product.readyTimeMinutes p * 60000),
         (made + Product.discardTimeMinutes p * 60000).
  rewrite (calculateTimes_hours tz p made E).
  apply isValid_range in Hm. pose proof Hv as Hv'. apply isValid_range in Hv'.
  unfold addMinutes, addMilliseconds, millisecondsInMinute.
  repeat split; try lia; try exact Hv.
  apply isValid_range. lia.
Qed.

Lemma calculateTimes_relative_minutes_witness :
  exists readyAt discardAt,
    CreateTag.calculateTimes 0 (Some (sampleProduct 60 240)) 1704103200000
    = CreateTag.mkTimes (Some readyAt) (Some discardAt)
    /\ readyAt = addMinutes 1704103200000 (Product.readyTimeMinutes (sampleProduct 60 240))
    /\ readyAt = 1704103200000 + Product.readyTimeMinutes (sampleProduct 60 240) * 60000
    /\ discardAt = addMinutes 1704103200000 (Product.discardTimeMinutes (sampleProduct 60 240))
    /\ discardAt = 1704103200000 + Product.discardTimeMinutes (sampleProduct 60 240) * 60000
    /\ readyAt <= discardAt
    /\ isValid readyAt = true
    /\ isValid discardAt = true.
Proof.
  apply (calculateTimes_relative_minutes 0 (sampleProduct 60 240) 1704103200000).
  - reflexivity.
  - simpl. lia.
  - reflexivity.
  - reflexivity.
Defined.

(** C8, as the code has it.  Neither saving a product nor resolving its
    policy validates the offsets.  Saving a new product stores
    [hours * 60 + minutes] of the form for both offsets whatever their sign.
    For a product timed in minutes the resolver returns the made time plus
    the stored offsets, negative or not, whenever the made time and these
    two instants are valid dates; and it returns no times exactly when no
    product is selected or the time type is none of the three it knows. *)
Theorem offsets_are_not_validated (tz : Z) (now made : Date)
    (f : ProductManagement.FormData) (db : Db.t) :
  ProductManagement.timeType f = "hours"%string ->
  let p := ProductManagement.productData (append "prod_" (string_of_Z now)) f in
  Db.products (ProductManagement.handleSave now true None f db) = Db.products db ++ [p]
  /\ Product.readyTimeMinutes p
     = ProductManagement.readyTimeHours f * 60 + ProductManagement.readyTimeMinutes f
  /\ Product.discardTimeMinutes p
     = ProductManagement.discardTimeHours f * 60 + ProductManagement.discardTimeMinutes f
  /\ (isValid made = true ->
      isValid (made + Product.readyTimeMinutes p * 60000) = true ->
      isValid (made + Product.discardTimeMinutes p * 60000) = true ->
      CreateTag.calculateTimes tz (Some p) made
      = CreateTag.mkTimes
          (Some (made + Product.readyTimeMinutes p * 60000))
          (Some (made + Product.discardTimeMinutes p * 60000)))
  /\ (forall selected,
        CreateTag.calculateTimes tz selected made = CreateTag.mkTimes None None
        <-> selected = None
            \/ exists q, selected = Some q
                 /\ Product.timeType q <> "hours"%string
                 /\ Product.timeType q <> "start_of_day"%string
                 /\ Product.timeType q <> "end_of_day"%string).
Proof.
  intros E p. repeat split.
  - intros _ _ _. apply (calculateTimes_hours tz p made). exact E.
  - apply calculateTimes_null.
  - apply calculateTimes_null.
Qed.

Lemma offsets_are_not_validated_witness :
  let f := sampleForm (-5) (-10) in
  let p := ProductManagement.productData (append "prod_" (string_of_Z 1)) f in
  Db.products (ProductManagement.handleSave 1 true None f emptyDb) = Db.products emptyDb ++ [p]
  /\ Product.readyTimeMinutes p
     = ProductManagement.readyTimeHours f * 60 + ProductManagement.readyTimeMinutes f
  /\ Product.discardTimeMinutes p
     = ProductManagement.discardTimeHours f * 60 + ProductManagement.discardTimeMinutes f
  /\ CreateTag.calculateTimes 0 (Some p) 600000
     = CreateTag.mkTimes
         (Some (600000 + Product.readyTimeMinutes p * 60000))
         (Some (600000 + Product.discardTimeMinutes p * 60000))
  /\ (forall selected,
        CreateTag.calculateTimes 0 selected 600000 = CreateTag.mkTimes None None
        <-> selected = None
            \/ exists q, selected = Some q
                 /\ Product.timeType q <> "hours"%string
                 /\ Product.timeType q <> "start_of_day"%string
                 /\ Product.timeType q <> "end_of_day"%string).
Proof.
  destruct (offsets_are_not_validated 0 1 600000 (sampleForm (-5) (-10)) emptyDb eq_refl)
    as [Hsave [Hready [Hdiscard [Htimes Hnull]]]].
  split; [exact Hsave |]. split; [exact Hready |]. split; [exact Hdiscard |].
  split; [apply Htimes; reflexivity | exact Hnull].
Defined.

(** C8 as stated fails: a product with negative offsets is saved, the
    resolver returns times before the made time for it, and a tag with
    these times is created. *)
Lemma negative_offsets_accepted :
  let db1 := ProductManagement.handleSave 1 true None (sampleForm (-5) (-10)) emptyDb in
  let st := CreateTag.mkState (Db.products db1)
              (CreateTag.mkFormData "prod_1" "loc_1" 1 "" "" 600000) None false in
  map Product.readyTimeMinutes (Db.products db1) = [-5]
  /\ map Product.discardTimeMinutes (Db.products db1) = [-10]
  /\ CreateTag.calculateTimes 0 (CreateTag.selectedProduct st) 600000
     = CreateTag.mkTimes (Some 300000) (Some 0)
  /\ map (fun tag => (MRDTag.madeTime tag, MRDTag.readyTime tag, MRDTag.discardTime tag))
         (Db.mrdTags (fst (CreateTag.handleSave 0 2 "user_1" "loc_1" true (db1, st))))
     = [(600000, 300000, 0)].
Proof. vm_compute. repeat split; reflexivity. Qed.

(** ** The front-selection effect *)

Lemma head_filter {A : Type} (f : A -> bool) (l : list A) :
  match filter f l with x :: _ => Some x | [] => None end = find f l.
Proof.
  induction l as [| a l IH]; simpl; [reflexivity |].
  destruct (f a); [reflexivity | exact IH].
Qed.

(** The next notification is the first critical one in list order, or, when
    there is none, the first warning. *)
Lemma nextNotification_find (l : list NotificationData.t) :
  Front.nextNotification l
  = match find isCritical l with
    | Some n => Some n
    | None => find isWarning l
    end.
Proof.
  unfold Front.nextNotification, Front.criticalNotifications, Front.warningNotifications.
  pose proof (head_filter isCritical l) as Hc.
  pose proof (head_filter isWarning l) as Hw.
  unfold isCritical, isWarning in *.
  destruct (filter _ l) as [| c cs] in Hc |- *; rewrite <- Hc; [| reflexivity].
  destruct (filter _ l) as [| x xs] in Hw |- *; rewrite <- Hw; reflexivity.
Qed.

Lemma nextNotification_none (l : list NotificationData.t) :
  Front.nextNotification l = None <-> l = [].
Proof.
  rewrite nextNotification_find. split.
  - destruct l as [| n l]; [reflexivity |]. simpl.
    unfold isCritical, isWarning.
    destruct (NotificationData.type n); simpl; [discriminate |].
    destruct (find _ l); discriminate.
  - intros ->. reflexivity.
Qed.

Lemma nextNotification_in (l : list NotificationData.t) (n : NotificationData.t) :
  Front.nextNotification l = Some n -> In n l.
Proof.
  rewrite nextNotification_find.
  destruct (find isCritical l) eqn:Ec.
  - intros [= <-]. apply find_some in Ec. tauto.
  - intros Ew. apply find_some in Ew. tauto.
Qed.

Lemma differsFromCurrent_self (n : NotificationData.t) :
  Front.differsFromCurrent n (Some n) = false.
Proof. simpl. rewrite String.eqb_refl. reflexivity. Qed.

(** Running the effect again changes nothing: one run after each state
    change is all of the re-rendering. *)
Lemma effect_idempotent (l : list NotificationData.t) (s : Front.State) :
  Front.effect l (Front.effect l s) = Front.effect l s.
Proof.
  unfold Front.effect.
  destruct (Front.nextNotification l) as [n |] eqn:En; [| reflexivity].
  destruct (Front.differsFromCurrent n (Front.currentNotification s)) eqn:Ed.
  - destruct (NotificationData.type n); simpl;
      rewrite String.eqb_refl; reflexivity.
  - rewrite Ed. reflexivity.
Qed.

(** What the effect leaves behind: nothing current and nothing visible when
    the list is empty; otherwise a current notification with the id of the
    next one. *)
Lemma effect_current (l : list NotificationData.t) (s : Front.State) :
  match Front.nextNotification l with
  | None =>
      Front.currentNotification (Front.effect l s) = None
      /\ Front.isVisible (Front.effect l s) = false
  | Some n =>
      exists c, Front.currentNotification (Front.effect l s) = Some c
        /\ NotificationData.id c = NotificationData.id n
        /\ (c = n \/ Front.currentNotification s = Some c)
  end.
Proof.
  unfold Front.effect.
  destruct (Front.nextNotification l) as [n |]; [| split; reflexivity].
  destruct (Front.differsFromCurrent n (Front.currentNotification s)) eqn:Ed.
  - exists n. destruct (NotificationData.type n); simpl; auto.
  - unfold Front.differsFromCurrent in Ed.
    destruct (Front.currentNotification s) as [c |] eqn:Ec; [| discriminate].
    exists c. apply negb_false_iff, String.eqb_eq in Ed. auto.
Qed.

(** The sound is played by the effect exactly when it makes a critical
    notification with a new id the current one. *)
Lemma effect_sounds (l : list NotificationData.t) (s : Front.State) :
  Front.sounds (Front.effect l s)
  = (Front.sounds s + if becameCriticalFront s (Front.effect l s) then 1 else 0)%nat.
Proof.
  unfold Front.effect, becameCriticalFront.
  destruct (Front.nextNotification l) as [n |]; [| simpl; lia].
  destruct (Front.differsFromCurrent n (Front.currentNotification s)) eqn:Ed.
  - unfold isCritical.
    destruct (NotificationData.type n) eqn:Et; simpl; rewrite Et; simpl.
    + fold (Front.differsFromCurrent n (Front.currentNotification s)).
      rewrite Ed. lia.
    + lia.
  - unfold Front.differsFromCurrent in Ed.
    destruct (Front.currentNotification s) as [c |] eqn:Ec; [| discriminate].
    rewrite differsFromCurrent_self, andb_false_r. lia.
Qed.

(** ** The scan of the active tags *)

Lemma idSeverity_expired (tagId : string) :
  idSeverity (append "expired_" tagId) = critical.
Proof. reflexivity. Qed.

Lemma idSeverity_expiring (tagId : string) :
  idSeverity (append "expiring_" tagId) = warning.
Proof. reflexivity. Qed.

(** What one tag contributes to the scan: one critical event when it is
    expired, one warning when it is expiring, nothing otherwise; the id of
    the event is the condition kind followed by the tag id. *)
Lemma pushFor_cases (now : Date) (tag : MRDTag.t) :
  let d := MRDTag.discardTime tag in
  (d < now /\ exists n, NotificationSystem.pushFor now [] tag = [n]
     /\ NotificationData.type n = critical
     /\ NotificationData.id n = append "expired_" (MRDTag.id tag))
  \/ (0 <= d - now < 1860000 /\ exists n, NotificationSystem.pushFor now [] tag = [n]
     /\ NotificationData.type n = warning
     /\ NotificationData.id n = append "expiring_" (MRDTag.id tag))
  \/ (1860000 <= d - now /\ NotificationSystem.pushFor now [] tag = []).
Proof.
  cbv zeta. unfold NotificationSystem.pushFor.
  destruct (isAfter now (MRDTag.discardTime tag)) eqn:Ha; minutes.
  - left. split; [exact Ha |]. eexists. repeat split.
  - destruct (differenceInMinutes (MRDTag.discardTime tag) now <=? 30) eqn:Hm; minutes.
    + right; left. split; [lia |]. eexists. repeat split.
    + right; right. split; [lia | reflexivity].
Qed.

Lemma pushFor_app (now : Date) (acc : list NotificationData.t) (tag : MRDTag.t) :
  NotificationSystem.pushFor now acc tag = acc ++ NotificationSystem.pushFor now [] tag.
Proof.
  unfold NotificationSystem.pushFor.
  destruct (isAfter now (MRDTag.discardTime tag)); [reflexivity |].
  destruct (differenceInMinutes (MRDTag.discardTime tag) now <=? 30);
    [reflexivity | symmetry; apply app_nil_r].
Qed.

Lemma scan_flat_map (now : Date) (tags : list MRDTag.t) (acc : list NotificationData.t) :
  fold_left (NotificationSystem.pushFor now) tags acc
  = acc ++ flat_map (NotificationSystem.pushFor now []) tags.
Proof.
  revert acc. induction tags as [| tag tags IH]; intros acc; simpl.
  - symmetry. apply app_nil_r.
  - rewrite IH, (pushFor_app now acc tag), <- app_assoc. reflexivity.
Qed.

Lemma pushFor_coherent (now : Date) (tag : MRDTag.t) (n : NotificationData.t) :
  In n (NotificationSystem.pushFor now [] tag) -> coherent n.
Proof.
  intros Hin. unfold coherent.
  destruct (pushFor_cases now tag) as [[_ [m [E [Ht Hi]]]] | [[_ [m [E [Ht Hi]]]] | [_ E]]];
    rewrite E in Hin; simpl in Hin; try tauto;
    destruct Hin as [<- | []]; rewrite Ht, Hi; reflexivity.
Qed.

Lemma scan_coherent (now : Date) (tags : list MRDTag.t) :
  Forall coherent (fold_left (NotificationSystem.pushFor now) tags []).
Proof.
  rewrite scan_flat_map. simpl. apply Forall_forall. intros n Hin.
  apply in_flat_map in Hin. destruct Hin as [tag [_ Hn]].
  exact (pushFor_coherent now tag n Hn).
Qed.

(** The critical events of a scan are the expired tags of the list, the
    warnings its expiring tags, as [getTagStatus] classifies them. *)
Lemma pushFor_getTagStatus (now : Date) (tag : MRDTag.t) :
  map NotificationData.type (NotificationSystem.pushFor now [] tag)
  = match ActiveTagsDashboard.status (ActiveTagsDashboard.getTagStatus now tag) with
    | expired => [critical]
    | expiring => [warning]
    | _ => []
    end.
Proof.
  unfold NotificationSystem.pushFor, ActiveTagsDashboard.getTagStatus.
  destruct (isAfter now (MRDTag.discardTime tag)); [reflexivity |].
  destruct (differenceInMinutes (MRDTag.discardTime tag) now <=? 30); [reflexivity |].
  destruct (isBefore now (MRDTag.readyTime tag)); reflexivity.
Qed.

(** ** Reachable states of the self-contained notification component *)

Lemma coherent_same_id (a b : NotificationData.t) :
  coherent a -> coherent b ->
  NotificationData.id a = NotificationData.id b ->
  NotificationData.type a = NotificationData.type b.
Proof. unfold coherent. intros -> -> ->. reflexivity. Qed.

Lemma render_settled (w : NotificationSystem.World) :
  Forall coherent (NotificationSystem.notifications w) ->
  (forall c, Front.currentNotification (NotificationSystem.front w) = Some c -> coherent c) ->
  (forall c n, Front.currentNotification (NotificationSystem.front w) = Some c ->
     Front.nextNotification (NotificationSystem.notifications w) = Some n ->
     NotificationData.id n = NotificationData.id c ->
     Front.isVisible (NotificationSystem.front w) = true) ->
  settled (NotificationSystem.render w).
Proof.
  intros Hall Hcur Hvis. unfold settled. simpl. split; [exact Hall |].
  pose proof (effect_current (NotificationSystem.notifications w) (NotificationSystem.front w))
    as Hnext.
  split.
  - intros c'. unfold Front.effect.
    destruct (Front.nextNotification (NotificationSystem.notifications w)) as [n |] eqn:En;
      [| discriminate].
    destruct (Front.differsFromCurrent n _) eqn:Ed.
    + pose proof (nextNotification_in _ _ En) as Hin.
      rewrite Forall_forall in Hall.
      destruct (NotificationData.type n); simpl; intros [= <-]; auto.
    + intros Ec. split; [exact (Hcur c' Ec) |].
      apply (Hvis c' n Ec eq_refl).
      unfold Front.differsFromCurrent in Ed. rewrite Ec in Ed.
      apply negb_false_iff, String.eqb_eq in Ed. exact Ed.
  - destruct (Front.nextNotification (NotificationSystem.notifications w)) as [n |];
      [| exact Hnext].
    destruct Hnext as [c [Ec [Hid _]]]. exists c. auto.
Qed.

Lemma nextNotification_filtered (id : string) (l : list NotificationData.t)
    (n : NotificationData.t) :
  Front.nextNotification
    (filter (fun m => negb (String.eqb (NotificationData.id m) id)) l) = Some n ->
  NotificationData.id n <> id.
Proof.
  intros En. apply nextNotification_in, filter_In in En.
  destruct En as [_ Hne]. apply negb_true_iff, String.eqb_neq in Hne. exact Hne.
Qed.

Lemma removeCurrent_settled (w : NotificationSystem.World) :
  settled w -> settled (NotificationSystem.render (NotificationSystem.removeCurrent w)).
Proof.
  intros [Hall [Hcur Hnext]]. unfold NotificationSystem.removeCurrent.
  destruct (Front.currentNotification (NotificationSystem.front w)) as [c |] eqn:Ec.
  - apply render_settled; simpl.
    + apply Forall_forall. intros n Hin. apply filter_In in Hin.
      rewrite Forall_forall in Hall. apply Hall. tauto.
    + intros c' [= <-]. apply (Hcur c eq_refl).
    + intros c' n [= <-] En Hid.
      apply nextNotification_filtered in En. contradiction.
  - apply render_settled.
    + exact Hall.
    + intros c Hc. congruence.
    + intros c n Hc. congruence.
Qed.

Lemma step_settled (auth : NotificationSystem.Auth) (w : NotificationSystem.World)
    (e : NotificationSystem.Event) :
  settled w -> settled (NotificationSystem.step auth w e).
Proof.
  intros Hs. pose proof Hs as [Hall [Hcur Hnext]].
  unfold NotificationSystem.step.
  destruct e as [now fetchOk | | | d]; simpl;
    try (apply removeCurrent_settled; exact Hs).
  - unfold NotificationSystem.checkForExpiringTags.
    destruct (NotificationSystem.polling auth), fetchOk;
      apply render_settled; simpl;
      try (apply scan_coherent); try exact Hall;
      try (intros c Hc; apply (Hcur c Hc));
      intros c n Hc _ _; apply (Hcur c Hc).
  - apply render_settled; simpl; [exact Hall | |].
    + intros c Hc. apply (Hcur c Hc).
    + intros c n Hc _ _. apply (Hcur c Hc).
Qed.

Lemma initial_settled (d : Db.t) : settled (NotificationSystem.initial d).
Proof.
  unfold settled. simpl. repeat split; [constructor | discriminate | discriminate].
Qed.

Lemma run_settled (auth : NotificationSystem.Auth) (events : list NotificationSystem.Event)
    (w : NotificationSystem.World) :
  settled w -> settled (NotificationSystem.run auth events w).
Proof.
  revert w. induction events as [| e events IH]; intros w Hs; simpl; [exact Hs |].
  apply IH, step_settled, Hs.
Qed.

(** In a settled state the current notification is critical whenever a
    critical event is live, and it carries the id of the first event of its
    severity in list order. *)
Lemma settled_priority (w : NotificationSystem.World) :
  settled w ->
  match Front.currentNotification (NotificationSystem.front w) with
  | None =>
      NotificationSystem.notifications w = []
      /\ Front.isVisible (NotificationSystem.front w) = false
  | Some c =>
      Front.isVisible (NotificationSystem.front w) = true
      /\ match find isCritical (NotificationSystem.notifications w) with
         | Some n =>
             NotificationData.type c = critical
             /\ NotificationData.id c = NotificationData.id n
         | None =>
             match find isWarning (NotificationSystem.notifications w) with
             | Some n =>
                 NotificationData.type c = warning
                 /\ NotificationData.id c = NotificationData.id n
             | None => False
             end
         end
  end.
Proof.
  intros [Hall [Hcur Hnext]].
  pose proof (nextNotification_none (NotificationSystem.notifications w)) as Hnone.
  rewrite nextNotification_find in Hnext, Hnone.
  rewrite Forall_forall in Hall.
  destruct (Front.currentNotification (NotificationSystem.front w)) as [c |] eqn:Ec.
  - destruct (Hcur c eq_refl) as [Hc Hv]. split; [exact Hv |].
    destruct (find isCritical (NotificationSystem.notifications w)) as [n |] eqn:Efc.
    + destruct Hnext as [c' [[= <-] Hid]].
      apply find_some in Efc. destruct Efc as [Hin Hcrit].
      split; [| exact Hid].
      rewrite (coherent_same_id c n Hc (Hall n Hin) Hid).
      unfold isCritical in Hcrit. destruct (NotificationData.type n); [reflexivity | discriminate].
    + destruct (find isWarning (NotificationSystem.notifications w)) as [n |] eqn:Efw.
      * destruct Hnext as [c' [[= <-] Hid]].
        apply find_some in Efw. destruct Efw as [Hin Hwarn].
        split; [| exact Hid].
        rewrite (coherent_same_id c n Hc (Hall n Hin) Hid).
        unfold isWarning in Hwarn.
        destruct (NotificationData.type n); [discriminate | reflexivity].
      * destruct Hnext as [Hn _]. discriminate.
  - destruct (find isCritical (NotificationSystem.notifications w)) as [n |].
    + destruct Hnext as [c [Hc _]]. discriminate.
    + destruct (find isWarning (NotificationSystem.notifications w)) as [n |].
      * destruct Hnext as [c [Hc _]]. discriminate.
      * destruct Hnext as [_ Hv]. split; [apply Hnone; reflexivity | exact Hv].
Qed.

(** C3.  After any sequence of ticks (successful or not), dismissals,
    acknowledgements and store changes, at most one notification is current,
    and it is shown; whenever a critical event is live the current
    notification is critical and has the id of the first critical event in
    list order; when only warnings are live it has the id of the first
    warning; nothing is current only when nothing is live. *)
Theorem front_selection_priority (auth : NotificationSystem.Auth)
    (events : list NotificationSystem.Event) (d : Db.t) :
  let w := NotificationSystem.run auth events (NotificationSystem.initial d) in
  match Front.currentNotification (NotificationSystem.front w) with
  | None =>
      NotificationSystem.notifications w = []
      /\ Front.isVisible (NotificationSystem.front w) = false
  | Some c =>
      Front.isVisible (NotificationSystem.front w) = true
      /\ match find isCritical (NotificationSystem.notifications w) with
         | Some n =>
             NotificationData.type c = critical
             /\ NotificationData.id c = NotificationData.id n
         | None =>
             match find isWarning (NotificationSystem.notifications w) with
             | Some n =>
                 NotificationData.type c = warning
                 /\ NotificationData.id c = NotificationData.id n
             | None => False
             end
         end
  end.
Proof.
  intros w. apply settled_priority, run_settled, initial_settled.
Qed.

(** The same priority rule for the effect alone, as both notification
    components run it, on any coherent list. *)
Lemma effect_priority (l : list NotificationData.t) (s : Front.State) :
  Forall coherent l ->
  (forall c, Front.currentNotification s = Some c -> coherent c) ->
  match Front.currentNotification (Front.effect l s) with
  | None => l = []
  | Some c =>
      match find isCritical l with
      | Some n =>
          NotificationData.type c = critical
          /\ NotificationData.id c = NotificationData.id n
      | None =>
          match find isWarning l with
          | Some n =>
              NotificationData.type c = warning
              /\ NotificationData.id c = NotificationData.id n
          | None => False
          end
      end
  end.
Proof.
  intros Hall Hcur.
  pose proof (settled_priority
                (NotificationSystem.render (NotificationSystem.mkWorld emptyDb l
                   (Front.mk (Front.currentNotification s) true (Front.sounds s)) []))) as H.
  assert (Hs : settled
                (NotificationSystem.render (NotificationSystem.mkWorld emptyDb l
                   (Front.mk (Front.currentNotification s) true (Front.sounds s)) []))).
  { apply render_settled; simpl; auto. }
  specialize (H Hs). simpl in H.
  assert (E : Front.currentNotification
                (Front.effect l (Front.mk (Front.currentNotification s) true (Front.sounds s)))
              = Front.currentNotification (Front.effect l s)).
  { unfold Front.effect. simpl.
    destruct (Front.nextNotification l) as [n |]; [| reflexivity].
    destruct (Front.differsFromCurrent n (Front.currentNotification s)); [| reflexivity].
    destruct (NotificationData.type n); reflexivity. }
  rewrite E in H.
  destruct (Front.currentNotification (Front.effect l s)); tauto.
Qed.

(** ** The audible signal *)

Lemma handle_front (auth : NotificationSystem.Auth) (e : NotificationSystem.Event)
    (w : NotificationSystem.World) :
  Front.currentNotification (NotificationSystem.front (NotificationSystem.handle auth e w))
  = Front.currentNotification (NotificationSystem.front w)
  /\ Front.sounds (NotificationSystem.front (NotificationSystem.handle auth e w))
     = Front.sounds (NotificationSystem.front w).
Proof.
  destruct e as [now fetchOk | | | d]; simpl;
    unfold NotificationSystem.checkForExpiringTags, NotificationSystem.handleDismiss,
      NotificationSystem.handleMarkAsHandled, NotificationSystem.removeCurrent.
  - destruct (NotificationSystem.polling auth), fetchOk; split; reflexivity.
  - destruct (Front.currentNotification (NotificationSystem.front w)) eqn:E; simpl; auto.
  - destruct (Front.currentNotification (NotificationSystem.front w)) eqn:E; simpl; auto.
  - split; reflexivity.
Qed.

(** C4, as the code has it.  A step of the notification component (a tick,
    a dismissal, an acknowledgement or a store change, followed by the
    render) plays the sound once if it makes a critical notification whose
    id differs from that of the previous current notification the current
    one, and does not play it otherwise; so no sound is played on a tick
    that leaves the id of the current notification unchanged. *)
Theorem sound_on_new_critical_front (auth : NotificationSystem.Auth)
    (w : NotificationSystem.World) (e : NotificationSystem.Event) :
  let w' := NotificationSystem.step auth w e in
  Front.sounds (NotificationSystem.front w')
  = (Front.sounds (NotificationSystem.front w)
     + if becameCriticalFront (NotificationSystem.front w) (NotificationSystem.front w')
       then 1 else 0)%nat.
Proof.
  cbv zeta. unfold NotificationSystem.step, NotificationSystem.render. simpl.
  destruct (handle_front auth e w) as [Hc Hs].
  rewrite effect_sounds, Hs.
  unfold becameCriticalFront. rewrite Hc. reflexivity.
Qed.

(** C4 as stated fails.  One expired tag, never discarded: the sound is
    played at the first tick and again at the tick after the operator
    dismissed the notification.  Two tags found expired by one tick: two
    critical events are raised and the sound is played once. *)
Lemma sound_not_once_per_raise :
  Front.sounds (NotificationSystem.front
    (NotificationSystem.run sampleAuth
       [NotificationSystem.Tick 1000 true; NotificationSystem.Dismiss;
        NotificationSystem.Tick 31000 true]
       (NotificationSystem.initial oneExpired))) = 2%nat
  /\ map NotificationData.type (NotificationSystem.notifications
       (NotificationSystem.run sampleAuth [NotificationSystem.Tick 1000 true]
          (NotificationSystem.initial twoExpired))) = [critical; critical]
  /\ Front.sounds (NotificationSystem.front
       (NotificationSystem.run sampleAuth [NotificationSystem.Tick 1000 true]
          (NotificationSystem.initial twoExpired))) = 1%nat.
Proof. vm_compute. repeat split; reflexivity. Qed.

(** ** Ticks *)

Lemma removeCurrent_db (w : NotificationSystem.World) :
  NotificationSystem.db (NotificationSystem.removeCurrent w) = NotificationSystem.db w.
Proof.
  unfold NotificationSystem.removeCurrent.
  destruct (Front.currentNotification (NotificationSystem.front w)); reflexivity.
Qed.




(** ** Failed fetches *)

Lemma run_app (auth : NotificationSystem.Auth) (l1 l2 : list NotificationSystem.Event)
    (w : NotificationSystem.World) :
  NotificationSystem.run auth (l1 ++ l2) w
  = NotificationSystem.run auth l2 (NotificationSystem.run auth l1 w).
Proof. unfold NotificationSystem.run. apply fold_left_app. Qed.

(** A reachable state is one a render left behind. *)
Lemma run_rendered (auth : NotificationSystem.Auth) (events : list NotificationSystem.Event)
    (d : Db.t) :
  NotificationSystem.render (NotificationSystem.run auth events (NotificationSystem.initial d))
  = NotificationSystem.run auth events (NotificationSystem.initial d).
Proof.
  induction events as [| e events _] using rev_ind; [reflexivity |].
  rewrite run_app. simpl. unfold NotificationSystem.step, NotificationSystem.render. simpl.
  rewrite effect_idempotent. reflexivity.
Qed.

Lemma step_sameLive (auth : NotificationSystem.Auth) (e : NotificationSystem.Event)
    (w1 w2 : NotificationSystem.World) :
  sameLive w1 w2 ->
  sameLive (NotificationSystem.step auth w1 e) (NotificationSystem.step auth w2 e).
Proof.
  destruct w1 as [d1 l1 f1 c1], w2 as [d2 l2 f2 c2].
  unfold sameLive, NotificationSystem.live. simpl. intros [[= -> ->] ->].
  destruct e as [now fetchOk | | | d]; simpl;
    unfold NotificationSystem.step, NotificationSystem.handle,
      NotificationSystem.checkForExpiringTags, NotificationSystem.handleDismiss,
      NotificationSystem.handleMarkAsHandled, NotificationSystem.removeCurrent; simpl.
  - destruct (NotificationSystem.polling auth), fetchOk; simpl; auto.
  - destruct (Front.currentNotification f2); simpl; auto.
  - destruct (Front.currentNotification f2); simpl; auto.
  - auto.
Qed.

Lemma run_sameLive (auth : NotificationSystem.Auth) (events : list NotificationSystem.Event)
    (w1 w2 : NotificationSystem.World) :
  sameLive w1 w2 ->
  sameLive (NotificationSystem.run auth events w1) (NotificationSystem.run auth events w2).
Proof.
  revert w1 w2. induction events as [| e events IH]; intros w1 w2 H; simpl; [exact H |].
  apply IH, step_sameLive, H.
Qed.

(** C6.  When the fetch of a tick fails, in any reachable state, the live
    set, the current notification, its visibility and the sound count are
    what they were and the store is untouched; the failure is written to the
    console, and nothing else happens; the component goes on, and whatever
    follows leads to the same live state as if the failed tick had not
    taken place. *)
Theorem failed_fetch_keeps_live_set (auth : NotificationSystem.Auth)
    (events rest : list NotificationSystem.Event) (now : Date) (d : Db.t) :
  let before := NotificationSystem.run auth events (NotificationSystem.initial d) in
  let after := NotificationSystem.step auth before (NotificationSystem.Tick now false) in
  NotificationSystem.notifications after = NotificationSystem.notifications before
  /\ NotificationSystem.front after = NotificationSystem.front before
  /\ NotificationSystem.db after = NotificationSystem.db before
  /\ NotificationSystem.console after
     = (if NotificationSystem.polling auth
        then "Error checking for expiring tags:"%string :: NotificationSystem.console before
        else NotificationSystem.console before)
  /\ NotificationSystem.live (NotificationSystem.run auth rest after)
     = NotificationSystem.live (NotificationSystem.run auth rest before).
Proof.
  intros before after.
  assert (Hl : NotificationSystem.notifications after = NotificationSystem.notifications before
               /\ NotificationSystem.front after = NotificationSystem.front before
               /\ NotificationSystem.db after = NotificationSystem.db before
               /\ NotificationSystem.console after
                  = (if NotificationSystem.polling auth
                     then "Error checking for expiring tags:"%string
                          :: NotificationSystem.console before
                     else NotificationSystem.console before)).
  { pose proof (run_rendered auth events d) as Hr. fold before in Hr.
    apply (f_equal NotificationSystem.front) in Hr. simpl in Hr.
    subst after. unfold NotificationSystem.step, NotificationSystem.handle,
      NotificationSystem.checkForExpiringTags.
    destruct (NotificationSystem.polling auth); simpl;
      (repeat split; try reflexivity); exact Hr. }
  destruct Hl as [Hn [Hf [Hd Hc]]]. repeat split; auto.
  apply run_sameLive. unfold sameLive, NotificationSystem.live.
  rewrite Hn, Hf, Hd. auto.
Qed.

(** ** One event per tag *)


Lemma pushFor_id (now : Date) (tag : MRDTag.t) (n : NotificationData.t) :
  In n (NotificationSystem.pushFor now [] tag) ->
  NotificationData.id n
  = append (match NotificationData.type n with
            | critical => "expired_"
            | warning => "expiring_"
            end) (MRDTag.id tag).
Proof.
  intros Hin.
  destruct (pushFor_cases now tag) as [[_ [m [E [Ht Hi]]]] | [[_ [m [E [Ht Hi]]]] | [_ E]]];
    rewrite E in Hin; simpl in Hin; try tauto;
    destruct Hin as [<- | []]; rewrite Ht; exact Hi.
Qed.

Lemma expired_id_injective (a b : string) :
  append "expired_" a = append "expired_" b -> a = b.
Proof. simpl. intros [= E]. exact E. Qed.








(** The scenario end to end: one tick finds both tags expired, the first is
    acknowledged, the second is still live and becomes the current one. *)
Example two_expired_tags :
  let w1 := NotificationSystem.run sampleAuth [NotificationSystem.Tick 1000 true]
              (NotificationSystem.initial twoExpired) in
  let w2 := NotificationSystem.step sampleAuth w1 NotificationSystem.MarkAsHandled in
  map (fun n => (NotificationData.id n, NotificationData.type n))
      (NotificationSystem.notifications w1)
  = [("expired_t1"%string, critical); ("expired_t2"%string, critical)]
  /\ map NotificationData.id (NotificationSystem.notifications w2) = ["expired_t2"%string]
  /\ option_map NotificationData.id (Front.currentNotification (NotificationSystem.front w2))
     = Some "expired_t2"%string.
Proof. vm_compute. repeat split; reflexivity. Qed.

(** ** Mutations of a tag after its creation *)

Lemma patchTag_frozen (p : TagPatch.t) (tag : MRDTag.t) :
  statusOnly p -> frozen (Db.patchTag p tag) = frozen tag.
Proof.
  intros [H1 [H2 [H3 [H4 [H5 [H6 [H7 [H8 H9]]]]]]]].
  unfold frozen, Db.patchTag. simpl.
  rewrite H1, H2, H3, H4, H5, H6, H7, H8, H9. reflexivity.
Qed.

Lemma mrdTags_update_frozen (id : string) (p : TagPatch.t) (db : Db.t) :
  statusOnly p ->
  map frozen (Db.mrdTags (Db.mrdTags_update id p db)) = map frozen (Db.mrdTags db).
Proof.
  intros Hp. unfold Db.mrdTags_update. simpl. rewrite map_map.
  apply map_ext. intros tag.
  destruct (String.eqb (MRDTag.id tag) id); [apply patchTag_frozen, Hp | reflexivity].
Qed.

Lemma printedPatch_statusOnly : statusOnly CreateTag.printedPatch.
Proof. unfold statusOnly. simpl. repeat split. Qed.

Lemma discardPatch_statusOnly (now : Date) : statusOnly (ActiveTagsDashboard.discardPatch now).
Proof. unfold statusOnly. simpl. repeat split. Qed.

Lemma Dashboard_discardPatch_statusOnly (now : Date) : statusOnly (Dashboard.discardPatch now).
Proof. unfold statusOnly. simpl. repeat split. Qed.

Lemma loadData_db (now : Date) (loc : option Location.t) (fetchOk : bool)
    (w : Dashboard.World) :
  Dashboard.db (Dashboard.loadData now loc fetchOk w) = Dashboard.db w.
Proof. unfold Dashboard.loadData. destruct loc, fetchOk; reflexivity. Qed.

(** What acknowledging does to the store, in the dashboard: the tag of a
    critical event is patched with [discardPatch] when the update resolves;
    in every other case the store is left alone. *)
Lemma handleNotificationMarkAsHandled_db (now : Date) (loc : option Location.t)
    (updateOk loadOk : bool) (id : string) (w : Dashboard.World) :
  Dashboard.db (Dashboard.handleNotificationMarkAsHandled now loc updateOk loadOk id w)
  = match Dashboard.tagToDiscard id w with
    | Some tagId =>
        if updateOk
        then Db.mrdTags_update tagId (Dashboard.discardPatch now) (Dashboard.db w)
        else Dashboard.db w
    | None => Dashboard.db w
    end.
Proof.
  unfold Dashboard.handleNotificationMarkAsHandled.
  destruct (Dashboard.tagToDiscard id w); [| reflexivity].
  destruct updateOk; [| reflexivity].
  rewrite loadData_db. reflexivity.
Qed.

Lemma handleNotificationMarkAsHandled_frozen (now : Date) (loc : option Location.t)
    (updateOk loadOk : bool) (id : string) (w : Dashboard.World) :
  map frozen (Db.mrdTags (Dashboard.db
    (Dashboard.handleNotificationMarkAsHandled now loc updateOk loadOk id w)))
  = map frozen (Db.mrdTags (Dashboard.db w)).
Proof.
  rewrite handleNotificationMarkAsHandled_db.
  destruct (Dashboard.tagToDiscard id w); [| reflexivity].
  destruct updateOk; [| reflexivity].
  apply mrdTags_update_frozen, Dashboard_discardPatch_statusOnly.
Qed.

(** C10.  None of the operations on an existing tag writes its made, ready
    or discard time: discarding a tag from the active-tags table, marking a
    tag printed and acknowledging or dismissing a notification (in the
    dashboard and in the self-contained component) leave every tag of the
    store with all its fields but [status], [isPrinted] and [updatedAt], and
    add or delete no tag; saving a product, which may change its time
    policy, leaves the tags as they are. *)
Theorem times_frozen_after_creation (now : Date) (confirmed updateOk loadOk : bool)
    (tagId eventId : string) (loc : option Location.t) (db : Db.t)
    (st : CreateTag.State) (dw : Dashboard.World) (nw : NotificationSystem.World)
    (editing : option string) (form : ProductManagement.FormData) :
  map frozen (Db.mrdTags (ActiveTagsDashboard.handleDiscardTag now confirmed updateOk tagId db))
  = map frozen (Db.mrdTags db)
  /\ map frozen (Db.mrdTags (fst (CreateTag.handlePrint updateOk (db, st))))
     = map frozen (Db.mrdTags db)
  /\ map frozen (Db.mrdTags (Dashboard.db
       (Dashboard.handleNotificationMarkAsHandled now loc updateOk loadOk eventId dw)))
     = map frozen (Db.mrdTags (Dashboard.db dw))
  /\ map frozen (Db.mrdTags (Dashboard.db
       (Dashboard.handleMarkAsHandled now loc updateOk loadOk dw)))
     = map frozen (Db.mrdTags (Dashboard.db dw))
  /\ Dashboard.db (Dashboard.handleDismiss dw) = Dashboard.db dw
  /\ NotificationSystem.db (NotificationSystem.handleMarkAsHandled nw) = NotificationSystem.db nw
  /\ NotificationSystem.db (NotificationSystem.handleDismiss nw) = NotificationSystem.db nw
  /\ Db.mrdTags (ProductManagement.handleSave now updateOk editing form db) = Db.mrdTags db.
Proof.
  assert (Hsave : Db.mrdTags (ProductManagement.handleSave now updateOk editing form db)
                  = Db.mrdTags db).
  { unfold ProductManagement.handleSave. destruct updateOk, editing; reflexivity. }
  repeat split; try exact Hsave.
  - unfold ActiveTagsDashboard.handleDiscardTag.
    destruct confirmed, updateOk; simpl; try reflexivity.
    apply mrdTags_update_frozen, discardPatch_statusOnly.
  - unfold CreateTag.handlePrint.
    destruct (CreateTag.previewTag st); [| reflexivity].
    destruct updateOk; [| reflexivity].
    apply mrdTags_update_frozen, printedPatch_statusOnly.
  - apply handleNotificationMarkAsHandled_frozen.
  - unfold Dashboard.handleMarkAsHandled.
    destruct (Front.currentNotification (Dashboard.front dw)); [| reflexivity].
    rewrite handleNotificationMarkAsHandled_frozen. reflexivity.
  - unfold Dashboard.handleDismiss.
    destruct (Front.currentNotification (Dashboard.front dw)); reflexivity.
  - apply removeCurrent_db.
  - apply removeCurrent_db.
Qed.

(** ** Acknowledging a notification *)

(** In the self-contained component the two buttons do the same thing. *)
Lemma handleMarkAsHandled_is_handleDismiss (w : NotificationSystem.World) :
  NotificationSystem.handleMarkAsHandled w = NotificationSystem.handleDismiss w.
Proof. reflexivity. Qed.

Lemma dismiss_removes (id : string) (l : list NotificationData.t) :
  existsb (hasId id)
    (filter (fun n => negb (String.eqb (NotificationData.id n) id)) l) = false.
Proof.
  induction l as [| n l IH]; [reflexivity |]. simpl.
  destruct (String.eqb (NotificationData.id n) id) eqn:E; simpl; [exact IH |].
  unfold hasId at 1. rewrite E. exact IH.
Qed.

Lemma In_insertByDiscardTime (x tag : MRDTag.t) (l : list MRDTag.t) :
  In x (Db.insertByDiscardTime tag l) <-> x = tag \/ In x l.
Proof.
  induction l as [| y l IH]; simpl.
  - intuition congruence.
  - destruct (MRDTag.discardTime tag <? MRDTag.discardTime y); simpl.
    + intuition congruence.
    + rewrite IH. intuition congruence.
Qed.

Lemma In_orderByDiscardTime (x : MRDTag.t) (l : list MRDTag.t) :
  In x (Db.orderByDiscardTime l) <-> In x l.
Proof.
  unfold Db.orderByDiscardTime. induction l as [| y l IH]; simpl; [tauto |].
  rewrite In_insertByDiscardTime, IH. intuition congruence.
Qed.

(** What one tag contributes to the scan of the dashboard. *)
Lemma Dashboard_pushFor_cases (now : Date) (products : list Product.t)
    (loc : option Location.t) (tag : MRDTag.t) :
  let d := MRDTag.discardTime tag in
  (d - now < 60000 /\ exists n, Dashboard.pushFor now products loc [] tag = [n]
     /\ NotificationData.type n = critical
     /\ NotificationData.id n = append "expired-" (MRDTag.id tag)
     /\ NotificationData.tagId n = Some (MRDTag.id tag))
  \/ (60000 <= d - now < 1860000
      /\ exists n, Dashboard.pushFor now products loc [] tag = [n]
     /\ NotificationData.type n = warning
     /\ NotificationData.id n = append "expiring-" (MRDTag.id tag)
     /\ NotificationData.tagId n = Some (MRDTag.id tag))
  \/ (1860000 <= d - now /\ Dashboard.pushFor now products loc [] tag = []).
Proof.
  cbv zeta. unfold Dashboard.pushFor.
  destruct (differenceInMinutes (MRDTag.discardTime tag) now <=? 0) eqn:H0; minutes.
  - left. split; [lia |]. eexists. repeat split.
  - destruct (differenceInMinutes (MRDTag.discardTime tag) now <=? 30) eqn:Hm; minutes.
    + right; left. split; [lia |]. eexists. repeat split.
    + right; right. split; [lia | reflexivity].
Qed.

Lemma Dashboard_pushFor_app (now : Date) (products : list Product.t)
    (loc : option Location.t) (acc : list NotificationData.t) (tag : MRDTag.t) :
  Dashboard.pushFor now products loc acc tag
  = acc ++ Dashboard.pushFor now products loc [] tag.
Proof.
  unfold Dashboard.pushFor.
  destruct (differenceInMinutes (MRDTag.discardTime tag) now <=? 0); [reflexivity |].
  destruct (differenceInMinutes (MRDTag.discardTime tag) now <=? 30);
    [reflexivity | symmetry; apply app_nil_r].
Qed.

Lemma Dashboard_scan_flat_map (now : Date) (products : list Product.t)
    (loc : option Location.t) (tags : list MRDTag.t) (acc : list NotificationData.t) :
  fold_left (Dashboard.pushFor now products loc) tags acc
  = acc ++ flat_map (Dashboard.pushFor now products loc []) tags.
Proof.
  revert acc. induction tags as [| tag tags IH]; intros acc; simpl.
  - symmetry. apply app_nil_r.
  - rewrite IH, (Dashboard_pushFor_app now products loc acc tag), <- app_assoc. reflexivity.
Qed.

(** After the tag [tagId] has been discarded, a reload raises no expired
    event for it. *)
Lemma reload_after_discard (now patchTime : Date) (loc : Location.t) (tagId : string)
    (w : Dashboard.World) (d : Db.t) :
  Dashboard.db w = Db.mrdTags_update tagId (Dashboard.discardPatch patchTime) d ->
  existsb (hasId (append "expired-" tagId))
    (Dashboard.notifications (Dashboard.loadData now (Some loc) true w)) = false.
Proof.
  intros Hdb. unfold Dashboard.loadData. simpl.
  rewrite Dashboard_scan_flat_map. simpl.
  destruct (existsb _ _) eqn:E; [| reflexivity]. exfalso.
  apply existsb_exists in E. destruct E as [n [Hin Hid]].
  unfold hasId in Hid. apply String.eqb_eq in Hid.
  apply in_flat_map in Hin. destruct Hin as [tag [Htag Hn]].
  unfold Db.mrdTags_listActiveAt in Htag.
  apply In_orderByDiscardTime, filter_In in Htag. destruct Htag as [Hmem Hact].
  apply andb_true_iff in Hact. destruct Hact as [_ Hact].
  rewrite Hdb in Hmem. unfold Db.mrdTags_update in Hmem. simpl in Hmem.
  apply in_map_iff in Hmem. destruct Hmem as [t0 [Ht0 _]].
  assert (Hne : MRDTag.id tag <> tagId).
  { intros Heq. destruct (String.eqb (MRDTag.id t0) tagId) eqn:E0.
    - subst tag. simpl in Hact. discriminate.
    - subst tag. apply String.eqb_neq in E0. contradiction. }
  destruct (Dashboard_pushFor_cases now (Dashboard.products w) (Some loc) tag)
    as [[_ [m [Em [_ [Hi _]]]]] | [[_ [m [Em [_ [Hi _]]]]] | [_ Em]]];
    rewrite Em in Hn; simpl in Hn; try tauto;
    destruct Hn as [<- | []]; rewrite Hi in Hid; simpl in Hid.
  - injection Hid as Hid. contradiction.
  - discriminate.
Qed.

(** The dashboard handler does what C7 asks: acknowledging a live event of a
    tag removes it from the live set; for a critical event the tag is
    patched to [discarded] (when the update resolves), for a warning the
    store is left alone. *)
Lemma dashboard_acknowledge (now : Date) (loc : option Location.t)
    (updateOk loadOk : bool) (w : Dashboard.World) (n : NotificationData.t)
    (tag : string) :
  find (fun m => String.eqb (NotificationData.id m) (NotificationData.id n))
       (Dashboard.notifications w) = Some n ->
  NotificationData.tagId n = Some tag ->
  truthy tag = true ->
  NotificationData.id n
  = append (match NotificationData.type n with
            | critical => "expired-"
            | warning => "expiring-"
            end) tag ->
  let w' := Dashboard.handleNotificationMarkAsHandled now loc updateOk loadOk
              (NotificationData.id n) w in
  existsb (hasId (NotificationData.id n)) (Dashboard.notifications w') = false
  /\ Dashboard.db w'
     = match NotificationData.type n with
       | critical =>
           if updateOk
           then Db.mrdTags_update tag (Dashboard.discardPatch now) (Dashboard.db w)
           else Dashboard.db w
       | warning => Dashboard.db w
       end.
Proof.
  intros Hfind Htag Htruthy Hid w'.
  assert (Ht : Dashboard.tagToDiscard (NotificationData.id n) w
               = match NotificationData.type n with
                 | critical => Some tag
                 | warning => None
                 end).
  { unfold Dashboard.tagToDiscard. rewrite Hfind, Htag, Htruthy. reflexivity. }
  split.
  - subst w'. unfold Dashboard.handleNotificationMarkAsHandled. rewrite Ht.
    destruct (NotificationData.type n).
    + destruct updateOk; [| apply dismiss_removes].
      destruct loc as [l |]; [| apply dismiss_removes].
      destruct loadOk; [| apply dismiss_removes].
      rewrite Hid. apply (reload_after_discard now now l tag _ (Dashboard.db w)).
      reflexivity.
    + apply dismiss_removes.
  - subst w'. rewrite handleNotificationMarkAsHandled_db, Ht.
    destruct (NotificationData.type n); reflexivity.
Qed.

(** C7 fails in the self-contained notification component, the one the
    application mounts.  An expired tag raises a critical notification; the
    operator presses the acknowledge button; the notification leaves the
    live set but the tag is still active in the store, and the next tick
    raises the notification again.  The same acknowledgement through the
    dashboard handler discards the tag. *)
Theorem standalone_acknowledge_keeps_tag_active :
  let w0 := NotificationSystem.run sampleAuth [NotificationSystem.Tick 1000 true]
              (NotificationSystem.initial oneExpired) in
  let w1 := NotificationSystem.step sampleAuth w0 NotificationSystem.MarkAsHandled in
  let w2 := NotificationSystem.step sampleAuth w1 (NotificationSystem.Tick 31000 true) in
  let d0 := Dashboard.render
              (Dashboard.loadData 1000 sampleLocation true (Dashboard.initial oneExpired)) in
  let d1 := Dashboard.render (Dashboard.handleMarkAsHandled 2000 sampleLocation true true d0) in
  option_map (fun c => (NotificationData.id c, NotificationData.type c))
    (Front.currentNotification (NotificationSystem.front w0))
  = Some ("expired_t1"%string, critical)
  /\ NotificationSystem.notifications w1 = []
  /\ map (fun tag => (MRDTag.id tag, MRDTag.status tag))
         (Db.mrdTags (NotificationSystem.db w1)) = [("t1"%string, active)]
  /\ map NotificationData.id (NotificationSystem.notifications w2) = ["expired_t1"%string]
  /\ option_map (fun c => (NotificationData.id c, NotificationData.type c))
       (Front.currentNotification (Dashboard.front d0))
     = Some ("expired-t1"%string, critical)
  /\ Dashboard.notifications d1 = []
  /\ map (fun tag => (MRDTag.id tag, MRDTag.status tag, MRDTag.updatedAt tag))
         (Db.mrdTags (Dashboard.db d1)) = [("t1"%string, discarded, Some 2000)].
Proof. vm_compute. repeat split; reflexivity. Qed.

(** The events of the dashboard scan are coherent too, so [effect_priority]
    applies to the props-driven component as well. *)
Lemma Dashboard_scan_coherent (now : Date) (products : list Product.t)
    (loc : option Location.t) (tags : list MRDTag.t) :
  Forall coherent (fold_left (Dashboard.pushFor now products loc) tags []).
Proof.
  rewrite Dashboard_scan_flat_map. simpl. apply Forall_forall. intros n Hin.
  apply in_flat_map in Hin. destruct Hin as [tag [_ Hn]]. unfold coherent.
  destruct (Dashboard_pushFor_cases now products loc tag)
    as [[_ [m [E [Ht [Hi _]]]]] | [[_ [m [E [Ht [Hi _]]]]] | [_ E]]];
    rewrite E in Hn; simpl in Hn; try tauto;
    destruct Hn as [<- | []]; rewrite Ht, Hi; reflexivity.
Qed.




(** * Views, forms and sign-in: properties *)

(** ** The counters and the rows of the active-tags page *)

Lemma getTagStatus_not_fresh (now : Date) (tag : MRDTag.t) :
  ActiveTagsDashboard.status (ActiveTagsDashboard.getTagStatus now tag) <> fresh.
Proof.
  pose proof (getTagStatus_cases now tag) as H. cbv zeta in H.
  destruct H as [[_ E] | [[_ E] | [[_ [_ E]] | [_ [_ E]]]]]; rewrite E; discriminate.
Qed.

Lemma getStatusCounts_fold (clock : nat -> Date) (entries : list (nat * MRDTag.t))
    (c : Counts.t) :
  let r := fold_left
             (fun counts entry =>
                ActiveTagsTable.increment counts
                  (ActiveTagsDashboard.status
                     (ActiveTagsDashboard.getTagStatus (clock (fst entry)) (snd entry))))
             entries c in
  let has (name : string) :=
    List.length
      (filter (fun entry => String.eqb (statusName (statusAt clock entry)) name) entries) in
  Counts.total r = Counts.total c
  /\ Counts.ready r = (Counts.ready c + has "ready"%string)%nat
  /\ Counts.preparing r = (Counts.preparing c + has "preparing"%string)%nat
  /\ Counts.expiring r = (Counts.expiring c + has "expiring"%string)%nat
  /\ Counts.expired r = (Counts.expired c + has "expired"%string)%nat
  /\ (Counts.ready r + Counts.preparing r + Counts.expiring r + Counts.expired r
      = Counts.ready c + Counts.preparing c + Counts.expiring c + Counts.expired c
        + List.length entries)%nat.
Proof.
  cbv zeta. unfold statusAt. revert c.
  induction entries as [| entry entries IH]; intros c.
  - simpl. repeat split; lia.
  - simpl fold_left. simpl filter. simpl List.length.
    pose proof (getTagStatus_not_fresh (clock (fst entry)) (snd entry)) as Hf.
    specialize (IH (ActiveTagsTable.increment c
                      (ActiveTagsDashboard.status
                         (ActiveTagsDashboard.getTagStatus (clock (fst entry))
                            (snd entry))))).
    destruct IH as [H0 [H1 [H2 [H3 [H4 H5]]]]].
    destruct (ActiveTagsDashboard.status
                (ActiveTagsDashboard.getTagStatus (clock (fst entry)) (snd entry)));
      try contradiction; simpl in *; repeat split; lia.
Qed.

Lemma indexed_length {A : Type} (l : list A) :
  List.length (indexed l) = List.length l.
Proof.
  unfold indexed. rewrite length_combine, length_seq. apply Nat.min_id.
Qed.

(** The four status counters of the cards add up to the total, which is the
    number of tags loaded, whatever instants the clock shows while the tags
    are counted. *)
Theorem status_counters_add_up (clock : nat -> Date) (tags : list MRDTag.t) :
  let counts := ActiveTagsTable.getStatusCounts clock tags in
  Counts.total counts = List.length tags
  /\ (Counts.ready counts + Counts.preparing counts + Counts.expiring counts
      + Counts.expired counts = Counts.total counts)%nat.
Proof.
  cbv zeta. unfold ActiveTagsTable.getStatusCounts.
  pose proof (getStatusCounts_fold clock (indexed tags)
                (Counts.mk (List.length tags) 0 0 0 0)) as H.
  cbv zeta in H. destruct H as [H0 [_ [_ [_ [_ H5]]]]].
  rewrite H0, H5, indexed_length. simpl. split; lia.
Qed.

Lemma includes_empty (s : string) : includes s "" = true.
Proof. destruct s; reflexivity. Qed.

Lemma matchesSearch_empty (toLowerCase : string -> string) (tag : MRDTag.t) :
  toLowerCase ""%string = ""%string ->
  ActiveTagsTable.matchesSearch toLowerCase "" tag = searchable tag.
Proof.
  intros E. unfold ActiveTagsTable.matchesSearch, optionIncludes, searchable.
  rewrite E.
  destruct (MRDTag.productName tag), (MRDTag.locationName tag), (MRDTag.batchNumber tag);
    rewrite ?includes_empty, ?orb_true_r; reflexivity.
Qed.

Lemma matchesSearch_searchable (toLowerCase : string -> string) (searchTerm : string)
    (tag : MRDTag.t) :
  ActiveTagsTable.matchesSearch toLowerCase searchTerm tag = true -> searchable tag = true.
Proof.
  unfold ActiveTagsTable.matchesSearch, optionIncludes, searchable.
  destruct (MRDTag.productName tag), (MRDTag.locationName tag), (MRDTag.batchNumber tag);
    simpl; auto.
Qed.

Lemma In_indexed {A : Type} (l : list A) (start k : nat) (x : A) :
  In (k, x) (combine (seq start (List.length l)) l) ->
  nth_error l (k - start) = Some x /\ (start <= k)%nat.
Proof.
  revert start. induction l as [| a l IH]; intros start Hin; simpl in Hin; [contradiction |].
  destruct Hin as [E | Hin].
  - injection E as <- <-. rewrite Nat.sub_diag. split; [reflexivity | lia].
  - apply IH in Hin. destruct Hin as [H1 H2]. split; [| lia].
    replace (k - start)%nat with (S (k - S start)) by lia. exact H1.
Qed.

Lemma filter_indexed {A : Type} (f : A -> bool) (l : list A) (start : nat) :
  map snd (filter (fun entry => f (snd entry)) (combine (seq start (List.length l)) l))
  = filter f l.
Proof.
  revert start. induction l as [| a l IH]; intros start; [reflexivity |].
  simpl. destruct (f a); simpl; rewrite IH; reflexivity.
Qed.

Lemma filter_and_length {A : Type} (f g : A -> bool) (l : list A) :
  (List.length (filter (fun x => f x && g x) l) <= List.length (filter g l))%nat.
Proof.
  induction l as [| a l IH]; [simpl; lia |].
  simpl. destruct (f a), (g a); simpl; lia.
Qed.

(** The rows of the table at an empty search box, with all locations
    selected: the searchable tags that the filter pass gives the status of
    the filter. *)
Lemma rows_no_search (toLowerCase : string -> string) (clock : nat -> Date)
    (name : string) (tags : list MRDTag.t) :
  toLowerCase ""%string = ""%string ->
  String.eqb name "all" = false ->
  ActiveTagsTable.filteredTags toLowerCase clock "" name "all" tags
  = map snd
      (filter (fun entry =>
                 searchable (snd entry)
                 && String.eqb (statusName (statusAt clock entry)) name)
              (indexed tags)).
Proof.
  intros E Hn. unfold ActiveTagsTable.filteredTags. f_equal.
  apply filter_ext. intros entry.
  rewrite (matchesSearch_empty toLowerCase (snd entry) E).
  unfold ActiveTagsTable.matchesStatus, ActiveTagsTable.matchesLocation, statusAt.
  rewrite Hn. simpl. apply andb_true_r.
Qed.

(** The table never shows a tag that carries none of product name,
    location name and batch number; with an empty search box, the status
    filter "all" and all locations selected it shows every other tag.  When
    no tag changes its status between the pass that filters the tags and the
    pass that counts them, a status filter shows at most as many rows as
    the card of that status counts, and exactly as many when every tag
    carries one of the three fields. *)
Theorem table_rows_match_counters (toLowerCase : string -> string)
    (filterClock countClock : nat -> Date) (tags : list MRDTag.t) :
  toLowerCase ""%string = ""%string ->
  let counts := ActiveTagsTable.getStatusCounts countClock tags in
  let rows (statusFilter : string) :=
    ActiveTagsTable.filteredTags toLowerCase filterClock "" statusFilter "all" tags in
  rows "all"%string = filter searchable tags
  /\ (forall searchTerm statusFilter locationFilter tag,
        In tag (ActiveTagsTable.filteredTags toLowerCase filterClock searchTerm
                  statusFilter locationFilter tags) ->
        In tag tags /\ searchable tag = true)
  /\ ((forall k tag, nth_error tags k = Some tag ->
         ActiveTagsDashboard.status (ActiveTagsDashboard.getTagStatus (filterClock k) tag)
         = ActiveTagsDashboard.status (ActiveTagsDashboard.getTagStatus (countClock k) tag)) ->
      ((List.length (rows "ready"%string) <= Counts.ready counts)%nat
       /\ (List.length (rows "preparing"%string) <= Counts.preparing counts)%nat
       /\ (List.length (rows "expiring"%string) <= Counts.expiring counts)%nat
       /\ (List.length (rows "expired"%string) <= Counts.expired counts)%nat)
      /\ (forallb searchable tags = true ->
          rows "all"%string = tags
          /\ List.length (rows "ready"%string) = Counts.ready counts
          /\ List.length (rows "preparing"%string) = Counts.preparing counts
          /\ List.length (rows "expiring"%string) = Counts.expiring counts
          /\ List.length (rows "expired"%string) = Counts.expired counts)).
Proof.
  intros E. cbv beta zeta.
  assert (Hall : ActiveTagsTable.filteredTags toLowerCase filterClock "" "all" "all" tags
                 = filter searchable tags).
  { unfold ActiveTagsTable.filteredTags, indexed.
    rewrite <- (filter_indexed searchable tags 0). f_equal.
    apply filter_ext. intros entry.
    rewrite (matchesSearch_empty toLowerCase (snd entry) E). simpl.
    rewrite !andb_true_r. reflexivity. }
  split; [exact Hall |]. split.
  { intros searchTerm statusFilter locationFilter tag Hin.
    unfold ActiveTagsTable.filteredTags in Hin.
    apply in_map_iff in Hin. destruct Hin as [[k t] [Ht Hin]]. simpl in Ht. subst t.
    apply filter_In in Hin. destruct Hin as [Hin Hp]. simpl in Hp.
    apply andb_prop in Hp. destruct Hp as [Hp _].
    apply andb_prop in Hp. destruct Hp as [Hs _].
    split.
    - unfold indexed in Hin. apply in_combine_r in Hin. exact Hin.
    - exact (matchesSearch_searchable toLowerCase searchTerm tag Hs). }
  intros Hsame.
  assert (Hst : forall name,
             filter (fun entry =>
                       searchable (snd entry)
                       && String.eqb (statusName (statusAt filterClock entry)) name)
                    (indexed tags)
             = filter (fun entry =>
                         searchable (snd entry)
                         && String.eqb (statusName (statusAt countClock entry)) name)
                      (indexed tags)).
  { intros name. apply filter_ext_in. intros [k tag] Hin.
    unfold indexed in Hin. apply In_indexed in Hin. destruct Hin as [Hk _].
    rewrite Nat.sub_0_r in Hk. unfold statusAt. simpl.
    rewrite (Hsame k tag Hk). reflexivity. }
  unfold ActiveTagsTable.getStatusCounts.
  pose proof (getStatusCounts_fold countClock (indexed tags)
                (Counts.mk (List.length tags) 0 0 0 0)) as H.
  cbv zeta in H. destruct H as [_ [H1 [H2 [H3 [H4 _]]]]].
  rewrite H1, H2, H3, H4. simpl.
  rewrite !(rows_no_search toLowerCase filterClock _ tags E) by reflexivity.
  rewrite !length_map, !Hst.
  split.
  { repeat split; apply filter_and_length. }
  intros Hsearch.
  assert (Hdrop : forall name,
             filter (fun entry =>
                       searchable (snd entry)
                       && String.eqb (statusName (statusAt countClock entry)) name)
                    (indexed tags)
             = filter (fun entry =>
                         String.eqb (statusName (statusAt countClock entry)) name)
                      (indexed tags)).
  { intros name. apply filter_ext_in. intros [k tag] Hin.
    unfold indexed in Hin. apply in_combine_r in Hin.
    rewrite forallb_forall in Hsearch. simpl. rewrite (Hsearch tag Hin). reflexivity. }
  rewrite !Hdrop. split; [| repeat split].
  rewrite Hall. apply forallb_filter_id. exact Hsearch.
Qed.

Lemma table_rows_match_counters_witness :
  let toLowerCase := fun s : string => s in
  let tags := [sampleTag "t1" 0 0; sampleTag "t2" 0 5000000] in
  let counts := ActiveTagsTable.getStatusCounts (fun _ => 1001) tags in
  let rows (statusFilter : string) :=
    ActiveTagsTable.filteredTags toLowerCase (fun _ => 1000) "" statusFilter "all" tags in
  rows "all"%string = tags
  /\ List.length (rows "ready"%string) = Counts.ready counts
  /\ List.length (rows "preparing"%string) = Counts.preparing counts
  /\ List.length (rows "expiring"%string) = Counts.expiring counts
  /\ List.length (rows "expired"%string) = Counts.expired counts.
Proof.
  destruct (table_rows_match_counters (fun s : string => s) (fun _ => 1000) (fun _ => 1001)
              [sampleTag "t1" 0 0; sampleTag "t2" 0 5000000] eq_refl)
    as [_ [_ Hrows]].
  apply Hrows.
  - intros [| [| k]] tag Hk; simpl in Hk.
    + injection Hk as <-. reflexivity.
    + injection Hk as <-. reflexivity.
    + destruct k; discriminate.
  - reflexivity.
Defined.

(** ** The three views of one tag *)

Lemma interpolated_number_not_EXPIRED (z : Z) (rest tail : string) :
  append (string_of_Z z) (append "m" rest) <> append "E" tail
  /\ append (string_of_Z z) (append "h" rest) <> append "E" tail.
Proof.
  unfold string_of_Z.
  destruct (Z.to_int z) as [u | u]; destruct u; simpl; split; discriminate.
Qed.

Lemma timeRemaining_EXPIRED (now : Date) (tag : MRDTag.t) :
  ActiveTagsTable.timeRemaining now tag = "EXPIRED"%string
  <-> MRDTag.discardTime tag - now < 60000.
Proof.
  unfold ActiveTagsTable.timeRemaining. cbv zeta.
  destruct (differenceInMinutes (MRDTag.discardTime tag) now <=? 0) eqn:H0; minutes.
  - split; [intros _; exact H0 | reflexivity].
  - split; [| intros; exfalso; lia].
    destruct (differenceInMinutes (MRDTag.discardTime tag) now <? 60); intros H;
      exfalso; revert H; apply (interpolated_number_not_EXPIRED _ _ "XPIRED").
Qed.

Lemma timeRemainingClass_cases (now : Date) (tag : MRDTag.t) :
  let d := MRDTag.discardTime tag in
  let c := ActiveTagsTable.timeRemainingClass now tag in
  (d - now < 60000 /\ c = "text-red-600"%string)
  \/ (60000 <= d - now < 1860000 /\ c = "text-yellow-600"%string)
  \/ (1860000 <= d - now /\ c = "text-green-600"%string).
Proof.
  cbv zeta. unfold ActiveTagsTable.timeRemainingClass. cbv zeta.
  destruct (differenceInMinutes (MRDTag.discardTime tag) now <=? 0) eqn:H0; minutes.
  - left. split; [lia | reflexivity].
  - destruct (differenceInMinutes (MRDTag.discardTime tag) now <=? 30) eqn:Hm; minutes.
    + right; left. split; [lia | reflexivity].
    + right; right. split; [lia | reflexivity].
Qed.

Ltac views :=
  repeat split; intros;
  repeat match goal with
  | H : _ /\ _ |- _ => destruct H
  | H : _ \/ _ |- _ => destruct H
  end;
  try discriminate; try reflexivity; try lia; auto.

(** The badge of the active-tags table, the time-remaining cell of the same
    row and the badge of the dashboard card, for one tag at one instant.
    The cell and the card work on whole minutes and agree with each other;
    the table badge differs from them exactly during the last minute before
    the discard time, when it still says expiring. *)
Theorem three_views_compared (now : Date) (tag : MRDTag.t) :
  let badge := ActiveTagsDashboard.status (ActiveTagsDashboard.getTagStatus now tag) in
  let card := Dashboard.status (Dashboard.getTagStatus now tag) in
  let d := MRDTag.discardTime tag in
  (badge = expired -> card = expired)
  /\ (card = expiring -> badge = expiring)
  /\ (card = fresh <-> badge = preparing \/ badge = ready)
  /\ (badge = expiring /\ card = expired <-> 0 <= d - now < 60000)
  /\ (ActiveTagsTable.timeRemaining now tag = "EXPIRED"%string <-> card = expired)
  /\ (ActiveTagsTable.timeRemainingClass now tag = "text-red-600"%string <-> card = expired)
  /\ (ActiveTagsTable.timeRemainingClass now tag = "text-yellow-600"%string
      <-> card = expiring)
  /\ (ActiveTagsTable.timeRemainingClass now tag = "text-green-600"%string
      <-> card = fresh).
Proof.
  cbv zeta. rewrite timeRemaining_EXPIRED.
  pose proof (getTagStatus_cases now tag) as Hb.
  pose proof (Dashboard_getTagStatus_cases now tag) as Hc.
  pose proof (timeRemainingClass_cases now tag) as Hk.
  cbv zeta in Hb, Hc, Hk.
  destruct Hb as [[B E] | [[B E] | [[B [B' E]] | [B [B' E]]]]]; rewrite E;
    destruct Hc as [[C F] | [[C F] | [C F]]]; rewrite F; try (exfalso; lia);
    destruct Hk as [[K G] | [[K G] | [K G]]]; rewrite G; try (exfalso; lia);
    views.
Qed.

(** ** The counters of the dashboard overview *)

(** The Expired and Expiring Soon counters of the overview count the
    critical events and the warnings the dashboard scan raises for the same
    tags at the same instant; every tag is counted at most once. *)
Theorem stats_match_scan (now : Date) (products : list Product.t)
    (loc : option Location.t) (activeTags : list MRDTag.t) :
  let events := fold_left (Dashboard.pushFor now products loc) activeTags [] in
  let st := DashboardStats.stats now activeTags in
  DashboardStats.totalActive st = List.length activeTags
  /\ DashboardStats.expired st = List.length (filter isCritical events)
  /\ DashboardStats.expiringSoon st = List.length (filter isWarning events)
  /\ List.length events
     = (DashboardStats.expired st + DashboardStats.expiringSoon st)%nat
  /\ (DashboardStats.expired st + DashboardStats.expiringSoon st
      <= DashboardStats.totalActive st)%nat.
Proof.
  cbv zeta. rewrite Dashboard_scan_flat_map. simpl app.
  unfold DashboardStats.stats. simpl.
  induction activeTags as [| tag tags IH]; [simpl; repeat split; lia |].
  destruct IH as [_ [H1 [H2 [H3 H4]]]].
  simpl flat_map. rewrite !filter_app, !length_app. simpl filter.
  set (rest := flat_map (Dashboard.pushFor now products loc []) tags) in *.
  unfold Dashboard.pushFor. cbv zeta.
  destruct (differenceInMinutes (MRDTag.discardTime tag) now <=? 0) eqn:H0.
  - assert (E : (0 <? differenceInMinutes (MRDTag.discardTime tag) now) = false)
      by (apply Z.ltb_ge; apply Z.leb_le in H0; lia).
    rewrite E, andb_false_r. simpl. repeat split; lia.
  - assert (E : (0 <? differenceInMinutes (MRDTag.discardTime tag) now) = true)
      by (apply Z.ltb_lt; apply Z.leb_gt in H0; lia).
    rewrite E, andb_true_r.
    destruct (differenceInMinutes (MRDTag.discardTime tag) now <=? 30);
      simpl; repeat split; lia.
Qed.

(** ** The preview badge of the tag form *)

(** When the ready time is not after the discard time, the preview badge
    says Preparing before the ready time, Ready from the ready time up to
    the discard time, and Expired from the discard instant on; the colour
    goes with the text; and a tag with these times that the active-tags
    table classifies as expired is Expired in the preview too. *)
Theorem preview_badge (now readyAt discardAt : Date) (tag : MRDTag.t) :
  readyAt <= discardAt ->
  MRDTag.readyTime tag = readyAt ->
  MRDTag.discardTime tag = discardAt ->
  let times := CreateTag.mkTimes (Some readyAt) (Some discardAt) in
  let text := CreateTagPreview.getStatusText now times in
  let colour := CreateTagPreview.getStatusColor now times in
  (text = "Preparing"%string <-> now < readyAt)
  /\ (text = "Ready"%string <-> readyAt <= now < discardAt)
  /\ (text = "Expired"%string <-> discardAt <= now)
  /\ (colour = "blue"%string <-> text = "Preparing"%string)
  /\ (colour = "green"%string <-> text = "Ready"%string)
  /\ (colour = "red"%string <-> text = "Expired"%string)
  /\ (ActiveTagsDashboard.status (ActiveTagsDashboard.getTagStatus now tag) = expired ->
      text = "Expired"%string)
  /\ (ActiveTagsDashboard.status (ActiveTagsDashboard.getTagStatus now tag) = ready ->
      text = "Ready"%string).
Proof.
  intros Hrd Hr Hd. cbv zeta.
  pose proof (getTagStatus_cases now tag) as Hb. cbv zeta in Hb. rewrite Hr, Hd in Hb.
  unfold CreateTagPreview.getStatusText, CreateTagPreview.getStatusColor. simpl.
  destruct (now <? readyAt) eqn:E1.
  - apply Z.ltb_lt in E1.
    destruct Hb as [[B E] | [[B E] | [[B [B' E]] | [B [B' E]]]]]; rewrite E; views.
  - apply Z.ltb_ge in E1.
    assert (E2 : (readyAt <=? now) = true) by (apply Z.leb_le; lia). rewrite E2. simpl.
    destruct (now <? discardAt) eqn:E3.
    + apply Z.ltb_lt in E3.
      destruct Hb as [[B E] | [[B E] | [[B [B' E]] | [B [B' E]]]]]; rewrite E; views.
    + apply Z.ltb_ge in E3.
      destruct Hb as [[B E] | [[B E] | [[B [B' E]] | [B [B' E]]]]]; rewrite E; views.
Qed.

Lemma preview_badge_witness :
  let times := CreateTag.mkTimes (Some 1704106800000) (Some 1704117600000) in
  let tag := sampleTag "t1" 1704106800000 1704117600000 in
  let text := CreateTagPreview.getStatusText 1704105000000 times in
  let colour := CreateTagPreview.getStatusColor 1704105000000 times in
  (text = "Preparing"%string <-> 1704105000000 < 1704106800000)
  /\ (text = "Ready"%string <-> 1704106800000 <= 1704105000000 < 1704117600000)
  /\ (text = "Expired"%string <-> 1704117600000 <= 1704105000000)
  /\ (colour = "blue"%string <-> text = "Preparing"%string)
  /\ (colour = "green"%string <-> text = "Ready"%string)
  /\ (colour = "red"%string <-> text = "Expired"%string)
  /\ (ActiveTagsDashboard.status (ActiveTagsDashboard.getTagStatus 1704105000000 tag)
      = expired -> text = "Expired"%string)
  /\ (ActiveTagsDashboard.status (ActiveTagsDashboard.getTagStatus 1704105000000 tag)
      = ready -> text = "Ready"%string).
Proof.
  apply (preview_badge 1704105000000 1704106800000 1704117600000
           (sampleTag "t1" 1704106800000 1704117600000)).
  - lia.
  - reflexivity.
  - reflexivity.
Defined.

(** A product timed by the start or the end of a day gets one instant as
    ready and discard time, so its tags are never ready: not in the
    active-tags table, and not in the preview of the form. *)
Theorem day_products_are_never_ready (tz : Z) (p : Product.t) (made : Date) :
  Product.timeType p = "start_of_day"%string \/ Product.timeType p = "end_of_day"%string ->
  exists t,
    CreateTag.calculateTimes tz (Some p) made = CreateTag.mkTimes (Some t) (Some t)
    /\ (forall now tag,
          MRDTag.readyTime tag = t -> MRDTag.discardTime tag = t ->
          ActiveTagsDashboard.status (ActiveTagsDashboard.getTagStatus now tag) <> ready)
    /\ (forall now,
          CreateTagPreview.getStatusText now (CreateTag.calculateTimes tz (Some p) made)
          <> "Ready"%string
          /\ CreateTagPreview.getStatusColor now (CreateTag.calculateTimes tz (Some p) made)
             <> "green"%string).
Proof.
  intros Hp.
  assert (Ht : exists t, CreateTag.calculateTimes tz (Some p) made
                         = CreateTag.mkTimes (Some t) (Some t)).
  { unfold CreateTag.calculateTimes. destruct Hp as [E | E]; rewrite E; simpl; eauto. }
  destruct Ht as [t Ht]. exists t. rewrite Ht. split; [reflexivity |]. split.
  - intros now tag Hr Hd.
    pose proof (getTagStatus_cases now tag) as Hb. cbv zeta in Hb. rewrite Hr, Hd in Hb.
    destruct Hb as [[B E] | [[B E] | [[B [B' E]] | [B [B' E]]]]]; rewrite E;
      try discriminate. exfalso. lia.
  - intros now. unfold CreateTagPreview.getStatusText, CreateTagPreview.getStatusColor. simpl.
    destruct (now <? t) eqn:E1; [split; discriminate |].
    destruct (t <=? now); simpl; split; discriminate.
Qed.

Lemma day_products_are_never_ready_witness :
  exists t,
    CreateTag.calculateTimes 0
      (Some (Product.mk "prod_2" "Stock" "Cold" 0 0 "start_of_day" (Some 1) "" "" "1" "0"))
      1709676000000
    = CreateTag.mkTimes (Some t) (Some t)
    /\ (forall now tag,
          MRDTag.readyTime tag = t -> MRDTag.discardTime tag = t ->
          ActiveTagsDashboard.status (ActiveTagsDashboard.getTagStatus now tag) <> ready)
    /\ (forall now,
          CreateTagPreview.getStatusText now
            (CreateTag.calculateTimes 0
               (Some (Product.mk "prod_2" "Stock" "Cold" 0 0 "start_of_day" (Some 1)
                        "" "" "1" "0"))
               1709676000000)
          <> "Ready"%string
          /\ CreateTagPreview.getStatusColor now
               (CreateTag.calculateTimes 0
                  (Some (Product.mk "prod_2" "Stock" "Cold" 0 0 "start_of_day" (Some 1)
                           "" "" "1" "0"))
                  1709676000000)
             <> "green"%string).
Proof.
  apply (day_products_are_never_ready 0
           (Product.mk "prod_2" "Stock" "Cold" 0 0 "start_of_day" (Some 1) "" "" "1" "0")
           1709676000000).
  left. reflexivity.
Defined.

(** ** The product page *)

Lemma hours_and_minutes (m : Z) :
  (0 <= m \/ Z.rem m 60 = 0 -> m / 60 * 60 + Z.rem m 60 = m)
  /\ (m < 0 /\ Z.rem m 60 <> 0 -> m / 60 * 60 + Z.rem m 60 = m - 60).
Proof.
  pose proof (Z.div_mod m 60 ltac:(lia)) as Hd.
  pose proof (Z.mod_pos_bound m 60 ltac:(lia)) as Hm.
  pose proof (Z.quot_rem' m 60) as Hq.
  split.
  - intros [Hpos | Hzero].
    + pose proof (Z.rem_bound_pos m 60 Hpos ltac:(lia)). lia.
    + destruct (Z_lt_le_dec m 0) as [Hneg | Hpos].
      * pose proof (Z.rem_bound_pos_neg m 60 ltac:(lia) ltac:(lia)). lia.
      * pose proof (Z.rem_bound_pos m 60 Hpos ltac:(lia)). lia.
  - intros [Hneg Hrem].
    pose proof (Z.rem_bound_pos_neg m 60 ltac:(lia) ltac:(lia)). lia.
Qed.

(** Opening a product in the editor splits each offset into hours
    ([Math.floor(m / 60)]) and minutes ([m % 60]); saving puts them together
    again.  An offset that is not negative, or is a whole number of hours,
    comes back unchanged; a negative offset that is not a whole number of
    hours comes back 60 minutes smaller. *)
Theorem offsets_through_the_editor (positive : string -> bool) (p : Product.t)
    (id : string) :
  let saved := ProductManagement.productData id (ProductPage.handleEdit positive p) in
  let r := Product.readyTimeMinutes p in
  let d := Product.discardTimeMinutes p in
  (0 <= r \/ Z.rem r 60 = 0 -> Product.readyTimeMinutes saved = r)
  /\ (r < 0 /\ Z.rem r 60 <> 0 -> Product.readyTimeMinutes saved = r - 60)
  /\ (0 <= d \/ Z.rem d 60 = 0 -> Product.discardTimeMinutes saved = d)
  /\ (d < 0 /\ Z.rem d 60 <> 0 -> Product.discardTimeMinutes saved = d - 60).
Proof.
  cbv zeta. simpl.
  destruct (hours_and_minutes (Product.readyTimeMinutes p)) as [R1 R2].
  destruct (hours_and_minutes (Product.discardTimeMinutes p)) as [D1 D2].
  repeat split; assumption.
Qed.

(** Opening a product in the editor and saving it unchanged leaves the
    product collection as it was, provided the offsets are not negative,
    the day offset is set, the two flags are "1" or "0" and no other
    product has the same id. *)
Theorem edit_save_round_trip (positive : string -> bool) (now : Date)
    (p : Product.t) (db : Db.t) :
  positive "1"%string = true ->
  positive "0"%string = false ->
  0 <= Product.readyTimeMinutes p ->
  0 <= Product.discardTimeMinutes p ->
  Product.dayOffset p <> None ->
  (Product.isActive p = "1"%string \/ Product.isActive p = "0"%string) ->
  (Product.excludeFromDashboard p = "1"%string
   \/ Product.excludeFromDashboard p = "0"%string) ->
  (forall q, In q (Db.products db) -> Product.id q = Product.id p -> q = p) ->
  ProductManagement.productData (Product.id p) (ProductPage.handleEdit positive p) = p
  /\ ProductManagement.handleSave now true (Some (Product.id p))
       (ProductPage.handleEdit positive p) db = db.
Proof.
  intros P1 P0 Hr Hd Hoff Hact Hexc Huniq.
  assert (E : ProductManagement.productData (Product.id p)
                (ProductPage.handleEdit positive p) = p).
  { destruct p as [pid name cat r d tt off st al act exc]. simpl in *.
    unfold ProductManagement.productData, ProductPage.handleEdit. simpl.
    destruct (hours_and_minutes r) as [R _]. destruct (hours_and_minutes d) as [D _].
    rewrite R, D by auto.
    destruct off as [k |]; [| contradiction]. unfold CreateTag.dayOffsetOrZero. simpl.
    destruct Hact as [-> | ->], Hexc as [-> | ->]; rewrite ?P1, ?P0; reflexivity. }
  split; [exact E |].
  unfold ProductManagement.handleSave, Db.products_update.
  fold (ProductManagement.productData (Product.id p) (ProductPage.handleEdit positive p)).
  destruct db as [tags products]. simpl in *. f_equal.
  induction products as [| q l IH]; [reflexivity |]. simpl.
  rewrite IH by (intros q' Hin; apply Huniq; right; exact Hin). f_equal.
  destruct (String.eqb_spec (Product.id q) (Product.id p)) as [Eq | Ne]; [| reflexivity].
  rewrite (Huniq q (or_introl eq_refl) Eq).
  change (ProductManagement.productData (Product.id p) (ProductPage.handleEdit positive p) = p).
  exact E.
Qed.

Lemma edit_save_round_trip_witness :
  ProductManagement.productData
    (Product.id (Product.mk "prod_1" "Soup" "Hot" 90 240 "hours" (Some 0) "" "" "1" "0"))
    (ProductPage.handleEdit (String.eqb "1")
       (Product.mk "prod_1" "Soup" "Hot" 90 240 "hours" (Some 0) "" "" "1" "0"))
  = Product.mk "prod_1" "Soup" "Hot" 90 240 "hours" (Some 0) "" "" "1" "0"
  /\ ProductManagement.handleSave 5 true
       (Some (Product.id (Product.mk "prod_1" "Soup" "Hot" 90 240 "hours" (Some 0)
                            "" "" "1" "0")))
       (ProductPage.handleEdit (String.eqb "1")
          (Product.mk "prod_1" "Soup" "Hot" 90 240 "hours" (Some 0) "" "" "1" "0"))
       (Db.mk [] [Product.mk "prod_1" "Soup" "Hot" 90 240 "hours" (Some 0) "" "" "1" "0"])
     = Db.mk [] [Product.mk "prod_1" "Soup" "Hot" 90 240 "hours" (Some 0) "" "" "1" "0"].
Proof.
  apply (edit_save_round_trip (String.eqb "1") 5
           (Product.mk "prod_1" "Soup" "Hot" 90 240 "hours" (Some 0) "" "" "1" "0")
           (Db.mk [] [Product.mk "prod_1" "Soup" "Hot" 90 240 "hours" (Some 0) "" "" "1" "0"])).
  - reflexivity.
  - reflexivity.
  - simpl. lia.
  - simpl. lia.
  - simpl. discriminate.
  - left. reflexivity.
  - right. reflexivity.
  - intros q [<- | []] _. reflexivity.
Defined.

Lemma setAdd_fold (values acc : list string) :
  NoDup acc ->
  NoDup (fold_left ProductPage.setAdd values acc)
  /\ (forall c, In c (fold_left ProductPage.setAdd values acc) <-> In c acc \/ In c values).
Proof.
  revert acc. induction values as [| v values IH]; intros acc Hnd; simpl.
  - split; [exact Hnd | intros c; tauto].
  - assert (Hstep : NoDup (ProductPage.setAdd acc v)
                    /\ forall c, In c (ProductPage.setAdd acc v) <-> In c acc \/ c = v).
    { unfold ProductPage.setAdd. destruct (existsb (String.eqb v) acc) eqn:E.
      - split; [exact Hnd |]. intros c. split; [tauto |].
        intros [H | ->]; [exact H |].
        apply existsb_exists in E. destruct E as [x [Hx Ex]].
        apply String.eqb_eq in Ex. subst x. exact Hx.
      - split.
        + apply NoDup_app; [exact Hnd | constructor; [tauto | constructor] |].
          intros x Hx [Ev | []]. subst x.
          assert (Hex : existsb (String.eqb v) acc = true).
          { apply existsb_exists. exists v. split; [exact Hx | apply String.eqb_refl]. }
          congruence.
        + intros c. rewrite in_app_iff. simpl. intuition congruence. }
    destruct Hstep as [Hnd' Hin']. destruct (IH _ Hnd') as [H1 H2].
    split; [exact H1 |]. intros c. rewrite H2, Hin'. intuition congruence.
Qed.

(** The category filter offers every non-empty category of the loaded
    products, each exactly once. *)
Theorem categories_are_distinct (products : list Product.t) :
  NoDup (ProductPage.categories products)
  /\ forall c, In c (ProductPage.categories products)
               <-> c <> ""%string
                   /\ exists p, In p products /\ Product.category p = c.
Proof.
  unfold ProductPage.categories.
  destruct (setAdd_fold (filter truthy (map Product.category products)) [] (NoDup_nil _))
    as [Hnd Hin].
  split; [exact Hnd |]. intros c. rewrite Hin. simpl. rewrite filter_In, in_map_iff.
  unfold truthy. rewrite negb_true_iff, String.eqb_neq.
  split.
  - intros [[] | [[p [E Hp]] Hc]]. split; [exact Hc | exists p; auto].
  - intros [Hc [p [Hp E]]]. right. split; [exists p; auto | exact Hc].
Qed.

Lemma find_after_delete (productId : string) (db : Db.t) :
  find (fun p => String.eqb (Product.id p) productId)
       (Db.products_listActive (ProductPage.handleDelete true productId db)) = None.
Proof.
  unfold ProductPage.handleDelete, Db.products_listActive. simpl.
  destruct (find _ _) as [p |] eqn:E; [| reflexivity].
  apply find_some in E. destruct E as [Hin Hid].
  apply filter_In in Hin. destruct Hin as [Hin _].
  apply filter_In in Hin. destruct Hin as [_ Hne].
  rewrite Hid in Hne. discriminate.
Qed.

(** Deleting a product leaves its tags in the store.  When the dashboard
    has loaded the products again, the events it raises for such a tag carry
    no product name and speak of an unknown product. *)
Theorem deleted_product_is_unknown (now : Date) (loc : option Location.t)
    (db : Db.t) (tag : MRDTag.t) (n : NotificationData.t) :
  let db' := ProductPage.handleDelete true (MRDTag.productId tag) db in
  In n (Dashboard.pushFor now (Db.products_listActive db') loc [] tag) ->
  Db.mrdTags db' = Db.mrdTags db
  /\ NotificationData.productName n = None
  /\ exists rest, NotificationData.message n = append "Unknown Product" rest.
Proof.
  cbv zeta. intros Hin. split; [reflexivity |].
  unfold Dashboard.pushFor in Hin. rewrite find_after_delete in Hin. simpl in Hin.
  destruct (differenceInMinutes (MRDTag.discardTime tag) now <=? 0).
  - destruct Hin as [<- | []]. simpl. split; [reflexivity | eauto].
  - destruct (differenceInMinutes (MRDTag.discardTime tag) now <=? 30).
    + destruct Hin as [<- | []]. simpl. split; [reflexivity | eauto].
    + destruct Hin.
Qed.

Lemma deleted_product_is_unknown_witness :
  let tag := sampleTag "t1" 0 0 in
  let db := Db.mk [tag] [sampleProduct 60 240] in
  let n := NotificationData.mk "expired-t1" critical "Product Expired"
             "Unknown Product has expired and must be discarded immediately!"
             (Some "t1"%string) None (Some "Kitchen"%string) (Some "EXPIRED"%string) 1000 in
  Db.mrdTags (ProductPage.handleDelete true (MRDTag.productId tag) db) = Db.mrdTags db
  /\ NotificationData.productName n = None
  /\ exists rest, NotificationData.message n = append "Unknown Product" rest.
Proof.
  apply (deleted_product_is_unknown 1000 sampleLocation
           (Db.mk [sampleTag "t1" 0 0] [sampleProduct 60 240]) (sampleTag "t1" 0 0)).
  left. reflexivity.
Defined.

(** ** The pin pad *)

Lemma numberpad_full (keys : list Ascii.ascii) (st : PinPadLogin.State) :
  Nat.ltb (String.length (PinPadLogin.employeeId st)) 4 = false ->
  Nat.ltb (String.length (PinPadLogin.pin st)) 4 = false ->
  fold_left (fun s c => PinPadLogin.handleNumberPad (String c "") s) keys st = st.
Proof.
  intros He Hp. induction keys as [| c keys IH]; [reflexivity |]. simpl.
  unfold PinPadLogin.handleNumberPad at 2. rewrite He, Hp. exact IH.
Qed.

(** Keys pressed on the number pad after a reset fill the employee id with
    the first four of them and the PIN with the next four; any further key
    is ignored. *)
Theorem number_pad_fills_both_fields (keys : list Ascii.ascii) :
  fold_left (fun s c => PinPadLogin.handleNumberPad (String c "") s) keys
    (PinPadLogin.handleReset PinPadLogin.initial)
  = PinPadLogin.mk (string_of_list_ascii (firstn 4 keys))
      (string_of_list_ascii (firstn 4 (skipn 4 keys))) false "".
Proof.
  do 8 (destruct keys as [| ? keys]; [reflexivity |]).
  simpl fold_left. simpl firstn. simpl skipn.
  apply numberpad_full; reflexivity.
Qed.

Lemma substring_prefix (s t : string) : substring 0 (String.length s) (append s t) = s.
Proof.
  induction s as [| a s IH]; simpl.
  - destruct t; reflexivity.
  - rewrite IH. reflexivity.
Qed.

Lemma length_append_key (s : string) (c : Ascii.ascii) :
  String.length (append s (String c "")) = S (String.length s).
Proof. induction s as [| a s IH]; simpl; [reflexivity | rewrite IH; reflexivity]. Qed.

Lemma dropLast_append_key (s : string) (c : Ascii.ascii) :
  PinPadLogin.dropLast (append s (String c "")) = s.
Proof.
  unfold PinPadLogin.dropLast. rewrite length_append_key. simpl.
  rewrite Nat.sub_0_r. apply substring_prefix.
Qed.

(** The clear key takes back the key pressed last, as long as the pad is
    filled in order: the PIN is empty while the employee id has fewer than
    four characters, and the PIN is not full. *)
Theorem clear_takes_back_last_key (c : Ascii.ascii) (st : PinPadLogin.State) :
  (String.length (PinPadLogin.employeeId st) < 4 /\ PinPadLogin.pin st = ""%string
   \/ 4 <= String.length (PinPadLogin.employeeId st)
      /\ String.length (PinPadLogin.pin st) < 4)%nat ->
  PinPadLogin.handleClear (PinPadLogin.handleNumberPad (String c "") st) = st.
Proof.
  destruct st as [emp pin loading err]. simpl.
  unfold PinPadLogin.handleNumberPad, PinPadLogin.handleClear. simpl.
  intros [[He ->] | [He Hp]].
  - apply Nat.ltb_lt in He. rewrite He. simpl.
    rewrite length_append_key, dropLast_append_key. reflexivity.
  - assert (E1 : Nat.ltb (String.length emp) 4 = false) by (apply Nat.ltb_ge; lia).
    apply Nat.ltb_lt in Hp. rewrite E1, Hp. simpl.
    rewrite length_append_key, dropLast_append_key. reflexivity.
Qed.

Lemma clear_takes_back_last_key_witness :
  PinPadLogin.handleClear
    (PinPadLogin.handleNumberPad (String (Ascii.ascii_of_nat 55) "")
       (PinPadLogin.mk "1234" "56" false ""))
  = PinPadLogin.mk "1234" "56" false "".
Proof.
  apply (clear_takes_back_last_key (Ascii.ascii_of_nat 55)
           (PinPadLogin.mk "1234" "56" false "")).
  right. simpl. lia.
Defined.

Lemma digitsOnly_length (value : string) :
  (String.length (PinPadLogin.digitsOnly value) <= String.length value)%nat.
Proof.
  induction value as [| c rest IH]; simpl; [lia |].
  destruct (PinPadLogin.isDigit c); simpl; lia.
Qed.

Lemma firstFour_length (value : string) :
  (String.length (PinPadLogin.firstFour value) <= 4)%nat.
Proof.
  unfold PinPadLogin.firstFour.
  do 4 (destruct value as [| ? value]; [simpl; lia |]).
  simpl. destruct value; simpl; lia.
Qed.

Lemma digitsOnly_digits (value : string) :
  forallb PinPadLogin.isDigit (list_ascii_of_string (PinPadLogin.digitsOnly value)) = true.
Proof.
  induction value as [| c rest IH]; simpl; [reflexivity |].
  destruct (PinPadLogin.isDigit c) eqn:E; simpl; [rewrite E |]; exact IH.
Qed.

Lemma digitsOnly_fixed (value : string) :
  forallb PinPadLogin.isDigit (list_ascii_of_string value) = true ->
  PinPadLogin.digitsOnly value = value.
Proof.
  induction value as [| c rest IH]; simpl; [reflexivity |].
  intros H. apply andb_true_iff in H. destruct H as [Hc Hr].
  rewrite Hc, (IH Hr). reflexivity.
Qed.

Lemma firstFour_digits (value : string) :
  forallb PinPadLogin.isDigit (list_ascii_of_string value) = true ->
  forallb PinPadLogin.isDigit (list_ascii_of_string (PinPadLogin.firstFour value)) = true.
Proof.
  unfold PinPadLogin.firstFour.
  do 4 (destruct value as [| ? value]; [simpl; auto |];
        simpl; intros H; apply andb_true_iff in H; destruct H as [-> H]; revert H).
  intros _. simpl. destruct value; reflexivity.
Qed.

Lemma firstFour_fixed (value : string) :
  (String.length value <= 4)%nat -> PinPadLogin.firstFour value = value.
Proof.
  unfold PinPadLogin.firstFour.
  do 4 (destruct value as [| ? value]; [reflexivity |]).
  destruct value; simpl; [reflexivity | lia].
Qed.

(** Whatever is typed or pasted into the employee-id field or the PIN
    field, the field keeps digits only and at most four of them; a value of
    at most four digits is kept as typed. *)
Theorem typed_fields_are_sanitised (value : string) (st : PinPadLogin.State) :
  let e := PinPadLogin.employeeId (PinPadLogin.changeEmployeeId value st) in
  let p := PinPadLogin.pin (PinPadLogin.changePin value st) in
  e = p
  /\ (String.length e <= 4)%nat
  /\ forallb PinPadLogin.isDigit (list_ascii_of_string e) = true
  /\ (forallb PinPadLogin.isDigit (list_ascii_of_string value) = true ->
      (String.length value <= 4)%nat -> e = value).
Proof.
  cbv zeta. simpl. split; [reflexivity |]. split; [apply firstFour_length |].
  split; [apply firstFour_digits, digitsOnly_digits |].
  intros Hd Hl. rewrite (digitsOnly_fixed value Hd). apply firstFour_fixed, Hl.
Qed.

(** ** Signing in *)

Lemma login_cases (accounts : list Account.t) (fetchOk : bool) (employeeId pin : string)
    (st : AuthContext.State) :
  (fetchOk = true
   /\ exists u, AuthContext.matching employeeId pin accounts = [u]
        /\ fst (AuthContext.login accounts fetchOk employeeId pin st) = true
        /\ AuthContext.user (snd (AuthContext.login accounts fetchOk employeeId pin st))
           = Some u
        /\ AuthContext.isAuthenticated
             (snd (AuthContext.login accounts fetchOk employeeId pin st)) = true
        /\ AuthContext.locations (snd (AuthContext.login accounts fetchOk employeeId pin st))
           = AuthContext.locations st
        /\ (AuthContext.currentLocation
              (snd (AuthContext.login accounts fetchOk employeeId pin st))
            = AuthContext.currentLocation st
            \/ exists l,
                 AuthContext.currentLocation
                   (snd (AuthContext.login accounts fetchOk employeeId pin st)) = Some l
                 /\ In l (AuthContext.locations st)
                 /\ Account.locationId u = Some (Location.id l)))
  \/ ((fetchOk = false \/ forall u, AuthContext.matching employeeId pin accounts <> [u])
      /\ AuthContext.login accounts fetchOk employeeId pin st = (false, st)).
Proof.
  unfold AuthContext.login. destruct fetchOk; [| right; auto].
  destruct (AuthContext.matching employeeId pin accounts) as [| u [| v rest]] eqn:Em.
  - right. split; [right; intros u; discriminate | reflexivity].
  - left. split; [reflexivity |]. exists u. split; [reflexivity |].
    destruct (Account.locationId u) as [lid |] eqn:El; [| simpl; auto 10].
    destruct (truthy lid); [| simpl; auto 10].
    destruct (find _ (AuthContext.locations st)) as [l |] eqn:Ef; [| simpl; auto 10].
    simpl. repeat split. right. exists l.
    apply find_some in Ef. destruct Ef as [Hin Hid]. apply String.eqb_eq in Hid.
    subst lid. auto.
  - right. split; [right; intros w; discriminate | reflexivity].
Qed.

(** Submitting the pin pad signs the user in exactly when both fields hold
    four characters, the store answers, and exactly one active account has
    this employee id and this PIN (two accounts with the same id and PIN
    lock each other out).  The user signed in is that account; otherwise
    nothing but the error message changes, and a message is shown. *)
Theorem submit_signs_in (accounts : list Account.t) (fetchOk : bool)
    (st : PinPadLogin.State) (auth : AuthContext.State) :
  AuthContext.isAuthenticated auth = false ->
  let after := PinPadLogin.handleSubmit accounts fetchOk (st, auth) in
  (AuthContext.isAuthenticated (snd after) = true
   <-> String.length (PinPadLogin.employeeId st) = 4%nat
       /\ String.length (PinPadLogin.pin st) = 4%nat
       /\ fetchOk = true
       /\ exists u, AuthContext.matching (PinPadLogin.employeeId st) (PinPadLogin.pin st)
                      accounts = [u])
  /\ (AuthContext.isAuthenticated (snd after) = true ->
      PinPadLogin.error (fst after) = ""%string
      /\ exists u, AuthContext.user (snd after) = Some u
           /\ In u accounts
           /\ Account.employeeId u = PinPadLogin.employeeId st
           /\ Account.pin u = PinPadLogin.pin st
           /\ Account.isActive u = "1"%string)
  /\ (AuthContext.isAuthenticated (snd after) = false ->
      snd after = auth /\ PinPadLogin.error (fst after) <> ""%string).
Proof.
  intros Hout. cbv zeta. unfold PinPadLogin.handleSubmit.
  destruct (Nat.eqb_spec (String.length (PinPadLogin.employeeId st)) 4) as [He | He];
    [| simpl; rewrite Hout; repeat split; intros; try discriminate; try tauto;
       try (destruct H; tauto)].
  destruct (Nat.eqb_spec (String.length (PinPadLogin.pin st)) 4) as [Hp | Hp];
    [| simpl; rewrite Hout; repeat split; intros; try discriminate; try tauto;
       try (destruct H as [_ [? _]]; tauto)].
  simpl.
  destruct (login_cases accounts fetchOk (PinPadLogin.employeeId st) (PinPadLogin.pin st) auth)
    as [[Hok [u [Em [Hf [Hu [Ha _]]]]]] | [Hno El]].
  - destruct (AuthContext.login accounts fetchOk (PinPadLogin.employeeId st)
                (PinPadLogin.pin st) auth) as [success auth'] eqn:El.
    simpl in *. subst success. simpl. rewrite Ha.
    assert (Hin : In u (AuthContext.matching (PinPadLogin.employeeId st)
                          (PinPadLogin.pin st) accounts)) by (rewrite Em; left; reflexivity).
    apply filter_In in Hin. destruct Hin as [Hin Hm].
    apply andb_true_iff in Hm. destruct Hm as [Hm H1].
    apply andb_true_iff in Hm. destruct Hm as [H2 H3].
    apply String.eqb_eq in H1, H2, H3.
    repeat split; intros; try discriminate; eauto 10.
  - rewrite El. simpl. rewrite Hout.
    repeat split; intros; try discriminate.
    destruct H as [_ [_ [Hok [u Hu]]]].
    destruct Hno as [Hno | Hno]; [congruence | destruct (Hno u Hu)].
Qed.

Lemma submit_signs_in_witness :
  let st := PinPadLogin.mk "1234" "4321" false "" in
  let after := PinPadLogin.handleSubmit [sampleAccount "kitchen"] true
                 (st, AuthContext.initial) in
  (AuthContext.isAuthenticated (snd after) = true
   <-> String.length (PinPadLogin.employeeId st) = 4%nat
       /\ String.length (PinPadLogin.pin st) = 4%nat
       /\ true = true
       /\ exists u, AuthContext.matching (PinPadLogin.employeeId st) (PinPadLogin.pin st)
                      [sampleAccount "kitchen"] = [u])
  /\ (AuthContext.isAuthenticated (snd after) = true ->
      PinPadLogin.error (fst after) = ""%string
      /\ exists u, AuthContext.user (snd after) = Some u
           /\ In u [sampleAccount "kitchen"]
           /\ Account.employeeId u = PinPadLogin.employeeId st
           /\ Account.pin u = PinPadLogin.pin st
           /\ Account.isActive u = "1"%string)
  /\ (AuthContext.isAuthenticated (snd after) = false ->
      snd after = AuthContext.initial /\ PinPadLogin.error (fst after) <> ""%string).
Proof.
  apply (submit_signs_in [sampleAccount "kitchen"] true
           (PinPadLogin.mk "1234" "4321" false "") AuthContext.initial).
  reflexivity.
Defined.

(** ** Locations and navigation *)

Lemma screen_PinPad (st : App.State) :
  App.screen st = App.PinPad <-> AuthContext.isAuthenticated (App.auth st) = false.
Proof.
  unfold App.screen. destruct (AuthContext.isAuthenticated (App.auth st)); simpl.
  - destruct (AuthContext.currentLocation (App.auth st)); split; discriminate.
  - tauto.
Qed.

Lemma login_placed (accounts : list Account.t) (fetchOk : bool) (employeeId pin : string)
    (a : AuthContext.State) :
  placed a -> AuthContext.isAuthenticated a = false ->
  placed (snd (AuthContext.login accounts fetchOk employeeId pin a)).
Proof.
  intros [Hout Hin] Hno.
  destruct (login_cases accounts fetchOk employeeId pin a)
    as [[_ [u [_ [_ [Hu [Ha [_ Hl]]]]]]] | [_ E]].
  - split; [rewrite Ha; discriminate |].
    intros u' l. rewrite Hu. intros [= <-] Hcur.
    destruct Hl as [Hsame | [l' [Hl' [_ Hid]]]].
    + rewrite Hsame in Hcur. destruct (Hout Hno) as [_ Hnone]. congruence.
    + rewrite Hl' in Hcur. injection Hcur as <-. auto.
  - rewrite E. split; assumption.
Qed.

Lemma step_placed (st : App.State) (e : App.Event) :
  placed (App.auth st) -> placed (App.auth (App.step st e)).
Proof.
  intros Hp. pose proof Hp as [Hout Hin]. unfold App.step.
  destruct (App.screen st) eqn:Es.
  - apply screen_PinPad in Es.
    destruct e as [fetched | accounts fetchOk employeeId pin | location | page | |]; simpl;
      try exact Hp.
    + destruct fetched; [| exact Hp]. split; simpl; assumption.
    + destruct (negb _ || negb _)%bool; simpl; [exact Hp |].
      pose proof (login_placed accounts fetchOk employeeId pin (App.auth st) Hp Es) as H.
      destruct (AuthContext.login accounts fetchOk employeeId pin (App.auth st)). exact H.
  - assert (Ha : AuthContext.isAuthenticated (App.auth st) = true).
    { unfold App.screen in Es.
      destruct (AuthContext.isAuthenticated (App.auth st)); [reflexivity | discriminate]. }
    destruct e as [fetched | accounts fetchOk employeeId pin | location | page | |]; simpl;
      try exact Hp.
    + destruct fetched; [| exact Hp]. split; simpl; assumption.
    + destruct (existsb _ _) eqn:Ex; [| exact Hp]. simpl.
      apply existsb_exists in Ex. destruct Ex as [l' [Hl' Heq]].
      apply filter_In in Hl'. destruct Hl' as [_ Hcan].
      apply andb_true_iff in Heq. destruct Heq as [Hid _]. apply String.eqb_eq in Hid.
      split; simpl; [rewrite Ha; discriminate |].
      intros u l Hu [= <-]. rewrite Hu in Hcan. simpl in Hcan.
      destruct (String.eqb_spec (Account.role u) "admin"); [auto |].
      destruct (String.eqb_spec (Account.role u) "manager"); [auto |].
      destruct (Account.locationId u) as [lid |]; [| discriminate].
      apply String.eqb_eq in Hcan. right; right. congruence.
    + split; simpl; [auto | discriminate].
  - destruct e as [fetched | accounts fetchOk employeeId pin | location | target | |]; simpl;
      try exact Hp.
    + destruct fetched; [| exact Hp]. split; simpl; assumption.
    + destruct (existsb _ _); exact Hp.
    + destruct (App.Page_eqb page App.dashboard); [| exact Hp].
      split; simpl; [| discriminate].
      intros Ha. destruct (Hout Ha) as [Hu _]. auto.
    + split; simpl; [auto | discriminate].
Qed.

(** Whatever happens from the start of the application (fetches of the
    location list, sign-in attempts, choices in the location selector,
    navigation, location switches, log-outs), a user who is neither
    administrator nor manager
    is only ever placed in the location of the account, and nobody is placed
    in a location while signed out. *)
Theorem staff_stay_in_their_location (events : list App.Event) :
  placed (App.auth (App.run events App.initial)).
Proof.
  assert (H : forall st, placed (App.auth st) -> placed (App.auth (App.run events st))).
  { induction events as [| e events IH]; intros st Hp; simpl; [exact Hp |].
    apply IH, step_placed, Hp. }
  apply H. split; simpl; [auto | discriminate].
Qed.

(** The navigation shows the six pages to an administrator, the dashboard,
    the active tags and the tag form to a manager and to kitchen staff (the
    role assumed when the account has none), and nothing to any other
    role. *)
Theorem navigation_by_role (user : option Account.t) :
  let role := App.roleOrKitchen user in
  let pages := map fst (App.visibleNavItems user) in
  (role = "admin"%string ->
   pages = [App.dashboard; App.active_tags; App.create_tag;
            App.products; App.users; App.locations])
  /\ (role = "manager"%string \/ role = "kitchen"%string ->
      pages = [App.dashboard; App.active_tags; App.create_tag])
  /\ (role <> "admin"%string /\ role <> "manager"%string /\ role <> "kitchen"%string ->
      pages = [])
  /\ (In App.products pages \/ In App.users pages \/ In App.locations pages ->
      role = "admin"%string).
Proof.
  cbv zeta. unfold App.visibleNavItems, App.navigationItems. simpl.
  destruct (String.eqb_spec (App.roleOrKitchen user) "admin") as [Ea | Na].
  - rewrite Ea. simpl. repeat split; intros; try reflexivity;
      try (destruct H; discriminate); try (destruct H as [? _]; congruence).
  - destruct (String.eqb_spec (App.roleOrKitchen user) "manager") as [Em | Nm].
    + rewrite Em. simpl. repeat split; intros; try reflexivity; try discriminate;
        try (destruct H as [_ [? _]]; congruence).
      simpl in H. intuition discriminate.
    + destruct (String.eqb_spec (App.roleOrKitchen user) "kitchen") as [Ek | Nk].
      * rewrite Ek. simpl. repeat split; intros; try reflexivity; try discriminate;
          try (destruct H as [_ [_ ?]]; congruence).
        simpl in H. intuition discriminate.
      * simpl. repeat split; intros; try reflexivity; try contradiction;
          try (destruct H; contradiction).
        simpl in H. intuition.
Qed.

Lemma step_keeps_page (st : App.State) (e : App.Event) :
  notNavigation e -> App.currentPage (App.step st e) = App.currentPage st.
Proof.
  intros Hn. unfold App.step.
  destruct (App.screen st); destruct e; simpl; try reflexivity; try contradiction.
  - destruct (existsb _ _); reflexivity.
  - destruct (App.Page_eqb page App.dashboard); reflexivity.
Qed.

(** The page is state of the application shell, not of the session: no
    event but a press on a navigation button changes it.  In particular,
    after a log-out and the sign-in of another user the shell shows the page
    the previous user was on, whether or not the navigation of the new user
    offers it. *)
Theorem page_survives_sessions (events : list App.Event) (st : App.State) :
  Forall notNavigation events ->
  App.currentPage (App.run events st) = App.currentPage st
  /\ (AuthContext.isAuthenticated (App.auth (App.run events st)) = true ->
      AuthContext.currentLocation (App.auth (App.run events st)) <> None ->
      App.screen (App.run events st) = App.Shell (App.currentPage st)).
Proof.
  intros Hall.
  assert (E : App.currentPage (App.run events st) = App.currentPage st).
  { revert st. induction Hall as [| e events He _ IH]; intros st; simpl; [reflexivity |].
    rewrite IH. apply step_keeps_page, He. }
  split; [exact E |]. intros Ha Hl. unfold App.screen. rewrite Ha. simpl.
  destruct (AuthContext.currentLocation (App.auth (App.run events st)));
    [rewrite E; reflexivity | contradiction].
Qed.

Lemma page_survives_sessions_witness :
  let admin := App.mk (AuthContext.mk (Some (sampleAccount "admin")) sampleLocation
                         [Location.mk "loc_1" "Kitchen"] true) App.users in
  let events := [App.Logout;
                 App.SignIn [sampleAccount "kitchen"] true "1234" "4321"] in
  App.currentPage (App.run events admin) = App.currentPage admin
  /\ (AuthContext.isAuthenticated (App.auth (App.run events admin)) = true ->
      AuthContext.currentLocation (App.auth (App.run events admin)) <> None ->
      App.screen (App.run events admin) = App.Shell (App.currentPage admin)).
Proof.
  apply (page_survives_sessions
           [App.Logout; App.SignIn [sampleAccount "kitchen"] true "1234" "4321"]
           (App.mk (AuthContext.mk (Some (sampleAccount "admin")) sampleLocation
                      [Location.mk "loc_1" "Kitchen"] true) App.users)).
  repeat constructor.
Defined.

(** ** What a tick raises *)

Lemma visibleTags_In (auth : NotificationSystem.Auth) (tags : list MRDTag.t)
    (tag : MRDTag.t) :
  In tag (NotificationSystem.visibleTags auth tags) <-> In tag tags /\ visibleTo auth tag.
Proof.
  unfold visibleTo, NotificationSystem.visibleTags.
  destruct (NotificationSystem.user auth) as [u |]; [| tauto].
  destruct (NotificationSystem.selectedLocation auth) as [loc |]; [| tauto].
  destruct (String.eqb (User.role u) "kitchen"); [| tauto].
  rewrite filter_In. simpl.
  destruct (String.eqb (MRDTag.locationId tag) (Location.id loc)); split;
    intros [H1 H2]; split; auto; discriminate.
Qed.

Lemma tick_events_iff (auth : NotificationSystem.Auth) (now : Date)
    (w : NotificationSystem.World) (n : NotificationData.t) :
  In n (NotificationSystem.notifications
          (NotificationSystem.checkForExpiringTags auth now true w))
  <-> exists tag,
        In tag (Db.mrdTags (NotificationSystem.db w))
        /\ MRDTag.status tag = active
        /\ visibleTo auth tag
        /\ In n (NotificationSystem.pushFor now [] tag).
Proof.
  unfold NotificationSystem.checkForExpiringTags. simpl.
  rewrite scan_flat_map. simpl. rewrite in_flat_map.
  split.
  - intros [tag [Htag Hn]]. exists tag.
    apply visibleTags_In in Htag. destruct Htag as [Htag Hv].
    unfold Db.mrdTags_listActive in Htag.
    apply In_orderByDiscardTime, filter_In in Htag. destruct Htag as [Hin Hact].
    repeat split; auto. destruct (MRDTag.status tag); [reflexivity | |]; discriminate.
  - intros [tag [Hin [Hact [Hv Hn]]]]. exists tag. split; [| exact Hn].
    apply visibleTags_In. split; [| exact Hv].
    unfold Db.mrdTags_listActive. apply In_orderByDiscardTime, filter_In.
    split; [exact Hin | rewrite Hact; reflexivity].
Qed.

(** After a successful tick the live events are exactly the events of the
    tags that are active in the store and visible to the viewer: nothing is
    raised for a discarded tag or for a tag of another location when the
    viewer is kitchen staff, and no expired or expiring tag is missed. *)
Theorem live_events_after_tick (auth : NotificationSystem.Auth) (now : Date)
    (w : NotificationSystem.World) (n : NotificationData.t) :
  (In n (NotificationSystem.notifications
           (NotificationSystem.checkForExpiringTags auth now true w))
   <-> exists tag,
         In tag (Db.mrdTags (NotificationSystem.db w))
         /\ MRDTag.status tag = active
         /\ visibleTo auth tag
         /\ In n (NotificationSystem.pushFor now [] tag))
  /\ (forall tag u loc,
        NotificationSystem.user auth = Some u ->
        NotificationSystem.selectedLocation auth = Some loc ->
        User.role u = "kitchen"%string ->
        (visibleTo auth tag <-> MRDTag.locationId tag = Location.id loc))
  /\ (forall tag,
        (forall u, NotificationSystem.user auth = Some u ->
                   User.role u <> "kitchen"%string) ->
        visibleTo auth tag).
Proof.
  split; [| split].
  - apply tick_events_iff.
  - intros tag u loc Hu Hl Hr. unfold visibleTo, NotificationSystem.visibleTags.
    rewrite Hu, Hl, Hr. simpl.
    destruct (String.eqb_spec (MRDTag.locationId tag) (Location.id loc)); split;
      intros; auto; try discriminate; contradiction.
  - intros tag Hrole. unfold visibleTo, NotificationSystem.visibleTags.
    destruct (NotificationSystem.user auth) as [u |]; [| reflexivity].
    destruct (NotificationSystem.selectedLocation auth); [| reflexivity].
    destruct (String.eqb_spec (User.role u) "kitchen") as [E | _]; [| reflexivity].
    destruct (Hrole u eq_refl E).
Qed.

(** As time goes on, the alert of a tag only escalates: a tag that raises a
    critical event at one instant raises a critical event at every later
    instant, and a tag that raises a warning raises a warning or a critical
    event later. *)
Theorem alerts_only_escalate (now later : Date) (tag : MRDTag.t) :
  now <= later ->
  match map NotificationData.type (NotificationSystem.pushFor now [] tag) with
  | [critical] =>
      map NotificationData.type (NotificationSystem.pushFor later [] tag) = [critical]
  | [warning] =>
      map NotificationData.type (NotificationSystem.pushFor later [] tag) = [warning]
      \/ map NotificationData.type (NotificationSystem.pushFor later [] tag) = [critical]
  | _ => True
  end.
Proof.
  intros Hle.
  destruct (pushFor_cases now tag) as [[H1 [n [E [Ht _]]]] | [[H1 [n [E [Ht _]]]] | [_ E]]];
    rewrite E; simpl; [| | exact I]; rewrite Ht;
    destruct (pushFor_cases later tag)
      as [[H2 [m [F [Hm _]]]] | [[H2 [m [F [Hm _]]]] | [H2 F]]];
    rewrite F; simpl; try rewrite Hm; cbv zeta in *; auto; exfalso; lia.
Qed.

Lemma alerts_only_escalate_witness :
  match map NotificationData.type
          (NotificationSystem.pushFor 1000 [] (sampleTag "t1" 0 2000)) with
  | [critical] =>
      map NotificationData.type
        (NotificationSystem.pushFor 3000 [] (sampleTag "t1" 0 2000)) = [critical]
  | [warning] =>
      map NotificationData.type
        (NotificationSystem.pushFor 3000 [] (sampleTag "t1" 0 2000)) = [warning]
      \/ map NotificationData.type
           (NotificationSystem.pushFor 3000 [] (sampleTag "t1" 0 2000)) = [critical]
  | _ => True
  end.
Proof.
  apply (alerts_only_escalate 1000 3000 (sampleTag "t1" 0 2000)). lia.
Defined.

(** ** From the forms to the alerts *)

Lemma expiring_id_injective (a b : string) :
  append "expiring_" a = append "expiring_" b -> a = b.
Proof. simpl. intros [= E]. exact E. Qed.

(** A tag saved from the tag form is fetched by the following ticks: once
    its discard time (the made time of the form plus the discard offset of
    the product) is passed, a tick raises the critical event of this tag for
    every viewer who sees its location. *)
Theorem created_tag_is_raised (tz : Z) (now later : Date) (user loc : string)
    (db : Db.t) (st : CreateTag.State) (p : Product.t)
    (auth : NotificationSystem.Auth) (w : NotificationSystem.World) :
  CreateTag.selectedProduct st = Some p ->
  Product.timeType p = "hours"%string ->
  NotificationSystem.db w = fst (CreateTag.handleSave tz now user loc true (db, st)) ->
  (forall tag, MRDTag.locationId tag = CreateTag.locationId (CreateTag.formData st) ->
               visibleTo auth tag) ->
  CreateTag.madeTime (CreateTag.formData st) + Product.discardTimeMinutes p * 60000 < later ->
  exists n,
    In n (NotificationSystem.notifications
            (NotificationSystem.checkForExpiringTags auth later true w))
    /\ NotificationData.type n = critical
    /\ NotificationData.id n = append "expired_" (append "tag_" (string_of_Z now)).
Proof.
  intros Hsel Htype Hdb Hvis Hlate.
  unfold CreateTag.handleSave in Hdb. rewrite Hsel in Hdb.
  rewrite (calculateTimes_hours tz p _ Htype) in Hdb. simpl in Hdb.
  set (tagData := MRDTag.mk (append "tag_" (string_of_Z now))
                    (CreateTag.productId (CreateTag.formData st))
                    (CreateTag.locationId (CreateTag.formData st)) user
                    (CreateTag.quantity (CreateTag.formData st))
                    (Some (CreateTag.batchNumber (CreateTag.formData st)))
                    (CreateTag.notes (CreateTag.formData st))
                    (CreateTag.madeTime (CreateTag.formData st))
                    (CreateTag.madeTime (CreateTag.formData st)
                     + Product.readyTimeMinutes p * millisecondsInMinute)
                    (CreateTag.madeTime (CreateTag.formData st)
                     + Product.discardTimeMinutes p * millisecondsInMinute)
                    active "0" None None None) in *.
  destruct (pushFor_cases later tagData) as [[_ [n [E [Ht Hi]]]] | [[Hx _] | [Hx _]]];
    try (cbv zeta in Hx; simpl in Hx; unfold millisecondsInMinute in Hx; lia).
  exists n. split; [| split; [exact Ht | exact Hi]].
  apply (tick_events_iff auth later w n). exists tagData.
  rewrite Hdb. simpl. repeat split.
  - apply in_or_app. right. left. reflexivity.
  - apply Hvis. reflexivity.
  - rewrite E. left. reflexivity.
Qed.

Lemma created_tag_is_raised_witness :
  exists n,
    In n (NotificationSystem.notifications
            (NotificationSystem.checkForExpiringTags sampleAuth 20000000 true
               (NotificationSystem.initial
                  (fst (CreateTag.handleSave 0 7 "user_1" "loc_1" true
                          (emptyDb,
                           CreateTag.mkState [sampleProduct 60 240]
                             (CreateTag.mkFormData "prod_1" "loc_1" 1 "" "" 0)
                             None false))))))
    /\ NotificationData.type n = critical
    /\ NotificationData.id n = append "expired_" (append "tag_" (string_of_Z 7)).
Proof.
  apply (created_tag_is_raised 0 7 20000000 "user_1" "loc_1" emptyDb
           (CreateTag.mkState [sampleProduct 60 240]
              (CreateTag.mkFormData "prod_1" "loc_1" 1 "" "" 0) None false)
           (sampleProduct 60 240) sampleAuth).
  - reflexivity.
  - reflexivity.
  - reflexivity.
  - intros tag _. reflexivity.
  - simpl. lia.
Defined.

(** Once a tag has been discarded from the active-tags table, no tick
    raises an event for a tag with this id any more, whoever the viewer
    is. *)
Theorem discarded_tag_is_not_raised (now later : Date) (tagId : string) (db : Db.t)
    (auth : NotificationSystem.Auth) (w : NotificationSystem.World)
    (n : NotificationData.t) :
  NotificationSystem.db w = ActiveTagsDashboard.handleDiscardTag now true true tagId db ->
  In n (NotificationSystem.notifications
          (NotificationSystem.checkForExpiringTags auth later true w)) ->
  NotificationData.id n <> append "expired_" tagId
  /\ NotificationData.id n <> append "expiring_" tagId.
Proof.
  intros Hdb Hin.
  apply (tick_events_iff auth later w n) in Hin.
  destruct Hin as [tag [Hmem [Hact [_ Hn]]]].
  rewrite Hdb in Hmem. unfold ActiveTagsDashboard.handleDiscardTag in Hmem. simpl in Hmem.
  apply in_map_iff in Hmem. destruct Hmem as [t0 [Ht0 _]].
  assert (Hne : MRDTag.id tag <> tagId).
  { intros Heq. destruct (String.eqb (MRDTag.id t0) tagId) eqn:E0.
    - subst tag. simpl in Hact. discriminate.
    - subst tag. apply String.eqb_neq in E0. contradiction. }
  rewrite (pushFor_id later tag n Hn).
  destruct (NotificationData.type n); split; intros E;
    try (apply expired_id_injective in E; contradiction);
    try (apply expiring_id_injective in E; contradiction);
    simpl in E; discriminate.
Qed.

Lemma discarded_tag_is_not_raised_witness :
  NotificationData.id
    (NotificationData.mk "expired_t2" critical "PRODUCT EXPIRED"
       "Soup has expired and must be discarded immediately!" None
       (Some "Soup"%string) (Some "Kitchen"%string) (Some "EXPIRED"%string) 1000)
  <> append "expired_" "t1"
  /\ NotificationData.id
       (NotificationData.mk "expired_t2" critical "PRODUCT EXPIRED"
          "Soup has expired and must be discarded immediately!" None
          (Some "Soup"%string) (Some "Kitchen"%string) (Some "EXPIRED"%string) 1000)
     <> append "expiring_" "t1".
Proof.
  apply (discarded_tag_is_not_raised 500 1000 "t1" twoExpired sampleAuth
           (NotificationSystem.initial
              (ActiveTagsDashboard.handleDiscardTag 500 true true "t1" twoExpired))).
  - reflexivity.
  - vm_compute. left. reflexivity.
Defined.

(** ** The order of the live events *)

Lemma insertByDiscardTime_ascending (tag : MRDTag.t) (l : list MRDTag.t) :
  ascending l -> ascending (Db.insertByDiscardTime tag l).
Proof.
  induction l as [| x l IH]; simpl.
  - intros _. split; [intros other [] | exact I].
  - intros [Hx Hl].
    destruct (MRDTag.discardTime tag <? MRDTag.discardTime x) eqn:E; simpl.
    + apply Z.ltb_lt in E. split; [| split; assumption].
      intros other [<- | Hin]; [lia |]. specialize (Hx other Hin). lia.
    + apply Z.ltb_ge in E. split; [| exact (IH Hl)].
      intros other Hin. apply In_insertByDiscardTime in Hin.
      destruct Hin as [-> | Hin]; [exact E | exact (Hx other Hin)].
Qed.

Lemma orderByDiscardTime_ascending (l : list MRDTag.t) :
  ascending (Db.orderByDiscardTime l).
Proof.
  unfold Db.orderByDiscardTime. induction l as [| x l IH]; simpl; [exact I |].
  apply insertByDiscardTime_ascending, IH.
Qed.

Lemma filter_ascending (f : MRDTag.t -> bool) (l : list MRDTag.t) :
  ascending l -> ascending (filter f l).
Proof.
  induction l as [| x l IH]; simpl; [auto |]. intros [Hx Hl].
  destruct (f x); simpl; [| exact (IH Hl)].
  split; [| exact (IH Hl)]. intros other Hin. apply filter_In in Hin. apply Hx. tauto.
Qed.

Lemma visibleTags_ascending (auth : NotificationSystem.Auth) (l : list MRDTag.t) :
  ascending l -> ascending (NotificationSystem.visibleTags auth l).
Proof.
  intros H. unfold NotificationSystem.visibleTags.
  destruct (NotificationSystem.user auth) as [u |]; [| exact H].
  destruct (NotificationSystem.selectedLocation auth); [| exact H].
  destruct (String.eqb (User.role u) "kitchen"); [| exact H].
  apply filter_ascending, H.
Qed.

Lemma no_critical_before_discard (now : Date) (l : list MRDTag.t) :
  (forall tag, In tag l -> now <= MRDTag.discardTime tag) ->
  filter isCritical (flat_map (NotificationSystem.pushFor now []) l) = [].
Proof.
  induction l as [| x l IH]; intros H; simpl; [reflexivity |].
  rewrite filter_app, IH by (intros tag Hin; apply H; right; exact Hin).
  rewrite app_nil_r.
  pose proof (H x (or_introl eq_refl)) as Hx.
  destruct (pushFor_cases now x) as [[H1 _] | [[_ [n [E [Ht _]]]] | [_ E]]].
  - cbv zeta in H1. lia.
  - rewrite E. simpl. unfold isCritical. rewrite Ht. reflexivity.
  - rewrite E. reflexivity.
Qed.

Lemma nothing_long_before_discard (now : Date) (l : list MRDTag.t) :
  (forall tag, In tag l -> 1860000 <= MRDTag.discardTime tag - now) ->
  flat_map (NotificationSystem.pushFor now []) l = [].
Proof.
  induction l as [| x l IH]; intros H; simpl; [reflexivity |].
  rewrite IH by (intros tag Hin; apply H; right; exact Hin).
  rewrite app_nil_r.
  pose proof (H x (or_introl eq_refl)) as Hx.
  destruct (pushFor_cases now x) as [[H1 _] | [[H1 _] | [_ E]]];
    [cbv zeta in H1; lia | cbv zeta in H1; lia | exact E].
Qed.

Lemma ascending_events (now : Date) (l : list MRDTag.t) :
  ascending l ->
  let events := flat_map (NotificationSystem.pushFor now []) l in
  events = filter isCritical events ++ filter isWarning events
  /\ Front.nextNotification events
     = match l with
       | [] => None
       | first :: _ => hd_error (NotificationSystem.pushFor now [] first)
       end.
Proof.
  cbv zeta. induction l as [| x l IH]; [intros _; split; reflexivity |].
  intros [Hx Hl]. destruct (IH Hl) as [IH1 _]. clear IH.
  simpl flat_map. rewrite !filter_app.
  destruct (pushFor_cases now x) as [[H1 [n [E [Ht _]]]] | [[H1 [n [E [Ht _]]]] | [H1 E]]];
    rewrite E; cbv zeta in H1.
  - assert (Hc : isCritical n = true) by (unfold isCritical; rewrite Ht; reflexivity).
    assert (Hw : isWarning n = false) by (unfold isWarning; rewrite Ht; reflexivity).
    simpl. rewrite Hc, Hw. simpl.
    split; [f_equal; exact IH1 |].
    unfold Front.nextNotification, Front.criticalNotifications. simpl. rewrite Ht. reflexivity.
  - assert (Hnone : filter isCritical (flat_map (NotificationSystem.pushFor now []) l) = []).
    { apply no_critical_before_discard. intros tag Hin. specialize (Hx tag Hin). lia. }
    assert (Hc : isCritical n = false) by (unfold isCritical; rewrite Ht; reflexivity).
    assert (Hw : isWarning n = true) by (unfold isWarning; rewrite Ht; reflexivity).
    simpl. rewrite Hc, Hw, Hnone. simpl.
    rewrite Hnone in IH1. simpl in IH1.
    split; [f_equal; exact IH1 |].
    unfold Front.nextNotification, Front.criticalNotifications, Front.warningNotifications.
    simpl. rewrite Ht. simpl. fold isCritical. rewrite Hnone. reflexivity.
  - assert (Hnone : flat_map (NotificationSystem.pushFor now []) l = []).
    { apply nothing_long_before_discard. intros tag Hin. specialize (Hx tag Hin). lia. }
    rewrite Hnone. split; reflexivity.
Qed.

(** The tags a tick scans come in the order of their discard times.  So in
    the live list all critical events stand before all warnings, and the
    notification selected for display is the event of the scanned tag with
    the earliest discard time (there is none exactly when this tag is
    neither expired nor expiring, and then nothing is live). *)
Theorem earliest_discard_comes_first (auth : NotificationSystem.Auth) (now : Date)
    (w : NotificationSystem.World) :
  let scanned := NotificationSystem.visibleTags auth
                   (Db.mrdTags_listActive (NotificationSystem.db w)) in
  let events := NotificationSystem.notifications
                  (NotificationSystem.checkForExpiringTags auth now true w) in
  ascending scanned
  /\ events = filter isCritical events ++ filter isWarning events
  /\ Front.nextNotification events
     = match scanned with
       | [] => None
       | first :: _ => hd_error (NotificationSystem.pushFor now [] first)
       end
  /\ (Front.nextNotification events = None -> events = []).
Proof.
  cbv zeta.
  assert (Ha : ascending (NotificationSystem.visibleTags auth
                            (Db.mrdTags_listActive (NotificationSystem.db w)))).
  { apply visibleTags_ascending. unfold Db.mrdTags_listActive.
    apply orderByDiscardTime_ascending. }
  unfold NotificationSystem.checkForExpiringTags. simpl. rewrite scan_flat_map. simpl.
  destruct (ascending_events now _ Ha) as [H1 H2].
  repeat split; auto. apply nextNotification_none.
Qed.

(** ** Acknowledging and reloading in the dashboard *)

Lemma active_after_discard (tagId locationId : string) (patchTime : Date) (d : Db.t)
    (tag : MRDTag.t) :
  In tag (Db.mrdTags_listActiveAt locationId
            (Db.mrdTags_update tagId (Dashboard.discardPatch patchTime) d)) ->
  MRDTag.id tag <> tagId.
Proof.
  unfold Db.mrdTags_listActiveAt. intros Hin.
  apply In_orderByDiscardTime, filter_In in Hin. destruct Hin as [Hmem Hact].
  apply andb_true_iff in Hact. destruct Hact as [_ Hact].
  unfold Db.mrdTags_update in Hmem. simpl in Hmem.
  apply in_map_iff in Hmem. destruct Hmem as [t0 [Ht0 _]].
  intros Heq. destruct (String.eqb (MRDTag.id t0) tagId) eqn:E0.
  - subst tag. simpl in Hact. discriminate.
  - subst tag. apply String.eqb_neq in E0. contradiction.
Qed.

Lemma no_expired_event_without_tag (now : Date) (products : list Product.t)
    (loc : option Location.t) (tagId : string) (tags : list MRDTag.t) :
  (forall tag, In tag tags -> MRDTag.id tag <> tagId) ->
  existsb (hasId (append "expired-" tagId))
    (fold_left (Dashboard.pushFor now products loc) tags []) = false.
Proof.
  intros Hne. rewrite Dashboard_scan_flat_map. simpl.
  destruct (existsb _ _) eqn:E; [| reflexivity]. exfalso.
  apply existsb_exists in E. destruct E as [n [Hin Hid]].
  unfold hasId in Hid. apply String.eqb_eq in Hid.
  apply in_flat_map in Hin. destruct Hin as [tag [Htag Hn]].
  specialize (Hne tag Htag).
  destruct (Dashboard_pushFor_cases now products loc tag)
    as [[_ [m [Em [_ [Hi _]]]]] | [[_ [m [Em [_ [Hi _]]]]] | [_ Em]]];
    rewrite Em in Hn; simpl in Hn; try tauto;
    destruct Hn as [<- | []]; rewrite Hi in Hid; simpl in Hid.
  - injection Hid as Hid. contradiction.
  - discriminate.
Qed.

(** The interval tick of the dashboard scans the copy of the tags the
    dashboard loaded last, not the store.  When a critical event has been
    acknowledged and its tag discarded in the store, the following interval
    ticks raise no expired event for this tag if the reload succeeded; if
    the reload failed, the next interval tick raises what it would have
    raised without the acknowledgement. *)
Theorem acknowledged_in_dashboard (now later : Date) (loc : Location.t) (loadOk : bool)
    (id tagId : string) (w : Dashboard.World) :
  Dashboard.tagToDiscard id w = Some tagId ->
  let w' := Dashboard.handleNotificationMarkAsHandled now (Some loc) true loadOk id w in
  let raised := Dashboard.notifications
                  (Dashboard.checkForExpiringTags later (Some loc) None w') in
  Dashboard.db w' = Db.mrdTags_update tagId (Dashboard.discardPatch now) (Dashboard.db w)
  /\ (if loadOk
      then existsb (hasId (append "expired-" tagId)) raised = false
      else raised = Dashboard.notifications
                      (Dashboard.checkForExpiringTags later (Some loc) None w)).
Proof.
  intros Ht. cbv zeta. split.
  - rewrite handleNotificationMarkAsHandled_db, Ht. reflexivity.
  - unfold Dashboard.handleNotificationMarkAsHandled. rewrite Ht.
    destruct loadOk; unfold Dashboard.loadData, Dashboard.checkForExpiringTags; simpl.
    + apply no_expired_event_without_tag. intros tag Hin.
      exact (active_after_discard _ _ _ _ _ Hin).
    + reflexivity.
Qed.

Lemma acknowledged_in_dashboard_witness :
  let w := Dashboard.render
             (Dashboard.loadData 1000 sampleLocation true (Dashboard.initial oneExpired)) in
  let w' := Dashboard.handleNotificationMarkAsHandled 2000
              (Some (Location.mk "loc_1" "Kitchen")) true false "expired-t1" w in
  let raised := Dashboard.notifications
                  (Dashboard.checkForExpiringTags 31000
                     (Some (Location.mk "loc_1" "Kitchen")) None w') in
  Dashboard.db w' = Db.mrdTags_update "t1" (Dashboard.discardPatch 2000) (Dashboard.db w)
  /\ (if false
      then existsb (hasId (append "expired-" "t1")) raised = false
      else raised = Dashboard.notifications
                      (Dashboard.checkForExpiringTags 31000
                         (Some (Location.mk "loc_1" "Kitchen")) None w)).
Proof.
  apply (acknowledged_in_dashboard 2000 31000 (Location.mk "loc_1" "Kitchen") false
           "expired-t1" "t1"
           (Dashboard.render
              (Dashboard.loadData 1000 sampleLocation true (Dashboard.initial oneExpired)))).
  reflexivity.
Defined.

(** While the dashboard loads it shows only the spinner, so the notification
    component starts afresh after every load, successful or not: the render
    after a load plays the sound whenever the next notification is critical,
    also when that notification was the current one before the load. *)
Theorem load_replays_the_sound (now : Date) (loc : Location.t) (fetchOk : bool)
    (w : Dashboard.World) :
  let w' := Dashboard.render (Dashboard.loadData now (Some loc) fetchOk w) in
  Front.sounds (Dashboard.front w')
  = (Front.sounds (Dashboard.front w)
     + match Front.nextNotification (Dashboard.notifications w') with
       | Some n => if isCritical n then 1 else 0
       | None => 0
       end)%nat
  /\ Front.currentNotification (Dashboard.front w')
     = Front.nextNotification (Dashboard.notifications w')
  /\ (fetchOk = false -> Dashboard.notifications w' = Dashboard.notifications w).
Proof.
  cbv zeta. unfold Dashboard.render, Dashboard.loadData.
  destruct fetchOk; simpl; unfold Front.effect; simpl;
    match goal with
    | |- context [Front.nextNotification ?l] =>
        destruct (Front.nextNotification l) as [n |]
    end; simpl; unfold isCritical;
    try (destruct (NotificationData.type n)); simpl; repeat split; intros;
    try discriminate; try lia; reflexivity.
Qed.

(** ** Saving and printing a tag *)

(** Saving the tag form and printing the preview: the store gains exactly
    one tag, an active one with the made time of the form and the ready and
    discard times the resolver returned; it is marked printed, as is every
    tag that happens to carry the same id; every other tag is left as it
    was; and the preview is closed. *)
Theorem save_then_print (tz : Z) (now : Date) (user loc : string) (db : Db.t)
    (st : CreateTag.State) (p : Product.t) (readyAt discardAt : Date) :
  CreateTag.selectedProduct st = Some p ->
  CreateTag.calculateTimes tz (Some p) (CreateTag.madeTime (CreateTag.formData st))
  = CreateTag.mkTimes (Some readyAt) (Some discardAt) ->
  let printed := CreateTag.handlePrint true
                   (CreateTag.handleSave tz now user loc true (db, st)) in
  let newId := append "tag_" (string_of_Z now) in
  List.length (Db.mrdTags (fst printed)) = S (List.length (Db.mrdTags db))
  /\ (exists tag,
        In tag (Db.mrdTags (fst printed))
        /\ MRDTag.id tag = newId
        /\ MRDTag.status tag = active
        /\ MRDTag.madeTime tag = CreateTag.madeTime (CreateTag.formData st)
        /\ MRDTag.readyTime tag = readyAt
        /\ MRDTag.discardTime tag = discardAt)
  /\ (forall tag, In tag (Db.mrdTags (fst printed)) -> MRDTag.id tag = newId ->
                  MRDTag.isPrinted tag = "1"%string)
  /\ (forall tag, In tag (Db.mrdTags db) -> MRDTag.id tag <> newId ->
                  In tag (Db.mrdTags (fst printed)))
  /\ CreateTag.previewTag (snd printed) = None
  /\ CreateTag.isPreviewOpen (snd printed) = false.
Proof.
  intros Hsel Htimes. cbv zeta.
  unfold CreateTag.handleSave. rewrite Hsel, Htimes.
  remember (append "tag_" (string_of_Z now)) as newId eqn:Hnew. simpl.
  rewrite !length_map, length_app. simpl.
  split; [lia |]. split; [| split; [| split; [| split; reflexivity]]].
  - eexists. split.
    + rewrite map_app. apply in_or_app. right. simpl. rewrite String.eqb_refl.
      left. reflexivity.
    + simpl. repeat split.
  - intros tag Hin Hid. apply in_map_iff in Hin. destruct Hin as [t0 [Ht0 _]].
    destruct (String.eqb (MRDTag.id t0) newId) eqn:E.
    + subst tag. reflexivity.
    + subst tag. apply String.eqb_neq in E. contradiction.
  - intros tag Hin Hne. apply in_map_iff. exists tag. split.
    + apply String.eqb_neq in Hne. rewrite Hne. reflexivity.
    + apply in_or_app. left. exact Hin.
Qed.

Lemma save_then_print_witness :
  let st := CreateTag.mkState [sampleProduct 60 240]
              (CreateTag.mkFormData "prod_1" "loc_1" 1 "" "" 0) None false in
  let printed := CreateTag.handlePrint true
                   (CreateTag.handleSave 0 7 "user_1" "loc_1" true (oneExpired, st)) in
  let newId := append "tag_" (string_of_Z 7) in
  List.length (Db.mrdTags (fst printed)) = S (List.length (Db.mrdTags oneExpired))
  /\ (exists tag,
        In tag (Db.mrdTags (fst printed))
        /\ MRDTag.id tag = newId
        /\ MRDTag.status tag = active
        /\ MRDTag.madeTime tag = CreateTag.madeTime (CreateTag.formData st)
        /\ MRDTag.readyTime tag = 3600000
        /\ MRDTag.discardTime tag = 14400000)
  /\ (forall tag, In tag (Db.mrdTags (fst printed)) -> MRDTag.id tag = newId ->
                  MRDTag.isPrinted tag = "1"%string)
  /\ (forall tag, In tag (Db.mrdTags oneExpired) -> MRDTag.id tag <> newId ->
                  In tag (Db.mrdTags (fst printed)))
  /\ CreateTag.previewTag (snd printed) = None
  /\ CreateTag.isPreviewOpen (snd printed) = false.
Proof.
  apply (save_then_print 0 7 "user_1" "loc_1" oneExpired
           (CreateTag.mkState [sampleProduct 60 240]
              (CreateTag.mkFormData "prod_1" "loc_1" 1 "" "" 0) None false)
           (sampleProduct 60 240) 3600000 14400000).
  - reflexivity.
  - reflexivity.
Defined.
